(** * Stock market data pipeline: a shallow embedding and its properties

    The development follows the repository's scripts:
    - [scripts/alpha_vantage_api_commented.py] (class [AlphaVantageAPI]),
    - [scripts/api_client.py] (class [AlphaVantageClient]),
    - [scripts/stock_downloader_commented.py] (class [StockDataDownloader]),
    - [scripts/stock_storage_commented.py] (class [StockDataStorage]),
    - [scripts/stock_storage_poo.py] and [scripts/db_connector.py] (the
      batch insert through [DatabaseConnector]),
    - [scripts/Downloader.py], [scripts/main.py], [scripts/base.py] and
      [webapp/app.py].

    Python values are modelled as JSON-like trees, exceptions as an explicit
    result type, the database, the clock and the remote API as explicit
    state or as oracles supplied by the environment. *)

From Stdlib Require Import ZArith QArith List String Ascii Bool Lia Lqa.
From Stdlib Require Import Permutation Sorted.
From stdpp Require Import gmap strings.
Import ListNotations.

Set Warnings "-register-all".

Local Open Scope Z_scope.
Local Open Scope string_scope.
Local Open Scope list_scope.

(* ===================================================================== *)
(** * Python values, exceptions and built-ins *)
(* ===================================================================== *)

Module Py.

(** The exception classes the modelled code can raise. *)
Inductive exn : Type :=
| KeyError (key : string)
| TypeError
| ValueError
| AttributeError
| OverflowError
| DatabaseError
| RequestException
| JSONDecodeError
| RecursionError
| OSError
| Exception (msg : string).

(** Outcome of evaluating a Python expression or call. *)
Inductive result (A : Type) : Type :=
| Ok (a : A)
| Raise (e : exn).
Arguments Ok {A} a.
Arguments Raise {A} e.

Definition bind {A B} (m : result A) (k : A -> result B) : result B :=
  match m with
  | Ok a => k a
  | Raise e => Raise e
  end.

Definition is_ok {A} (m : result A) : bool :=
  match m with Ok _ => true | Raise _ => false end.

(** What a call writes besides its return value: [print] to the console,
    [logger.error]/[logger.info] to the log. *)
Inductive output : Type :=
| Print (msg : string)
| LogError (msg : string)
| LogInfo (msg : string).

(** The interpreter's numeric conversions.  [float()] and [int()] are
    built-ins, not code of the repository: they are an interface here,
    and every theorem below holds for all its implementations. *)
Class Builtins : Type := {
  pyfloat : Type;
  float_of_str : string -> option pyfloat;   (* float("1.5"), ValueError on None *)
  float_of_int : Z -> option pyfloat;        (* float(10**400): OverflowError    *)
  float_is_zero : pyfloat -> bool;           (* truth value of a float            *)
  int_of_str : string -> option Z;           (* int("12"), ValueError on None    *)
  int_of_float : pyfloat -> result Z         (* int(nan), int(inf) raise          *)
}.

Section Values.
Context {B : Builtins}.

(** What [response.json()] and [json.load] can produce; objects keep the
    order of their members, as Python dictionaries do.  Strings are the
    UTF-8 bytes of the Python string: byte-wise lexicographic order on
    them is Python's code-point order. *)
Inductive pyval : Type :=
| VNone
| VBool (b : bool)
| VInt (z : Z)
| VFloat (f : pyfloat)
| VStr (s : string)
| VList (l : list pyval)
| VDict (d : list (string * pyval)).

Definition pydict : Type := list (string * pyval).

(** [bool(v)], as used by [not v] and [if v]. *)
Definition truthy (v : pyval) : bool :=
  match v with
  | VNone => false
  | VBool b => b
  | VInt z => negb (Z.eqb z 0)
  | VFloat f => negb (float_is_zero f)
  | VStr s => negb (String.eqb s "")
  | VList l => match l with [] => false | _ => true end
  | VDict d => match d with [] => false | _ => true end
  end.

(** [d.get(k)] on the members of a dictionary: first member named [k]. *)
Fixpoint lookup (k : string) (d : pydict) : option pyval :=
  match d with
  | [] => None
  | (k', v) :: d' => if String.eqb k k' then Some v else lookup k d'
  end.

Definition has_key (k : string) (d : pydict) : bool :=
  match lookup k d with Some _ => true | None => false end.

(** [needle in hay] for two strings. *)
Fixpoint is_substring (needle hay : string) : bool :=
  String.prefix needle hay ||
  match hay with
  | EmptyString => false
  | String _ hay' => is_substring needle hay'
  end.

Definition is_str (k : string) (v : pyval) : bool :=
  match v with VStr s => String.eqb k s | _ => false end.

(** [k in v] for a string [k]: key test on a dictionary, element test on
    a list, substring test on a string, TypeError on anything else. *)
Definition contains (k : string) (v : pyval) : result bool :=
  match v with
  | VDict d => Ok (has_key k d)
  | VList l => Ok (existsb (is_str k) l)
  | VStr s => Ok (is_substring k s)
  | _ => Raise TypeError
  end.

(** [v[k]] for a string [k]. *)
Definition subscript (v : pyval) (k : string) : result pyval :=
  match v with
  | VDict d =>
      match lookup k d with
      | Some x => Ok x
      | None => Raise (KeyError k)
      end
  | _ => Raise TypeError
  end.

(** [v.items()]. *)
Definition items (v : pyval) : result (list (string * pyval)) :=
  match v with
  | VDict d => Ok d
  | _ => Raise AttributeError
  end.

(** [float(v)]. *)
Definition py_float (v : pyval) : result pyfloat :=
  match v with
  | VStr s =>
      match float_of_str s with Some f => Ok f | None => Raise ValueError end
  | VInt z =>
      match float_of_int z with Some f => Ok f | None => Raise OverflowError end
  | VBool b =>
      match float_of_int (if b then 1 else 0) with
      | Some f => Ok f
      | None => Raise OverflowError
      end
  | VFloat f => Ok f
  | VNone | VList _ | VDict _ => Raise TypeError
  end.

(** [int(v)]. *)
Definition py_int (v : pyval) : result Z :=
  match v with
  | VStr s =>
      match int_of_str s with Some z => Ok z | None => Raise ValueError end
  | VInt z => Ok z
  | VBool b => Ok (if b then 1 else 0)
  | VFloat f => int_of_float f
  | VNone | VList _ | VDict _ => Raise TypeError
  end.

End Values.

End Py.

Import Py.

Declare Scope py_scope.
Notation "'let*' x ':=' m 'in' k" := (bind m (fun x => k))
  (at level 10, x name, m at level 100, k at level 200) : py_scope.
Notation "'let*' ' p ':=' m 'in' k" := (bind m (fun p => k))
  (at level 10, p pattern, m at level 100, k at level 200) : py_scope.
Local Open Scope py_scope.

(** The key every parser looks for. *)
Definition TIME_SERIES_KEY : string := "Time Series (Daily)".

(* ===================================================================== *)
(** * [list.sort(key=lambda x: x['date'], reverse=True)] *)
(* ===================================================================== *)

Module DateSort.
Section Sort.
Variable A : Type.
Variable date_of : A -> string.

(** Descending insertion that keeps a new element in front of the
    elements with an equal key: inserting the elements from the right
    yields the stable descending sort, which is what [list.sort] with
    [reverse=True] computes. *)
Fixpoint insert_desc (x : A) (l : list A) : list A :=
  match l with
  | [] => [x]
  | y :: l' =>
      if String.ltb (date_of x) (date_of y)
      then y :: insert_desc x l'
      else x :: y :: l'
  end.

Fixpoint sort_desc (l : list A) : list A :=
  match l with
  | [] => []
  | x :: l' => insert_desc x (sort_desc l')
  end.

(** [a] may stand before [b] in a most-recent-first list. *)
Definition date_ge (a b : A) : Prop :=
  String.ltb (date_of a) (date_of b) = false.

End Sort.
Arguments insert_desc {A}.
Arguments sort_desc {A}.
Arguments date_ge {A}.
End DateSort.

(* ===================================================================== *)
(** * The clock and the remote API *)
(* ===================================================================== *)

(** The environment of a run: what the remote API answers to the n-th
    request and how long the answer takes, and by how much the n-th
    [time.sleep] oversleeps.  Time is in seconds.  The interpreter's own
    steps take no time: the clock moves during [time.sleep], during an HTTP
    request and while the program is idle between calls. *)
Module World.
Local Open Scope Q_scope.
Section World.
Context {B : Builtins}.

(** [requests.get(...)] followed by [raise_for_status()] and [.json()]. *)
Inductive http_outcome : Type :=
| HttpError                 (* requests.exceptions.RequestException *)
| BadJson                   (* json.JSONDecodeError                 *)
| Json (data : pyval).

Record env : Type := {
  response_of : nat -> http_outcome;
  latency_of : nat -> Q;
  overshoot_of : nat -> Q
}.

Record world : Type := {
  clock : Q;                               (* what time.time() returns     *)
  slept : list Q;                          (* arguments of time.sleep      *)
  requests : list (Q * string)             (* start and function of GETs   *)
}.

Definition time_time (w : world) : Q := clock w.

Definition time_sleep (e : env) (secs : Q) (w : world) : world :=
  {| clock := clock w + secs + overshoot_of e (List.length (slept w));
     slept := slept w ++ [secs];
     requests := requests w |}.

Definition requests_get (e : env) (function : string) (w : world)
  : http_outcome * world :=
  let n := List.length (requests w) in
  (response_of e n,
   {| clock := clock w + latency_of e n;
      slept := slept w;
      requests := requests w ++ [(clock w, function)] |}).

(** The program does nothing for [t] seconds. *)
Definition idle (t : Q) (w : world) : world :=
  {| clock := clock w + t; slept := slept w; requests := requests w |}.

(** Time does not run backwards in this environment. *)
Definition well_behaved (e : env) : Prop :=
  forall n, 0 <= latency_of e n /\ 0 <= overshoot_of e n.

Definition Qltb (a b : Q) : bool := negb (Qle_bool b a).

(** ['Note' in data and 'call frequency' in data['Note']] *)
Definition rate_limit_note (data : pyval) : result bool :=
  let* has_note := contains "Note" data in
  if has_note
  then let* note := subscript data "Note" in contains "call frequency" note
  else Ok false.

End World.
End World.

Import World.

(* ===================================================================== *)
(** * JSON reshaping: the [parse_*] methods *)
(* ===================================================================== *)

(** The dictionary literal built for one date of the daily series:
    [{'date': ..., 'open': ..., 'high': ..., 'low': ..., 'close': ...,
      'volume': ...}]. *)
Module Daily.
Section Row.
Context {B : Builtins}.

Record row : Type := {
  date : string;
  open : pyfloat;
  high : pyfloat;
  low : pyfloat;
  close : pyfloat;
  volume : Z
}.

(** The fields of the literal are evaluated left to right; the first
    failing lookup or conversion raises. *)
Definition format_entry (d : string) (values : pyval) : result row :=
  let* o := (let* x := subscript values "1. open" in py_float x) in
  let* h := (let* x := subscript values "2. high" in py_float x) in
  let* l := (let* x := subscript values "3. low" in py_float x) in
  let* c := (let* x := subscript values "4. close" in py_float x) in
  let* v := (let* x := subscript values "5. volume" in py_int x) in
  Ok {| date := d; open := o; high := h; low := l; close := c; volume := v |}.

(** [for date, values in time_series.items(): formatted_data.append(...)] *)
Fixpoint format_loop (entries : list (string * pyval)) (formatted_data : list row)
  : result (list row) :=
  match entries with
  | [] => Ok formatted_data
  | (d, values) :: rest =>
      let* r := format_entry d values in
      format_loop rest (formatted_data ++ [r])
  end.

End Row.
End Daily.

(** The literal built for one date of the adjusted series. *)
Module Adjusted.
Section Row.
Context {B : Builtins}.

Record row : Type := {
  date : string;
  open : pyfloat;
  high : pyfloat;
  low : pyfloat;
  close : pyfloat;
  adjusted_close : pyfloat;
  volume : Z;
  dividend_amount : pyfloat;
  split_coefficient : pyfloat
}.

Definition format_entry (d : string) (values : pyval) : result row :=
  let* o := (let* x := subscript values "1. open" in py_float x) in
  let* h := (let* x := subscript values "2. high" in py_float x) in
  let* l := (let* x := subscript values "3. low" in py_float x) in
  let* c := (let* x := subscript values "4. close" in py_float x) in
  let* a := (let* x := subscript values "5. adjusted close" in py_float x) in
  let* v := (let* x := subscript values "6. volume" in py_int x) in
  let* dv := (let* x := subscript values "7. dividend amount" in py_float x) in
  let* sc := (let* x := subscript values "8. split coefficient" in py_float x) in
  Ok {| date := d; open := o; high := h; low := l; close := c;
        adjusted_close := a; volume := v;
        dividend_amount := dv; split_coefficient := sc |}.

Fixpoint format_loop (entries : list (string * pyval)) (formatted_data : list row)
  : result (list row) :=
  match entries with
  | [] => Ok formatted_data
  | (d, values) :: rest =>
      let* r := format_entry d values in
      format_loop rest (formatted_data ++ [r])
  end.

End Row.
End Adjusted.

(** The guard [if not data or 'Time Series (Daily)' not in data]: [or]
    evaluates its right operand only when the left one is false. *)
Definition no_time_series `{Builtins} (data : pyval) : result bool :=
  if negb (truthy data) then Ok true
  else let* present := contains TIME_SERIES_KEY data in Ok (negb present).

(** [scripts/alpha_vantage_api_commented.py], class [AlphaVantageAPI]. *)
Module AlphaVantageAPI.
Local Open Scope Q_scope.
Section Methods.
Context {B : Builtins}.

Record t : Type := {
  api_key : string;
  base_url : string;
  last_call_timestamp : Q;
  min_call_interval : Q
}.

Definition BASE_URL : string := "https://www.alphavantage.co/query".

(** [__init__]: [api_key or API_KEY]; the module exits at import time when
    [API_KEY] is not set, so [API_KEY] is a non-empty string. *)
Definition init (API_KEY : string) (api_key : option string) : t :=
  {| api_key := match api_key with
                | Some k => if String.eqb k "" then API_KEY else k
                | None => API_KEY
                end;
     base_url := BASE_URL;
     last_call_timestamp := 0;
     min_call_interval := 12 |}.

Definition set_last_call_timestamp (self : t) (ts : Q) : t :=
  {| api_key := api_key self; base_url := base_url self;
     last_call_timestamp := ts; min_call_interval := min_call_interval self |}.

Definition _respect_rate_limit (e : env) (self : t) (w : world) : t * world :=
  let current_time := time_time w in
  let time_since_last_call := current_time - last_call_timestamp self in
  let w1 :=
    if Qltb time_since_last_call (min_call_interval self)
    then
      let sleep_time := min_call_interval self - time_since_last_call in
      time_sleep e sleep_time w
    else w in
  (set_last_call_timestamp self (time_time w1), w1).

(** The body shared by [get_daily_time_series] and [get_daily_adjusted],
    which differ in the [function] request parameter only.  A return
    value of [VNone] is Python's [None].

    The method calls itself after a rate-limit note, one frame deeper on
    the interpreter's stack each time, and the interpreter raises
    RecursionError when a call finds no frame left; the method catches
    RequestException and JSONDecodeError only, so the error leaves it.
    [stack] is the number of frames left when the method is called
    ([sys.getrecursionlimit()] less the frames in use); the method takes
    one for itself, [_respect_rate_limit] needs one below it, and
    [http_frames] is what [requests.get] and the calls on its response
    need below it (the request is taken not to have left when the frames
    run out inside the library).
    With ['Error Message'] found in the answer the method formats
    [data['Error Message']] for [print] before it returns. *)
Fixpoint get_daily (function : string) (http_frames stack : nat) (e : env)
  (self : t) (w : world) : result pyval * t * world :=
  match stack with
  | O => (Raise RecursionError, self, w)
  | S O => (Raise RecursionError, self, w)
  | S room =>
      let '(self1, w1) := _respect_rate_limit e self w in
      if (room <? http_frames)%nat then (Raise RecursionError, self1, w1)
      else
        let '(response, w2) := requests_get e function w1 in
        match response with
        | HttpError => (Ok VNone, self1, w2)
        | BadJson => (Ok VNone, self1, w2)
        | Json data =>
            match contains "Error Message" data with
            | Raise ex => (Raise ex, self1, w2)
            | Ok true =>
                match subscript data "Error Message" with
                | Raise ex => (Raise ex, self1, w2)
                | Ok _ => (Ok VNone, self1, w2)
                end
            | Ok false =>
                match rate_limit_note data with
                | Raise ex => (Raise ex, self1, w2)
                | Ok true =>
                    let w3 := time_sleep e 60 w2 in
                    get_daily function http_frames room e self1 w3
                | Ok false => (Ok data, self1, w2)
                end
            end
        end
  end.

Definition get_daily_time_series := get_daily "TIME_SERIES_DAILY".
Definition get_daily_adjusted := get_daily "TIME_SERIES_DAILY_ADJUSTED".

Definition parse_daily_time_series (data : pyval)
  : list output * result (list Daily.row) :=
  match no_time_series data with
  | Raise e => ([], Raise e)
  | Ok true => ([Print "No hay datos de serie temporal para analizar."], Ok [])
  | Ok false =>
      ([], let* time_series := subscript data TIME_SERIES_KEY in
           let* entries := items time_series in
           let* formatted_data := Daily.format_loop entries [] in
           Ok (DateSort.sort_desc Daily.date formatted_data))
  end.

Definition parse_daily_adjusted (data : pyval)
  : list output * result (list Adjusted.row) :=
  match no_time_series data with
  | Raise e => ([], Raise e)
  | Ok true =>
      ([Print "No hay datos de serie temporal ajustada para analizar."], Ok [])
  | Ok false =>
      ([], let* time_series := subscript data TIME_SERIES_KEY in
           let* entries := items time_series in
           let* formatted_data := Adjusted.format_loop entries [] in
           Ok (DateSort.sort_desc Adjusted.date formatted_data))
  end.

End Methods.
End AlphaVantageAPI.

(** [scripts/api_client.py], class [AlphaVantageClient]. *)
Module AlphaVantageClient.
Local Open Scope Q_scope.
Section Methods.
Context {B : Builtins}.

Record t : Type := {
  api_key : string;
  base_url : string;
  last_call_timestamp : Q;
  min_call_interval : Q
}.

Definition set_last_call_timestamp (self : t) (ts : Q) : t :=
  {| api_key := api_key self; base_url := base_url self;
     last_call_timestamp := ts; min_call_interval := min_call_interval self |}.

Definition handle_rate_limit (e : env) (self : t) (w : world) : t * world :=
  let current_time := time_time w in
  let time_since_last_call := current_time - last_call_timestamp self in
  let w1 :=
    if Qltb time_since_last_call (min_call_interval self)
    then
      let sleep_time := min_call_interval self - time_since_last_call in
      time_sleep e sleep_time w
    else w in
  (set_last_call_timestamp self (time_time w1), w1).

(** [get]: the [function] request parameter stands for [params]. *)
Definition get (function : string) (e : env) (self : t) (w : world)
  : result pyval * t * world :=
  let '(self1, w1) := handle_rate_limit e self w in
  let '(response, w2) := requests_get e function w1 in
  match response with
  | HttpError => (Raise RequestException, self1, w2)
  | BadJson => (Raise JSONDecodeError, self1, w2)
  | Json data =>
      (let* has_error := contains "Error Message" data in
       if has_error
       then let* error_message := subscript data "Error Message" in
            Raise (Exception "Error de Alpha Vantage")
       else let* _ := rate_limit_note data in Ok data,
       self1, w2)
  end.

Definition get_daily_time_series := get "TIME_SERIES_DAILY".
Definition get_daily_adjusted := get "TIME_SERIES_DAILY_ADJUSTED".

Definition parse_daily_time_series (data : pyval)
  : list output * result (list Daily.row) :=
  match no_time_series data with
  | Raise e => ([], Raise e)
  | Ok true => ([LogError "No hay datos de serie temporal para analizar"], Ok [])
  | Ok false =>
      ([], let* time_series := subscript data TIME_SERIES_KEY in
           let* entries := items time_series in
           let* formatted_data := Daily.format_loop entries [] in
           Ok (DateSort.sort_desc Daily.date formatted_data))
  end.

Definition parse_daily_adjusted (data : pyval)
  : list output * result (list Adjusted.row) :=
  match no_time_series data with
  | Raise e => ([], Raise e)
  | Ok true =>
      ([LogError "No hay datos de serie temporal ajustada para analizar"], Ok [])
  | Ok false =>
      ([], let* time_series := subscript data TIME_SERIES_KEY in
           let* entries := items time_series in
           let* formatted_data := Adjusted.format_loop entries [] in
           Ok (DateSort.sort_desc Adjusted.date formatted_data))
  end.

End Methods.
End AlphaVantageClient.

(* ===================================================================== *)
(** * The download loop *)
(* ===================================================================== *)

(** [scripts/stock_downloader_commented.py], class [StockDataDownloader].
    Its collaborators are imported from modules that are not part of the
    sources at hand ([scripts.alpha_vantage_api],
    [scripts.metadata_manager_pyodbc]); what they answer is an input of
    the model. *)
Module StockDataDownloader.
Section Methods.
Context {B : Builtins}.

Record t : Type := {
  output_size : string;
  api_function : string
}.

Record env : Type := {
  (* metadata.get_symbol_by_ticker(ticker)['SymbolID'], None if unknown *)
  symbol_id_of : string -> option Z;
  (* metadata.get_last_download(symbol_id)['EndDate'], as a day number *)
  last_end_date : Z -> option Z;
  (* datetime.now().date() *)
  today : Z;
  (* metadata.add_download_record(...): the new DownloadID, None on error *)
  new_download_id : option Z;
  (* what the API call of the given attempt returns or raises *)
  api_answer : nat -> result pyval;
  (* whether api.save_to_json raises at the given attempt *)
  save_to_json : nat -> result unit
}.

(** What the method does to the outside, in order of occurrence. *)
Record state : Type := {
  api_calls : list string;                       (* API function requested *)
  sleeps : list Z;                               (* time.sleep arguments  *)
  status_updates : list (Z * string * option Z)  (* update_download_status *)
}.

Definition fresh : state :=
  {| api_calls := []; sleeps := []; status_updates := [] |}.

Definition call_api (self : t) (st : state) : state :=
  {| api_calls :=
       api_calls st ++
       [if String.eqb (api_function self) "TIME_SERIES_DAILY"
        then "TIME_SERIES_DAILY" else "TIME_SERIES_DAILY_ADJUSTED"];
     sleeps := sleeps st;
     status_updates := status_updates st |}.

Definition time_sleep (secs : Z) (st : state) : state :=
  {| api_calls := api_calls st;
     sleeps := sleeps st ++ [secs];
     status_updates := status_updates st |}.

Definition update_download_status (download_id : Z) (status : string)
  (end_date : option Z) (st : state) : state :=
  {| api_calls := api_calls st;
     sleeps := sleeps st;
     status_updates := status_updates st ++ [(download_id, status, end_date)] |}.

(** The returned tuple [(download_id, data, success)]. *)
Definition ret : Type := option Z * option pyval * bool.

Definition max_retries : nat := 3.

(** What the body of [try:] does at one attempt, up to the point where it
    leaves the [try]. *)
Inductive attempt_outcome : Type :=
| Succeeds (data : pyval)     (* reaches [return download_id, data, True] *)
| Retries                     (* rate-limit note: sleep and [continue]    *)
| Raises (ex : exn).          (* handled by [except Exception]            *)

Definition try_body (E : env) (attempt : nat) : attempt_outcome :=
  match api_answer E attempt with
  | Raise ex => Raises ex
  | Ok data =>
      if negb (truthy data)
      then Raises (Exception "No se recibieron datos de Alpha Vantage.")
      else
        match contains "Error Message" data with
        | Raise ex => Raises ex
        | Ok true =>
            match subscript data "Error Message" with
            | Raise ex => Raises ex
            | Ok _ => Raises (Exception "Error de Alpha Vantage")
            end
        | Ok false =>
            match rate_limit_note data with
            | Raise ex => Raises ex
            | Ok note =>
                if (note && (attempt <? max_retries)%nat)%bool then Retries
                else
                  match save_to_json E attempt with
                  | Raise ex => Raises ex
                  | Ok _ => Succeeds data
                  end
            end
        end
  end.

(** [for attempt in range(1, max_retries + 1): try: ... except ...].  The
    loop that runs out of attempts without returning falls off the end of
    the method, which then returns Python's [None]: the [None] below. *)
Fixpoint retry_loop (E : env) (self : t) (download_id end_date : Z)
  (attempts : list nat) (retry_delay : Z) (st : state) : option ret * state :=
  match attempts with
  | [] => (None, st)
  | attempt :: rest =>
      let st1 := call_api self st in
      match try_body E attempt with
      | Succeeds data =>
          (Some (Some download_id, Some data, true),
           update_download_status download_id "Completed" (Some end_date) st1)
      | Retries =>
          retry_loop E self download_id end_date rest (retry_delay * 2)
            (time_sleep retry_delay st1)
      | Raises _ =>
          if (attempt <? max_retries)%nat
          then retry_loop E self download_id end_date rest (retry_delay * 2)
                 (time_sleep retry_delay st1)
          else (Some (Some download_id, None, false),
                update_download_status download_id "Failed" None st1)
      end
  end.

Definition download_symbol_data (E : env) (self : t) (symbol_ticker : string)
  (st : state) : option ret * state :=
  match symbol_id_of E symbol_ticker with
  | None => (Some (None, None, false), st)
  | Some symbol_id =>
      let end_date := today E in
      let start :=                  (* inl: nothing new; inr: start_date *)
        match last_end_date E symbol_id with
        | Some last =>
            let start_date := last + 1 in
            if Z.ltb end_date start_date then inl tt else inr (Some start_date)
        | None => inr None
        end in
      match start with
      | inl _ => (Some (None, None, true), st)
      | inr _ =>
          match new_download_id E with
          | None => (Some (None, None, false), st)
          | Some download_id =>
              if Z.eqb download_id 0 then (Some (None, None, false), st)
              else retry_loop E self download_id end_date
                     (seq 1 max_retries) 60 st
          end
      end
  end.

(** The wait before the [k]-th retry. *)
Definition backoff (k : nat) : Z := 60 * 2 ^ (Z.of_nat k - 1).

End Methods.
End StockDataDownloader.

(* ===================================================================== *)
(** * The batch insert *)
(* ===================================================================== *)

(** [scripts/stock_storage_commented.py], class [StockDataStorage]. *)
Module StockDataStorage.
Section Methods.
Context {B : Builtins}.

(** One tuple of [values_list]: the parameters of one INSERT. *)
Record price_row : Type := {
  symbol_id : Z;
  date : pyval;
  open : pyval;
  high : pyval;
  low : pyval;
  close : pyval;
  adjusted_close : pyval;
  volume : pyval;
  download_id : Z
}.

(** The connection [self.conn] with autocommit off: rows inserted since the
    last commit are pending until [commit] makes them permanent or
    [rollback] discards them.  [executed] lists the batches handed to
    [cursor.executemany]. *)
Record db : Type := {
  committed : list price_row;
  pending : list price_row;
  executed : list (list price_row)
}.

(** What the database server and the metadata store answer. *)
Record env : Type := {
  (* metadata.get_symbol_by_ticker(symbol)['SymbolID'], None if not found *)
  symbol_id_of : string -> option Z;
  (* [Some j]: executemany of that batch fails at its row [j] *)
  exec_outcome : nat -> option nat;
  (* commit of that batch fails *)
  commit_fails : nat -> bool
}.

Definition executemany (E : env) (k : nat) (batch : list price_row) (d : db)
  : result unit * db :=
  match exec_outcome E k with
  | None =>
      (Ok tt, {| committed := committed d; pending := pending d ++ batch;
                 executed := executed d ++ [batch] |})
  | Some j =>
      (Raise DatabaseError,
       {| committed := committed d; pending := pending d ++ firstn j batch;
          executed := executed d ++ [batch] |})
  end.

Definition commit (E : env) (k : nat) (d : db) : result unit * db :=
  if commit_fails E k then (Raise DatabaseError, d)
  else (Ok tt, {| committed := committed d ++ pending d; pending := [];
                  executed := executed d |}).

(** [self.conn.rollback()], which goes through here; [StorageRuns] below
    has the method with a rollback that can raise. *)
Definition rollback (d : db) : db :=
  {| committed := committed d; pending := []; executed := executed d |}.

(** The tuple appended for one item; a missing key raises. *)
Definition values_of (sid did : Z) (item : pyval) : result price_row :=
  let* d := subscript item "date" in
  let* o := subscript item "open" in
  let* h := subscript item "high" in
  let* l := subscript item "low" in
  let* c := subscript item "close" in
  let* a := subscript item "adjusted_close" in
  let* v := subscript item "volume" in
  Ok {| symbol_id := sid; date := d; open := o; high := h; low := l;
        close := c; adjusted_close := a; volume := v; download_id := did |}.

(** [for item in data_list: values_list.append((...))] *)
Fixpoint build_values (sid did : Z) (data_list : list pyval)
  (values_list : list price_row) : result (list price_row) :=
  match data_list with
  | [] => Ok values_list
  | item :: rest =>
      let* row := values_of sid did item in
      build_values sid did rest (values_list ++ [row])
  end.

(** [range(0, stop, step)] for a positive [step]. *)
Definition range_step (stop step : nat) : list nat :=
  List.map (fun k => (k * step)%nat) (seq 0 ((stop + step - 1) / step)).

(** [values_list[i:i+batch_size]] *)
Definition slice (values_list : list price_row) (i size : nat) : list price_row :=
  firstn size (skipn i values_list).

(** The body of the [try]: the loop over the batch offsets. *)
Fixpoint insert_batches (E : env) (batch_size : nat) (values_list : list price_row)
  (offsets : list nat) (total_inserted : nat) (d : db) : result nat * db :=
  match offsets with
  | [] => (Ok total_inserted, d)
  | i :: rest =>
      let batch := slice values_list i batch_size in
      let k := (i / batch_size)%nat in
      match executemany E k batch d with
      | (Raise ex, d1) => (Raise ex, d1)
      | (Ok _, d1) =>
          match commit E k d1 with
          | (Raise ex, d2) => (Raise ex, d2)
          | (Ok _, d2) =>
              insert_batches E batch_size values_list rest
                (total_inserted + List.length batch) d2
          end
      end
  end.

Definition batch_size : nat := 1000.

Definition store_stock_data (E : env) (symbol : string) (data_list : list pyval)
  (did : Z) (d : db) : result nat * db :=
  match data_list with
  | [] => (Ok 0%nat, d)
  | _ =>
      match symbol_id_of E symbol with
      | None => (Ok 0%nat, d)
      | Some sid =>
          match build_values sid did data_list [] with
          | Raise ex => (Raise ex, d)
          | Ok values_list =>
              match insert_batches E batch_size values_list
                      (range_step (List.length values_list) batch_size) 0 d with
              | (Ok total_inserted, d') => (Ok total_inserted, d')
              | (Raise _, d') => (Ok 0%nat, rollback d')
              end
          end
      end
  end.

(** An item as [process_json_file] builds it: a dictionary holding the
    seven fields read here. *)
Definition price_item (item : pyval) : Prop :=
  exists d : pydict,
    item = VDict d /\
    Forall (fun k => has_key k d = true)
      ["date"; "open"; "high"; "low"; "close"; "adjusted_close"; "volume"].

(** The fields [store_stock_data] reads from an item. *)
Definition price_fields : list string :=
  ["date"; "open"; "high"; "low"; "close"; "adjusted_close"; "volume"].

(** What the tuple of an item has to carry: the symbol id, the seven
    values of the item, the download id. *)
Definition row_carries (sid did : Z) (item : pyval) (row : price_row) : Prop :=
  exists d : pydict,
    item = VDict d /\
    symbol_id row = sid /\
    lookup "date" d = Some (date row) /\
    lookup "open" d = Some (open row) /\
    lookup "high" d = Some (high row) /\
    lookup "low" d = Some (low row) /\
    lookup "close" d = Some (close row) /\
    lookup "adjusted_close" d = Some (adjusted_close row) /\
    lookup "volume" d = Some (volume row) /\
    download_id row = did.

(** The batch with number [k]. *)
Definition nth_batch (values_list : list price_row) (k : nat) : list price_row :=
  slice values_list (k * batch_size) batch_size.

(** The server accepts the batch with number [k]. *)
Definition batch_ok (E : env) (k : nat) : Prop :=
  exec_outcome E k = None /\ commit_fails E k = false.

(** The connection after [m] batches of size [bs], starting with batch
    [k0], have been inserted and committed. *)
Definition after_batches (bs : nat) (values_list : list price_row)
  (k0 m : nat) (d : db) : db :=
  match m with
  | O => d
  | S _ =>
      {| committed := committed d ++ pending d ++
                      firstn (m * bs) (skipn (k0 * bs) values_list);
         pending := [];
         executed := executed d ++
                     List.map (fun k => slice values_list (k * bs) bs) (seq k0 m) |}
  end.

End Methods.
End StockDataStorage.

(* ===================================================================== *)
(** * The web form *)
(* ===================================================================== *)

(** [webapp/app.py], route [/descargar]. *)
Module WebApp.
Section App.
Context {B : Builtins}.

(** The named parameters of one INSERT, which are also the columns of a
    stored row ([CreatedDate] is filled in by the server). *)
Record params : Type := {
  symbol_id : Z;
  date : pyval;
  open : pyval;
  high : pyval;
  low : pyval;
  close : pyval;
  volume : pyval
}.

(** A connection: the rows of [AVData.StockPrices] as stored, and as seen
    inside the open transaction. *)
Record conn : Type := {
  stored : list params;
  working : list params
}.

Record form : Type := {
  form_symbol_id : option string;
  form_fecha_inicio : option string;
  form_fecha_fin : option string
}.

Record env : Type := {
  (* datetime.strptime(s, '%Y-%m-%d').strftime('%Y-%m-%d'); None: ValueError *)
  strptime : string -> option string;
  (* conectar_sql_server() *)
  connect : result unit;
  (* the server's reading of a text parameter as an integer key *)
  sql_int : string -> option Z;
  (* SELECT Symbol FROM Metadata.Symbols WHERE SymbolID = ... *)
  symbol_of : Z -> option string;
  (* descargar_datos_yahoo(symbol, start, end): the records of the frame,
     None when no frame is returned; timestamps stand as their
     '%Y-%m-%d' rendering *)
  descargar_datos_yahoo : string -> string -> string -> result (option (list pydict));
  (* whether the server executes the DELETE, and a given INSERT *)
  delete_accepted : bool;
  insert_accepted : params -> bool
}.

(** The messages shown to the user. *)
Inductive flash : Type :=
| MissingFields
| StartAfterEnd
| BadDateFormat
| ConnectionFailed
| SymbolNotFound
| NoData
| Inserted (n : nat)
| SaveError (ex : exn)
| Unexpected (ex : exn).

Definition begin_ (c : conn) : conn :=
  {| stored := stored c; working := stored c |}.

Definition commit (c : conn) : conn :=
  {| stored := working c; working := working c |}.

Definition rollback (c : conn) : conn :=
  {| stored := stored c; working := stored c |}.

(** [with connection.begin(): body]: commit when the body ends normally,
    roll back and re-raise when an exception leaves it.  The COMMIT goes
    through here; [WebAppExits] below has the request with a COMMIT that
    can fail. *)
Definition with_begin {A : Type} (body : conn -> result A * conn) (c : conn)
  : result A * conn :=
  match body (begin_ c) with
  | (Ok a, c1) => (Ok a, commit c1)
  | (Raise ex, c1) => (Raise ex, rollback c1)
  end.

(** [row.get(k)] *)
Definition dict_get (k : string) (row : pydict) : pyval :=
  match lookup k row with
  | Some v => v
  | None => VNone
  end.

(** [DELETE FROM AVData.StockPrices WHERE SymbolID = :symbol_id] *)
Definition execute_delete (E : env) (sid : Z) (c : conn) : result unit * conn :=
  if delete_accepted E
  then (Ok tt,
        {| stored := stored c;
           working := List.filter (fun r => negb (Z.eqb (symbol_id r) sid)) (working c) |})
  else (Raise DatabaseError, c).

(** [connection.execute(insert_sql, params)] *)
Definition execute_insert (E : env) (p : params) (c : conn) : result unit * conn :=
  if insert_accepted E p
  then (Ok tt, {| stored := stored c; working := working c ++ [p] |})
  else (Raise DatabaseError, c).

(** The dictionary [params] built for one downloaded record. *)
Definition params_of (sid_text : string) (row : pydict) : result params :=
  let* sid := py_int (VStr sid_text) in
  Ok {| symbol_id := sid;
        date := dict_get "Date" row;
        open := dict_get "Open" row;
        high := dict_get "High" row;
        low := dict_get "Low" row;
        close := dict_get "Close" row;
        volume := dict_get "Volume" row |}.

(** [for row in datos_para_insertar: ... connection.execute(insert_sql, params)] *)
Fixpoint insert_rows (E : env) (sid_text : string) (rows : list pydict) (c : conn)
  : result unit * conn :=
  match rows with
  | [] => (Ok tt, c)
  | row :: rest =>
      match params_of sid_text row with
      | Raise ex => (Raise ex, c)
      | Ok p =>
          match execute_insert E p c with
          | (Raise ex, c1) => (Raise ex, c1)
          | (Ok _, c1) => insert_rows E sid_text rest c1
          end
      end
  end.

(** The [try] inside the transaction: delete, then insert row by row. *)
Definition delete_and_insert (E : env) (sid : Z) (sid_text : string)
  (rows : list pydict) (c : conn) : result unit * conn :=
  match execute_delete E sid c with
  | (Raise ex, c1) => (Raise ex, c1)
  | (Ok _, c1) => insert_rows E sid_text rows c1
  end.

(** The body of [with connection.begin():], which is the whole
    [try: ... except Exception as insert_error: flash(...)] statement: an
    exception of the [try] ends in the handler, inside the [with]. *)
Definition transaction_body (E : env) (sid : Z) (sid_text : string)
  (rows : list pydict) (c : conn) : result flash * conn :=
  match delete_and_insert E sid sid_text rows c with
  | (Ok _, c1) => (Ok (Inserted (List.length rows)), c1)
  | (Raise insert_error, c1) => (Ok (SaveError insert_error), c1)
  end.

Definition nonempty (o : option string) : option string :=
  match o with
  | Some s => if String.eqb s "" then None else Some s
  | None => None
  end.

(** The view function: the messages flashed and the connection afterwards
    (the response is always the redirect to the index). *)
Definition descargar (E : env) (f : form) (c : conn) : list flash * conn :=
  match nonempty (form_symbol_id f), nonempty (form_fecha_inicio f),
        nonempty (form_fecha_fin f) with
  | Some sid_text, Some fecha_inicio_str, Some fecha_fin_str =>
      match strptime E fecha_inicio_str, strptime E fecha_fin_str with
      | Some fecha_inicio, Some fecha_fin =>
          if String.ltb fecha_fin fecha_inicio then ([StartAfterEnd], c)
          else
            match connect E with
            | Raise ex => ([Unexpected ex], c)
            | Ok _ =>
                match sql_int E sid_text with
                | None => ([Unexpected DatabaseError], c)
                | Some sid =>
                    match symbol_of E sid with
                    | None => ([SymbolNotFound], c)
                    | Some symbol =>
                        match descargar_datos_yahoo E symbol fecha_inicio fecha_fin with
                        | Raise ex => ([Unexpected ex], c)
                        | Ok None => ([NoData], c)
                        | Ok (Some []) => ([NoData], c)
                        | Ok (Some rows) =>
                            match with_begin (transaction_body E sid sid_text rows) c with
                            | (Ok message, c1) => ([message], c1)
                            | (Raise ex, c1) => ([Unexpected ex], c1)
                            end
                        end
                    end
                end
            end
      | _, _ => ([BadDateFormat], c)
      end
  | _, _, _ => ([MissingFields], c)
  end.

(** The stored rows of one symbol. *)
Definition rows_of (sid : Z) (rows : list params) : list params :=
  List.filter (fun r => Z.eqb (symbol_id r) sid) rows.

End App.
End WebApp.

(* ===================================================================== *)
(** * The Singleton base class *)
(* ===================================================================== *)

(** [scripts/base.py], class [Singleton], with the three classes that
    inherit it: [ConfigManager] (base.py), [AlphaVantageClient]
    (api_client.py) and [MetadataManager] (metadata_manager_poo.py).
    Objects live in a heap and are identified by their address; the class
    attribute [_instances] is shared by all the subclasses. *)
Module Singleton.

Inductive attr : Type :=
| ANone
| AStr (s : string)
| ANum (z : Z)
| ARef (addr : nat)
| ADict (d : gmap string string).

Record object : Type := {
  class_of : string;
  attrs : gmap string attr
}.

Record heap : Type := {
  objects : gmap nat object;
  _instances : gmap string nat;
  next_addr : nat
}.

Definition empty_heap : heap :=
  {| objects := ∅; _instances := ∅; next_addr := 0 |}.

(** [object.__new__(cls)]: a new object without attributes. *)
Definition alloc (cls : string) (h : heap) : nat * heap :=
  (next_addr h,
   {| objects := <[next_addr h := {| class_of := cls; attrs := ∅ |}]> (objects h);
      _instances := _instances h;
      next_addr := S (next_addr h) |}).

(** [Singleton.__new__]. *)
Definition __new__ (cls : string) (h : heap) : nat * heap :=
  match _instances h !! cls with
  | Some a => (a, h)
  | None =>
      let '(a, h1) := alloc cls h in
      (a, {| objects := objects h1;
             _instances := <[cls := a]> (_instances h1);
             next_addr := next_addr h1 |})
  end.

Definition hasattr (h : heap) (self : nat) (name : string) : bool :=
  match objects h !! self with
  | Some o => match attrs o !! name with Some _ => true | None => false end
  | None => false
  end.

(** [self.name = v]; there is no object to assign to at a dangling
    address. *)
Definition setattr (self : nat) (name : string) (v : attr) (h : heap) : result heap :=
  match objects h !! self with
  | Some o =>
      Ok {| objects := <[self := {| class_of := class_of o;
                                    attrs := <[name := v]> (attrs o) |}]> (objects h);
            _instances := _instances h;
            next_addr := next_addr h |}
  | None => Raise AttributeError
  end.

Definition getattr (h : heap) (self : nat) (name : string) : result attr :=
  match objects h !! self with
  | Some o =>
      match attrs o !! name with
      | Some v => Ok v
      | None => Raise AttributeError
      end
  | None => Raise AttributeError
  end.

Section Classes.
(** [os.getenv] after [load_dotenv]. *)
Variable getenv : string -> option string.

Definition getenv_default (name default : string) : string :=
  match getenv name with Some v => v | None => default end.

(** [ConfigManager._load_from_env], starting from [self.config = {}]. *)
Definition _load_from_env : gmap string string :=
  <["LOG_LEVEL" := getenv_default "LOG_LEVEL" "INFO"]>
  (<["ALPHA_VANTAGE_BASE_URL" :=
       getenv_default "ALPHA_VANTAGE_BASE_URL" "https://www.alphavantage.co/query"]>
  (<["ALPHA_VANTAGE_API_KEY" := getenv_default "ALPHA_VANTAGE_API_KEY" ""]>
  (<["SQL_DATABASE" := getenv_default "SQL_DATABASE" "AlphaVantageDB"]>
  (<["SQL_PASSWORD" := getenv_default "SQL_PASSWORD" ""]>
  (<["SQL_USER" := getenv_default "SQL_USER" "sa"]>
  (<["SQL_PORT" := getenv_default "SQL_PORT" "1433"]>
  (<["SQL_SERVER" := getenv_default "SQL_SERVER" "localhost"]> ∅))))))).

Definition ConfigManager__init__ (self : nat) (h : heap) : result heap :=
  if hasattr h self "config" then Ok h
  else setattr self "config" (ADict _load_from_env) h.

(** [ConfigManager()]: [__new__], then [__init__] on what it returned. *)
Definition ConfigManager (h : heap) : result (nat * heap) :=
  let '(self, h1) := __new__ "ConfigManager" h in
  let* h2 := ConfigManager__init__ self h1 in
  Ok (self, h2).

(** [config.get(key, default)] on the [ConfigManager] at [cm]. *)
Definition config_get (h : heap) (cm : nat) (key default : string) : result string :=
  let* c := getattr h cm "config" in
  match c with
  | ADict d => Ok (match d !! key with Some v => v | None => default end)
  | _ => Raise AttributeError
  end.

Definition AlphaVantageClient__init__ (api_key : option string) (self : nat)
  (h : heap) : result heap :=
  if hasattr h self "api_key" then Ok h
  else
    let* '(cm, h1) := ConfigManager h in
    let* h2 := setattr self "config" (ARef cm) h1 in
    let* configured := config_get h2 cm "ALPHA_VANTAGE_API_KEY" "" in
    let key := match api_key with
               | Some k => if String.eqb k "" then configured else k
               | None => configured
               end in
    let* h3 := setattr self "api_key" (AStr key) h2 in
    let* url := config_get h3 cm "ALPHA_VANTAGE_BASE_URL"
                  "https://www.alphavantage.co/query" in
    let* h4 := setattr self "base_url" (AStr url) h3 in
    let* h5 := setattr self "last_call_timestamp" (ANum 0) h4 in
    setattr self "min_call_interval" (ANum 12) h5.

Definition AlphaVantageClient (api_key : option string) (h : heap)
  : result (nat * heap) :=
  let '(self, h1) := __new__ "AlphaVantageClient" h in
  let* h2 := AlphaVantageClient__init__ api_key self h1 in
  Ok (self, h2).

(** [SQLServerConnector()], an ordinary class: a new object each time,
    left without a connection when connecting fails. *)
Definition SQLServerConnector (h : heap) : result (nat * heap) :=
  let '(self, h0) := alloc "SQLServerConnector" h in
  let* '(cm, h1) := ConfigManager h0 in
  let* h2 := setattr self "config" (ARef cm) h1 in
  let* server := config_get h2 cm "SQL_SERVER" "localhost" in
  let* h3 := setattr self "server" (AStr server) h2 in
  let* port := config_get h3 cm "SQL_PORT" "1433" in
  let* h4 := setattr self "port" (AStr port) h3 in
  let* user := config_get h4 cm "SQL_USER" "sa" in
  let* h5 := setattr self "user" (AStr user) h4 in
  let* password := config_get h5 cm "SQL_PASSWORD" "" in
  let* h6 := setattr self "password" (AStr password) h5 in
  let* database := config_get h6 cm "SQL_DATABASE" "AlphaVantageDB" in
  let* h7 := setattr self "database" (AStr database) h6 in
  let* h8 := setattr self "conn" ANone h7 in
  let* h9 := setattr self "cursor" ANone h8 in
  Ok (self, h9).

Definition MetadataManager__init__ (self : nat) (h : heap) : result heap :=
  if hasattr h self "db" then Ok h
  else
    let* '(db, h1) := SQLServerConnector h in
    setattr self "db" (ARef db) h1.

Definition MetadataManager (h : heap) : result (nat * heap) :=
  let '(self, h1) := __new__ "MetadataManager" h in
  let* h2 := MetadataManager__init__ self h1 in
  Ok (self, h2).

(** The classes of the repository that inherit [Singleton]. *)
Inductive singleton_class : Type :=
| CConfigManager
| CAlphaVantageClient
| CMetadataManager.

Definition class_name (c : singleton_class) : string :=
  match c with
  | CConfigManager => "ConfigManager"
  | CAlphaVantageClient => "AlphaVantageClient"
  | CMetadataManager => "MetadataManager"
  end.

(** [C(api_key)]; only [AlphaVantageClient] takes the argument. *)
Definition construct (c : singleton_class) (api_key : option string) (h : heap)
  : result (nat * heap) :=
  match c with
  | CConfigManager => ConfigManager h
  | CAlphaVantageClient => AlphaVantageClient api_key h
  | CMetadataManager => MetadataManager h
  end.

(** The attribute whose presence makes [__init__] return at once. *)
Definition guard (c : singleton_class) : string :=
  match c with
  | CConfigManager => "config"
  | CAlphaVantageClient => "api_key"
  | CMetadataManager => "db"
  end.

End Classes.

(** The instance of [c] exists at [self] and has been initialised. *)
Definition initialized (c : singleton_class) (self : nat) (h : heap) : Prop :=
  _instances h !! class_name c = Some self /\ hasattr h self (guard c) = true.

End Singleton.

(* ===================================================================== *)
(** * The INSERT statements *)
(* ===================================================================== *)

(** What the code hands to the database driver for one row of
    [StockPrices]: the query text, and the row values as positional
    ([?]) or named ([:name]) parameters. *)
Module Sql.
Section Statements.
Context {B : Builtins}.

Record statement : Type := {
  text : string;
  positional : list pyval;
  named : list (string * pyval)
}.

(** Number of [?] placeholders in a query text. *)
Fixpoint count_positional (s : string) : nat :=
  match s with
  | EmptyString => 0%nat
  | String c s' =>
      ((if Ascii.eqb c "?"%char then 1 else 0) + count_positional s')%nat
  end.

Definition is_word (c : ascii) : bool :=
  let n := Z.of_nat (nat_of_ascii c) in
  ((Z.leb 97 n && Z.leb n 122) || (Z.leb 65 n && Z.leb n 90) ||
   (Z.leb 48 n && Z.leb n 57) || Z.eqb n 95)%bool.

Definition close_name (current : option string) (acc : list string) : list string :=
  match current with
  | Some name => if String.eqb name "" then acc else acc ++ [name]
  | None => acc
  end.

(** The [:name] placeholders of a query text, in order: a colon followed
    by letters, digits or underscores. *)
Fixpoint named_placeholders_from (s : string) (current : option string)
  (acc : list string) : list string :=
  match s with
  | EmptyString => close_name current acc
  | String c s' =>
      match current with
      | Some name =>
          if is_word c
          then named_placeholders_from s' (Some (String.append name (String c EmptyString))) acc
          else named_placeholders_from s'
                 (if Ascii.eqb c ":"%char then Some "" else None)
                 (close_name current acc)
      | None =>
          named_placeholders_from s'
            (if Ascii.eqb c ":"%char then Some "" else None) acc
      end
  end.

Definition named_placeholders (s : string) : list string :=
  named_placeholders_from s None [].

(** [scripts/Downloader.py]: one row of the frame built by
    [obtener_historico_accion]. *)
Record historico : Type := {
  fecha : pyval;
  apertura : pyval;
  alto : pyval;
  bajo : pyval;
  cierre : pyval;
  volumen : pyval
}.

Definition Downloader_insert_sql : string := "
    INSERT INTO [AVData].[StockPrices] 
    ([SymbolId], [Date], [Open], [High], [Low], [Close], [Volume], [CreatedDate])
    VALUES (?, ?, ?, ?, ?, ?, ?, getdate())
".

(** [cursor.execute(insert_sql, symbol_id, row['fecha'], ...)] *)
Definition Downloader_execute (symbol_id : pyval) (row : historico) : statement :=
  {| text := Downloader_insert_sql;
     positional := [symbol_id; fecha row; apertura row; alto row; bajo row;
                    cierre row; volumen row];
     named := [] |}.

(** [scripts/stock_storage_commented.py], [store_stock_data]. *)
Definition StockDataStorage_query : string := "
                INSERT INTO AVdata.StockPrices 
                (SymbolID, Date, Open, High, Low, Close, AdjustedClose, Volume, DownloadID)
                VALUES (?, ?, ?, ?, ?, ?, ?, ?, ?)
                ".

(** [self.cursor.executemany(query, batch)]: the query once per tuple. *)
Definition StockDataStorage_executemany (batch : list StockDataStorage.price_row)
  : list statement :=
  List.map
    (fun r =>
       {| text := StockDataStorage_query;
          positional :=
            [VInt (StockDataStorage.symbol_id r); StockDataStorage.date r;
             StockDataStorage.open r; StockDataStorage.high r;
             StockDataStorage.low r; StockDataStorage.close r;
             StockDataStorage.adjusted_close r; StockDataStorage.volume r;
             VInt (StockDataStorage.download_id r)];
          named := [] |})
    batch.

(** [webapp/app.py], [descargar]. *)
Definition app_insert_sql : string := "
                        INSERT INTO AVData.StockPrices
                        (SymbolID, Date, [Open], High, Low, [Close], Volume, CreatedDate)
                        VALUES (:symbol_id, :date, :open, :high, :low, :close, :volume, GETDATE())
                    ".


(** [scripts/main.py], [ejemplo_uso]: the same parameters, from the rows
    of the Yahoo frame. *)
Definition main_insert_sql : string := "
        INSERT INTO [AVData].[StockPrices] 
        ([SymbolId], [Date], [Open], [High], [Low], [Close], [Volume], [CreatedDate])
        VALUES (:symbol_id, :date, :open, :high, :low, :close, :volume, GETDATE())
    ".

Definition main_execute (p : WebApp.params) : statement :=
  {| text := main_insert_sql;
     positional := [];
     named := [("symbol_id", VInt (WebApp.symbol_id p)); ("date", WebApp.date p);
               ("open", WebApp.open p); ("high", WebApp.high p);
               ("low", WebApp.low p); ("close", WebApp.close p);
               ("volume", WebApp.volume p)] |}.

(** A statement is parameterized when its text is the fixed query [q] and
    has one placeholder for each value passed along. *)
Definition parameterized (q : string) (st : statement) : Prop :=
  text st = q /\
  count_positional q = List.length (positional st) /\
  named_placeholders q = List.map fst (named st).

End Statements.
End Sql.

(** The answers after which [AlphaVantageAPI.get_daily_*] waits a minute
    and asks again: JSON without ['Error Message'] whose ['Note'] mentions
    ['call frequency']. *)
Definition rate_limited `{Builtins} (o : http_outcome) : bool :=
  match o with
  | Json data =>
      match contains "Error Message" data with
      | Ok false =>
          match rate_limit_note data with
          | Ok true => true
          | _ => false
          end
      | _ => false
      end
  | _ => false
  end.

(** The state in which [get_daily_*] calls itself after such an answer:
    rate limiter passed, request made, a minute slept. *)
Definition after_note `{Builtins} (e : env) (function : string)
  (self : AlphaVantageAPI.t) (w : world) : AlphaVantageAPI.t * world :=
  let sw := AlphaVantageAPI._respect_rate_limit e self w in
  (fst sw, time_sleep e 60%Q (snd (requests_get e function (snd sw)))).

(** What [_respect_rate_limit] sleeps when called in a given state. *)
Definition limiter_sleep `{Builtins} (self : AlphaVantageAPI.t) (w : world) : list Q :=
  let elapsed := (clock w - AlphaVantageAPI.last_call_timestamp self)%Q in
  if Qltb elapsed (AlphaVantageAPI.min_call_interval self)
  then [(AlphaVantageAPI.min_call_interval self - elapsed)%Q]
  else [].

(** The record the daily parser is meant to produce for one entry
    [(d, values)] of the series: the date, the four prices through
    [float()], the volume through [int()]. *)
Definition daily_converts `{Builtins} (e : string * pyval) (r : Daily.row) : Prop :=
  Daily.date r = fst e /\
  (let* x := subscript (snd e) "1. open" in py_float x) = Ok (Daily.open r) /\
  (let* x := subscript (snd e) "2. high" in py_float x) = Ok (Daily.high r) /\
  (let* x := subscript (snd e) "3. low" in py_float x) = Ok (Daily.low r) /\
  (let* x := subscript (snd e) "4. close" in py_float x) = Ok (Daily.close r) /\
  (let* x := subscript (snd e) "5. volume" in py_int x) = Ok (Daily.volume r).

(** The fields the daily parser reads from an entry. *)
Definition daily_fields : list string :=
  ["1. open"; "2. high"; "3. low"; "4. close"; "5. volume"].

(** The exceptions an entry that does not convert can raise: KeyError for
    a field it lacks, TypeError when it is no dictionary or a field is of
    a type [float()] or [int()] do not take, ValueError or OverflowError
    for a field they reject, and what [int()] raises on a float. *)
Definition entry_error `{Builtins} (ex : exn) : Prop :=
  (exists field, In field daily_fields /\ ex = KeyError field) \/
  ex = TypeError \/ ex = ValueError \/ ex = OverflowError \/
  (exists f, int_of_float f = Raise ex).

(* ===================================================================== *)
(** * A concrete interpreter for running the model *)
(* ===================================================================== *)

(** Exact decimal arithmetic standing in for the interpreter's binary
    floats: enough to evaluate the embedded code on sample payloads.  No
    theorem about the code depends on this choice. *)
Module Decimal.

Definition digit_of (c : ascii) : option Z :=
  let n := Z.of_nat (nat_of_ascii c) in
  if (Z.leb 48 n && Z.leb n 57)%bool then Some (n - 48) else None.

(** Digits with at most one decimal point, at least one digit. *)
Fixpoint scan (s : string) (dot_allowed seen_digit : bool) (num : Z) (den : positive)
  (after_dot : bool) : option Q :=
  match s with
  | EmptyString => if seen_digit then Some (Qmake num den) else None
  | String c s' =>
      if Ascii.eqb c "."%char then
        if dot_allowed then scan s' false seen_digit num den true else None
      else
        match digit_of c with
        | Some k =>
            scan s' dot_allowed true (10 * num + k)
                 (if after_dot then (10 * den)%positive else den) after_dot
        | None => None
        end
  end.

Definition signed (s : string) (dot_allowed : bool) : option Q :=
  match s with
  | String c s' =>
      if Ascii.eqb c "-"%char
      then option_map Qopp (scan s' dot_allowed false 0 1%positive false)
      else scan s dot_allowed false 0 1%positive false
  | EmptyString => None
  end.

Definition parse_int (s : string) : option Z :=
  option_map Qnum (signed s false).

#[export] Instance builtins : Builtins := {|
  pyfloat := Q;
  float_of_str := fun s => signed s true;
  float_of_int := fun z => Some (inject_Z z);
  float_is_zero := fun q => Z.eqb (Qnum q) 0;
  int_of_str := parse_int;
  int_of_float := fun q => Ok (Z.quot (Qnum q) (Zpos (Qden q)))
|}.

End Decimal.

(** Sample payloads, as [response.json()] returns them. *)
Module Samples.
Import Decimal.

Definition str (s : string) : pyval := VStr s.

(** A TIME_SERIES_DAILY answer with two days, oldest first. *)
Definition daily_payload : pyval :=
  VDict [("Meta Data", VDict [("2. Symbol", str "AAPL")]);
         ("Time Series (Daily)",
          VDict [("2024-01-02",
                  VDict [("1. open", str "187.15"); ("2. high", str "188.44");
                         ("3. low", str "183.88"); ("4. close", str "185.64");
                         ("5. volume", str "82488700")]);
                 ("2024-01-03",
                  VDict [("1. open", str "184.22"); ("2. high", str "185.88");
                         ("3. low", str "183.43"); ("4. close", str "184.25");
                         ("5. volume", str "58414500")])])].

(** The same two days as rows, most recent first. *)
Definition daily_rows : list (@Daily.row Decimal.builtins) :=
  [ Daily.Build_row "2024-01-03" (18422 # 100)%Q (18588 # 100)%Q
      (18343 # 100)%Q (18425 # 100)%Q 58414500;
    Daily.Build_row "2024-01-02" (18715 # 100)%Q (18844 # 100)%Q
      (18388 # 100)%Q (18564 # 100)%Q 82488700 ].

(** A TIME_SERIES_DAILY_ADJUSTED answer: same top-level key, eight fields
    per day, the volume under ["6. volume"]. *)
Definition adjusted_payload : pyval :=
  VDict [("Meta Data", VDict [("2. Symbol", str "AAPL")]);
         ("Time Series (Daily)",
          VDict [("2024-01-02",
                  VDict [("1. open", str "187.15"); ("2. high", str "188.44");
                         ("3. low", str "183.88"); ("4. close", str "185.64");
                         ("5. adjusted close", str "184.90");
                         ("6. volume", str "82488700");
                         ("7. dividend amount", str "0.0000");
                         ("8. split coefficient", str "1.0")])])].

(** An API that answers the daily payload in half a second, and a sleep
    that wakes up on time. *)
Definition steady_env : env :=
  {| response_of := fun _ => Json daily_payload;
     latency_of := fun _ => (1 # 2)%Q;
     overshoot_of := fun _ => 0%Q |}.

(** A fresh process some time after the epoch. *)
Definition fresh_world : world :=
  {| clock := 1700000000%Q; slept := []; requests := [] |}.

Definition fresh_client : AlphaVantageClient.t :=
  {| AlphaVantageClient.api_key := "demo";
     AlphaVantageClient.base_url := "https://www.alphavantage.co/query";
     AlphaVantageClient.last_call_timestamp := 0%Q;
     AlphaVantageClient.min_call_interval := 12%Q |}.

Definition fresh_api : AlphaVantageAPI.t := AlphaVantageAPI.init "demo" None.

(** Two [get] calls, the second three seconds after the first returned. *)
Definition after_two_gets : world :=
  let '(_, self1, w1) :=
    AlphaVantageClient.get "TIME_SERIES_DAILY" steady_env fresh_client fresh_world in
  let '(_, _, w2) :=
    AlphaVantageClient.get "TIME_SERIES_DAILY" steady_env self1 (idle 3%Q w1) in
  w2.

(** The answer of a throttled API key. *)
Definition note_payload : pyval :=
  VDict [("Note",
          str "Thank you for using Alpha Vantage! Our standard API call frequency is 5 calls per minute and 500 calls per day.")].

(** An API that throttles every request. *)
Definition throttling_env : env :=
  {| response_of := fun _ => Json note_payload;
     latency_of := fun _ => (1 # 2)%Q;
     overshoot_of := fun _ => 0%Q |}.

(** An API that throttles the first two requests and then answers. *)
Definition throttling_twice_env : env :=
  {| response_of := fun n => if (n <? 2)%nat then Json note_payload
                             else Json daily_payload;
     latency_of := fun _ => (1 # 2)%Q;
     overshoot_of := fun _ => 0%Q |}.

(** A downloader whose API calls all come back empty-handed ([None], as
    [AlphaVantageAPI] returns on a request error), for a known symbol with
    no earlier download. *)
Definition downloader : StockDataDownloader.t :=
  {| StockDataDownloader.output_size := "full";
     StockDataDownloader.api_function := "TIME_SERIES_DAILY_ADJUSTED" |}.

Definition failing_downloads : StockDataDownloader.env :=
  {| StockDataDownloader.symbol_id_of :=
       fun s => if String.eqb s "AAPL" then Some 1 else None;
     StockDataDownloader.last_end_date := fun _ => None;
     StockDataDownloader.today := 19800;
     StockDataDownloader.new_download_id := Some 7;
     StockDataDownloader.api_answer := fun _ => Ok VNone;
     StockDataDownloader.save_to_json := fun _ => Ok tt |}.


(** One item of [data_list], as [process_json_file] builds it. *)
Definition price_item_of (day : string) : pyval :=
  VDict [("date", str day); ("open", VFloat (18715 # 100)%Q);
         ("high", VFloat (18844 # 100)%Q); ("low", VFloat (18388 # 100)%Q);
         ("close", VFloat (18564 # 100)%Q); ("volume", VInt 82488700);
         ("adjusted_close", VFloat (18490 # 100)%Q)].

Definition two_items : list pyval :=
  [price_item_of "2024-01-02"; price_item_of "2024-01-03"].

(** 1001 items: one full batch and one more row. *)
Definition many_items : list pyval := repeat (price_item_of "2024-01-02") 1001.

(** A database server that accepts everything. *)
Definition accepting_server : StockDataStorage.env :=
  {| StockDataStorage.symbol_id_of :=
       fun s => if String.eqb s "AAPL" then Some 1 else None;
     StockDataStorage.exec_outcome := fun _ => None;
     StockDataStorage.commit_fails := fun _ => false |}.

(** A server that rejects the first row of the second batch. *)
Definition second_batch_fails : StockDataStorage.env :=
  {| StockDataStorage.symbol_id_of :=
       fun s => if String.eqb s "AAPL" then Some 1 else None;
     StockDataStorage.exec_outcome := fun k => if (k =? 1)%nat then Some 0%nat else None;
     StockDataStorage.commit_fails := fun _ => false |}.

Definition empty_db : StockDataStorage.db :=
  {| StockDataStorage.committed := []; StockDataStorage.pending := [];
     StockDataStorage.executed := [] |}.

(** The tuple built for [price_item_of day], symbol 1, download 7. *)
Definition price_row_of (day : string) : StockDataStorage.price_row :=
  {| StockDataStorage.symbol_id := 1;
     StockDataStorage.date := str day;
     StockDataStorage.open := VFloat (18715 # 100)%Q;
     StockDataStorage.high := VFloat (18844 # 100)%Q;
     StockDataStorage.low := VFloat (18388 # 100)%Q;
     StockDataStorage.close := VFloat (18564 # 100)%Q;
     StockDataStorage.adjusted_close := VFloat (18490 # 100)%Q;
     StockDataStorage.volume := VInt 82488700;
     StockDataStorage.download_id := 7 |}.

Definition many_rows : list StockDataStorage.price_row :=
  repeat (price_row_of "2024-01-02") 1001.

(** The price table before the form is submitted: one row of symbol 1,
    one row of symbol 2. *)
Definition stored_price (sid : Z) (day : string) : WebApp.params :=
  {| WebApp.symbol_id := sid; WebApp.date := str day;
     WebApp.open := VFloat (18715 # 100)%Q; WebApp.high := VFloat (18844 # 100)%Q;
     WebApp.low := VFloat (18388 # 100)%Q; WebApp.close := VFloat (18564 # 100)%Q;
     WebApp.volume := VInt 82488700 |}.

Definition stored_prices : list WebApp.params :=
  [stored_price 1 "2023-12-29"; stored_price 2 "2023-12-29"].

(** Two downloaded records; the second one has no volume. *)
Definition yahoo_records : list pydict :=
  [ [("Date", str "2024-01-02"); ("Open", VFloat (18715 # 100)%Q);
     ("High", VFloat (18844 # 100)%Q); ("Low", VFloat (18388 # 100)%Q);
     ("Close", VFloat (18564 # 100)%Q); ("Volume", VInt 82488700)];
    [("Date", str "2024-01-03"); ("Open", VFloat (18422 # 100)%Q);
     ("High", VFloat (18588 # 100)%Q); ("Low", VFloat (18343 # 100)%Q);
     ("Close", VFloat (18425 # 100)%Q)] ].

(** A server whose price table requires a volume. *)
Definition web_env : WebApp.env :=
  {| WebApp.strptime := fun s => Some s;
     WebApp.connect := Ok tt;
     WebApp.sql_int := Decimal.parse_int;
     WebApp.symbol_of := fun sid => if Z.eqb sid 1 then Some "AAPL" else None;
     WebApp.descargar_datos_yahoo := fun _ _ _ => Ok (Some yahoo_records);
     WebApp.delete_accepted := true;
     WebApp.insert_accepted :=
       fun p => match WebApp.volume p with VNone => false | _ => true end |}.

Definition valid_form : WebApp.form :=
  {| WebApp.form_symbol_id := Some "1";
     WebApp.form_fecha_inicio := Some "2024-01-01";
     WebApp.form_fecha_fin := Some "2024-01-31" |}.

Definition price_table : WebApp.conn :=
  {| WebApp.stored := stored_prices; WebApp.working := stored_prices |}.

(** A process without configuration in its environment. *)
Definition no_environment : string -> option string := fun _ => None.

(** The first [AlphaVantageClient('demo')] of a process. *)
Definition first_client : result (nat * Singleton.heap) :=
  Singleton.construct no_environment Singleton.CAlphaVantageClient
    (Some "demo") Singleton.empty_heap.

Definition client_addr : nat :=
  match first_client with Ok (self, _) => self | Raise _ => 0%nat end.

Definition client_heap : Singleton.heap :=
  match first_client with Ok (_, h) => h | Raise _ => Singleton.empty_heap end.

End Samples.

(* ===================================================================== *)
(** * Further code of the same files *)
(* ===================================================================== *)

(** The record the adjusted parser is meant to produce for one entry. *)
Definition adjusted_converts `{Builtins} (e : string * pyval) (r : Adjusted.row) : Prop :=
  Adjusted.date r = fst e /\
  (let* x := subscript (snd e) "1. open" in py_float x) = Ok (Adjusted.open r) /\
  (let* x := subscript (snd e) "2. high" in py_float x) = Ok (Adjusted.high r) /\
  (let* x := subscript (snd e) "3. low" in py_float x) = Ok (Adjusted.low r) /\
  (let* x := subscript (snd e) "4. close" in py_float x) = Ok (Adjusted.close r) /\
  (let* x := subscript (snd e) "5. adjusted close" in py_float x) =
    Ok (Adjusted.adjusted_close r) /\
  (let* x := subscript (snd e) "6. volume" in py_int x) = Ok (Adjusted.volume r) /\
  (let* x := subscript (snd e) "7. dividend amount" in py_float x) =
    Ok (Adjusted.dividend_amount r) /\
  (let* x := subscript (snd e) "8. split coefficient" in py_float x) =
    Ok (Adjusted.split_coefficient r).

Module MoreSamples.
Import Decimal.
Import Samples.

(** The row of [Samples.adjusted_payload]. *)
Definition adjusted_rows : list (@Adjusted.row Decimal.builtins) :=
  [ Adjusted.Build_row "2024-01-02" (18715 # 100)%Q (18844 # 100)%Q
      (18388 # 100)%Q (18564 # 100)%Q (18490 # 100)%Q 82488700
      (0 # 10000)%Q (10 # 10)%Q ].

(** The two days of [daily_payload], as entries of the series. *)
Definition day_2 : string * pyval :=
  ("2024-01-02",
   VDict [("1. open", str "187.15"); ("2. high", str "188.44");
          ("3. low", str "183.88"); ("4. close", str "185.64");
          ("5. volume", str "82488700")]).

Definition day_3 : string * pyval :=
  ("2024-01-03",
   VDict [("1. open", str "184.22"); ("2. high", str "185.88");
          ("3. low", str "183.43"); ("4. close", str "184.25");
          ("5. volume", str "58414500")]).

(** The daily answer with the most recent day first, as the API sends it. *)
Definition daily_payload_recent_first : pydict :=
  [("Meta Data", VDict [("2. Symbol", str "AAPL")]);
   ("Time Series (Daily)", VDict [day_3; day_2])].

Definition daily_payload_oldest_first : pydict :=
  [("Meta Data", VDict [("2. Symbol", str "AAPL")]);
   ("Time Series (Daily)", VDict [day_2; day_3])].

(** The day of [Samples.adjusted_payload], as an entry of the series. *)
Definition adjusted_day : string * pyval :=
  ("2024-01-02",
   VDict [("1. open", str "187.15"); ("2. high", str "188.44");
          ("3. low", str "183.88"); ("4. close", str "185.64");
          ("5. adjusted close", str "184.90");
          ("6. volume", str "82488700");
          ("7. dividend amount", str "0.0000");
          ("8. split coefficient", str "1.0")]).

(** A download whose first request fails and whose second is answered. *)
Definition second_attempt_succeeds : StockDataDownloader.env :=
  {| StockDataDownloader.symbol_id_of :=
       fun s => if String.eqb s "AAPL" then Some 1 else None;
     StockDataDownloader.last_end_date := fun _ => Some 19790;
     StockDataDownloader.today := 19800;
     StockDataDownloader.new_download_id := Some 7;
     StockDataDownloader.api_answer :=
       fun attempt => if (attempt =? 1)%nat then Raise RequestException
                      else Ok daily_payload;
     StockDataDownloader.save_to_json := fun _ => Ok tt |}.

(** The server of [Samples.web_env] without the constraint on the volume. *)
Definition accepting_web_env : WebApp.env :=
  {| WebApp.strptime := fun s => Some s;
     WebApp.connect := Ok tt;
     WebApp.sql_int := Decimal.parse_int;
     WebApp.symbol_of := fun sid => if Z.eqb sid 1 then Some "AAPL" else None;
     WebApp.descargar_datos_yahoo := fun _ _ _ => Ok (Some yahoo_records);
     WebApp.delete_accepted := true;
     WebApp.insert_accepted := fun _ => true |}.

(** An API that answers every request with an HTTP error, at once. *)
Definition failing_env : env :=
  {| response_of := fun _ => HttpError;
     latency_of := fun _ => (1 # 2)%Q;
     overshoot_of := fun _ => 0%Q |}.

(** A client whose last call was five seconds ago. *)
Definition recent_client : AlphaVantageClient.t :=
  {| AlphaVantageClient.api_key := "demo";
     AlphaVantageClient.base_url := "https://www.alphavantage.co/query";
     AlphaVantageClient.last_call_timestamp := 1699999995%Q;
     AlphaVantageClient.min_call_interval := 12%Q |}.

(** Three calls: at once, three seconds and twenty seconds after the
    call before returned. *)
Definition three_calls : list (string * Q) :=
  [("TIME_SERIES_DAILY", 0%Q); ("TIME_SERIES_DAILY_ADJUSTED", 3%Q);
   ("TIME_SERIES_DAILY", 20%Q)].

(** One record as [parse_daily_time_series] returns it: no
    ['adjusted_close']. *)
Definition daily_record : pyval :=
  VDict [("date", str "2024-01-02"); ("open", VFloat (18715 # 100)%Q);
         ("high", VFloat (18844 # 100)%Q); ("low", VFloat (18388 # 100)%Q);
         ("close", VFloat (18564 # 100)%Q); ("volume", VInt 82488700)].

End MoreSamples.

(** A session with the client: each call of [get] comes with the time the
    program spent elsewhere before it. *)
Module ClientRuns.
Local Open Scope Q_scope.
Section Runs.
Context {B : Builtins}.

Fixpoint gets (e : env) (calls : list (string * Q)) (self : AlphaVantageClient.t)
  (w : world) : AlphaVantageClient.t * world :=
  match calls with
  | [] => (self, w)
  | (function, pause) :: rest =>
      let '(_, self1, w1) := AlphaVantageClient.get function e self (idle pause w) in
      gets e rest self1 w1
  end.

(** Consecutive times at least [gap] apart. *)
Fixpoint spaced (gap : Q) (times : list Q) : Prop :=
  match times with
  | t1 :: ((t2 :: _) as later) => t1 + gap <= t2 /\ spaced gap later
  | _ => True
  end.

(** What a session keeps true: the requests so far are spaced, and the
    last one started when [last_call_timestamp] says. *)
Definition in_step (self : AlphaVantageClient.t) (w : world) : Prop :=
  spaced 12 (List.map fst (requests w)) /\
  (requests w <> [] ->
   List.last (List.map fst (requests w)) 0 =
     AlphaVantageClient.last_call_timestamp self) /\
  AlphaVantageClient.min_call_interval self = 12.

End Runs.
End ClientRuns.

(** The files of [StockDataStorage]: [process_json_file],
    [process_and_store_file], and the name [save_to_json] gives a file.
    Paths are POSIX paths; console output is left out. *)
Module StockDataFiles.
Section Files.
Context {B : Builtins}.

Fixpoint has_char (c : ascii) (s : string) : bool :=
  match s with
  | EmptyString => false
  | String c' s' => Ascii.eqb c c' || has_char c s'
  end.

(** [s.split('_')[0]]: what stands before the first underscore. *)
Fixpoint split_first (s : string) : string :=
  match s with
  | EmptyString => EmptyString
  | String c s' =>
      if Ascii.eqb c "_"%char then EmptyString else String c (split_first s')
  end.

(** [os.path.basename(p)]: [p[p.rfind('/') + 1:]]. *)
Fixpoint basename (p : string) : string :=
  match p with
  | EmptyString => EmptyString
  | String c rest =>
      if has_char "/"%char rest then basename rest
      else if Ascii.eqb c "/"%char then rest else String c rest
  end.

(** [s.endswith('/')] *)
Fixpoint ends_with_slash (s : string) : bool :=
  match s with
  | EmptyString => false
  | String c EmptyString => Ascii.eqb c "/"%char
  | String _ rest => ends_with_slash rest
  end.

(** [os.path.join(a, b)] *)
Definition path_join (a b : string) : string :=
  if String.prefix "/" b then b
  else if (String.eqb a "" || ends_with_slash a)%bool then String.append a b
  else String.append a (String.append "/" b).

(** The path [save_to_json] writes to: [f"{symbol}_{timestamp}.json"] in
    [output_dir]; [timestamp] is [datetime.now()] printed as
    ['%Y%m%d_%H%M%S']. *)
Definition json_filepath (output_dir symbol timestamp : string) : string :=
  path_join output_dir
    (String.append symbol (String.append "_" (String.append timestamp ".json"))).

(** The first loop, which looks at the first entry and breaks. *)
Definition is_adjusted (time_series : pyval) : result bool :=
  let* entries := items time_series in
  match entries with
  | [] => Ok false
  | (_, values) :: _ => contains "5. adjusted close" values
  end.

(** The dictionary built for one date. *)
Definition item_of (adjusted : bool) (date : string) (values : pyval)
  : result pyval :=
  let* o := (let* x := subscript values "1. open" in py_float x) in
  let* h := (let* x := subscript values "2. high" in py_float x) in
  let* l := (let* x := subscript values "3. low" in py_float x) in
  let* c := (let* x := subscript values "4. close" in py_float x) in
  let* v := (let* x := subscript values
                         (if negb adjusted then "5. volume" else "6. volume") in
             py_int x) in
  let item := [("date", VStr date); ("open", VFloat o); ("high", VFloat h);
               ("low", VFloat l); ("close", VFloat c); ("volume", VInt v)] in
  let* a := (if adjusted
             then let* x := subscript values "5. adjusted close" in
                  let* f := py_float x in Ok (VFloat f)
             else subscript (VDict item) "close") in
  Ok (VDict (item ++ [("adjusted_close", a)])).

(** [for date, values in time_series.items(): ... data_list.append(item)] *)
Fixpoint item_loop (adjusted : bool) (entries : list (string * pyval))
  (data_list : list pyval) : result (list pyval) :=
  match entries with
  | [] => Ok data_list
  | (date, values) :: rest =>
      let* item := item_of adjusted date values in
      item_loop adjusted rest (data_list ++ [item])
  end.

(** The body of the [try]; [None] is the pair [(None, None)] returned for
    a file without the series. *)
Definition process_body (json_file : string) (data : pyval)
  : result (option (string * list pyval)) :=
  let symbol := split_first (basename json_file) in
  let* found := contains "Time Series (Daily)" data in
  if found then
    let* time_series := subscript data "Time Series (Daily)" in
    let* adjusted := is_adjusted time_series in
    let* entries := items time_series in
    let* data_list := item_loop adjusted entries [] in
    Ok (Some (symbol, data_list))
  else Ok None.

(** [process_json_file(json_file)], where [loaded] is what opening the
    file and [json.load] give; every exception ends in [(None, None)]. *)
Definition process_json_file (loaded : result pyval) (json_file : string)
  : option (string * list pyval) :=
  match (let* data := loaded in process_body json_file data) with
  | Ok r => r
  | Raise _ => None
  end.

Definition process_and_store_file (E : StockDataStorage.env)
  (loaded : result pyval) (json_file : string) (download_id : Z)
  (d : StockDataStorage.db) : result nat * StockDataStorage.db :=
  match process_json_file loaded json_file with
  | None => (Ok 0%nat, d)
  | Some (symbol, data_list) =>
      if (String.eqb symbol "" || negb (truthy (VList data_list)))%bool
      then (Ok 0%nat, d)
      else StockDataStorage.store_stock_data E symbol data_list download_id d
  end.

(** The item a plain daily entry is meant to give: the adjusted close is
    the close. *)
Definition daily_item (r : Daily.row) : pyval :=
  VDict [("date", VStr (Daily.date r)); ("open", VFloat (Daily.open r));
         ("high", VFloat (Daily.high r)); ("low", VFloat (Daily.low r));
         ("close", VFloat (Daily.close r)); ("volume", VInt (Daily.volume r));
         ("adjusted_close", VFloat (Daily.close r))].

(** The item an adjusted entry is meant to give. *)
Definition adjusted_item (r : Adjusted.row) : pyval :=
  VDict [("date", VStr (Adjusted.date r)); ("open", VFloat (Adjusted.open r));
         ("high", VFloat (Adjusted.high r)); ("low", VFloat (Adjusted.low r));
         ("close", VFloat (Adjusted.close r)); ("volume", VInt (Adjusted.volume r));
         ("adjusted_close", VFloat (Adjusted.adjusted_close r))].

(** The tuple [store_stock_data] builds from [daily_item r]. *)
Definition daily_price_row (sid did : Z) (r : Daily.row)
  : StockDataStorage.price_row :=
  {| StockDataStorage.symbol_id := sid;
     StockDataStorage.date := VStr (Daily.date r);
     StockDataStorage.open := VFloat (Daily.open r);
     StockDataStorage.high := VFloat (Daily.high r);
     StockDataStorage.low := VFloat (Daily.low r);
     StockDataStorage.close := VFloat (Daily.close r);
     StockDataStorage.adjusted_close := VFloat (Daily.close r);
     StockDataStorage.volume := VInt (Daily.volume r);
     StockDataStorage.download_id := did |}.

End Files.
End StockDataFiles.

(** The two methods of [StockDataDownloader] that download several
    symbols.  [envs i] is what the [i]-th call of [download_symbol_data]
    meets; the time stamp of an entry of [results] is left out. *)
Module DownloaderRuns.
Import StockDataDownloader.
Section Runs.
Context {B : Builtins}.

(** The entry of [results] for one symbol: [download_id] and [success]. *)
Definition entry : Type := option Z * bool.

(** [download_id, data, success = self.download_symbol_data(ticker)]; a
    call that returned [None] cannot be unpacked. *)
Definition unpack (r : option ret) : result ret :=
  match r with
  | Some tuple => Ok tuple
  | None => Raise TypeError
  end.

(** The loop of [download_specific_symbols]; [last] is [symbols[-1]] and
    [several] is [len(symbols) > 1]. *)
Fixpoint specific_loop (envs : nat -> env) (self : t) (last : string)
  (several : bool) (i : nat) (symbols : list string)
  (results : gmap string entry) (st : state)
  : result (gmap string entry) * state :=
  match symbols with
  | [] => (Ok results, st)
  | symbol_ticker :: rest =>
      let '(r, st1) := download_symbol_data (envs i) self symbol_ticker st in
      match unpack r with
      | Raise ex => (Raise ex, st1)
      | Ok (download_id, _, success) =>
          let results1 := <[symbol_ticker := (download_id, success)]> results in
          let st2 :=
            if (several && negb (String.eqb symbol_ticker last))%bool
            then time_sleep 15 st1 else st1 in
          specific_loop envs self last several (S i) rest results1 st2
      end
  end.

Definition download_specific_symbols (envs : nat -> env) (self : t)
  (symbols : list string) (st : state) : result (gmap string entry) * state :=
  match symbols with
  | [] => (Ok ∅, st)
  | _ =>
      specific_loop envs self (List.last symbols "")
        (1 <? List.length symbols)%nat 0 symbols ∅ st
  end.

(** The loop of [download_all_pending_symbols] over the tickers of
    [symbols_to_download]. *)
Fixpoint pending_loop (envs : nat -> env) (self : t) (several : bool) (i : nat)
  (symbols : list string) (results : gmap string entry) (st : state)
  : result (gmap string entry) * state :=
  match symbols with
  | [] => (Ok results, st)
  | symbol_ticker :: rest =>
      let '(r, st1) := download_symbol_data (envs i) self symbol_ticker st in
      match unpack r with
      | Raise ex => (Raise ex, st1)
      | Ok (download_id, _, success) =>
          let results1 := <[symbol_ticker := (download_id, success)]> results in
          let st2 := if several then time_sleep 15 st1 else st1 in
          pending_loop envs self several (S i) rest results1 st2
      end
  end.

(** [symbols_to_download] is what [metadata.get_symbols_to_download()]
    answered, given by the tickers of its items. *)
Definition download_all_pending_symbols (envs : nat -> env) (self : t)
  (symbols_to_download : list string) (st : state)
  : result (gmap string entry) * state :=
  match symbols_to_download with
  | [] => (Ok ∅, st)
  | _ =>
      pending_loop envs self (1 <? List.length symbols_to_download)%nat 0
        symbols_to_download ∅ st
  end.

(** What a call adds to the record of the calls before it. *)
Definition after (st added : state) : state :=
  {| api_calls := api_calls st ++ api_calls added;
     sleeps := sleeps st ++ sleeps added;
     status_updates := status_updates st ++ status_updates added |}.

(** The sleeps of the [i]-th and later downloads taken on their own. *)
Fixpoint own_sleeps (envs : nat -> env) (self : t) (i : nat)
  (symbols : list string) : list (list Z) :=
  match symbols with
  | [] => []
  | symbol_ticker :: rest =>
      sleeps (snd (download_symbol_data (envs i) self symbol_ticker fresh))
      :: own_sleeps envs self (S i) rest
  end.

(** Fifteen seconds between two downloads, none after the last. *)
Fixpoint pauses_between (per_symbol : list (list Z)) : list Z :=
  match per_symbol with
  | [] => []
  | [s] => s
  | s :: rest => s ++ [15] ++ pauses_between rest
  end.

(** Fifteen seconds after every download. *)
Fixpoint pauses_after (per_symbol : list (list Z)) : list Z :=
  match per_symbol with
  | [] => []
  | s :: rest => s ++ [15] ++ pauses_after rest
  end.

(** The entry of [results] a returned tuple gives. *)
Definition entry_of (r : option ret) : option entry :=
  match r with
  | Some (download_id, _, success) => Some (download_id, success)
  | None => None
  end.

End Runs.
End DownloaderRuns.

(** [base.Subject].  No observer class of the repository defines
    [__eq__]: [in] and [remove] compare observers by identity, and an
    observer stands here as its address. *)
Module Subject.

Record t : Type := { _observers : list nat }.

Definition __init__ : t := {| _observers := [] |}.

(** [observer in self._observers] *)
Definition registered (observer : nat) (self : t) : bool :=
  existsb (Nat.eqb observer) (_observers self).

Definition attach (observer : nat) (self : t) : t :=
  if negb (registered observer self)
  then {| _observers := _observers self ++ [observer] |}
  else self.

(** [list.remove(x)]: the first occurrence goes. *)
Fixpoint list_remove (x : nat) (l : list nat) : list nat :=
  match l with
  | [] => []
  | y :: l' => if Nat.eqb x y then l' else y :: list_remove x l'
  end.

Definition detach (observer : nat) (self : t) : t :=
  if registered observer self
  then {| _observers := list_remove observer (_observers self) |}
  else self.

(** [notify]: [observer.update(self, ...)] for each observer in turn;
    [update] tells whether the call of an observer raises, which ends the
    loop.  The observers called are returned with the outcome. *)
Fixpoint notify_loop (update : nat -> result unit) (observers : list nat)
  (called : list nat) : result unit * list nat :=
  match observers with
  | [] => (Ok tt, called)
  | observer :: rest =>
      match update observer with
      | Ok _ => notify_loop update rest (called ++ [observer])
      | Raise ex => (Raise ex, called ++ [observer])
      end
  end.

Definition notify (update : nat -> result unit) (self : t) : result unit * list nat :=
  notify_loop update (_observers self) [].

(** What a program can do with a subject. *)
Inductive call : Type :=
| Attach (observer : nat)
| Detach (observer : nat).

Definition step (self : t) (c : call) : t :=
  match c with
  | Attach observer => attach observer self
  | Detach observer => detach observer self
  end.

(** A new subject after a sequence of calls. *)
Definition after_calls (calls : list call) : t :=
  List.fold_left step calls __init__.

End Subject.

(** [ConfigManager.set] and [get_all], beside [Singleton.config_get]. *)
Module ConfigManagerMethods.
Import Singleton.

(** [self.config[key] = value] *)
Definition config_set (cm : nat) (key value : string) (h : heap) : result heap :=
  let* c := getattr h cm "config" in
  match c with
  | ADict d => setattr cm "config" (ADict (<[key := value]> d)) h
  | _ => Raise TypeError
  end.

(** [self.config.copy()] *)
Definition get_all (h : heap) (cm : nat) : result (gmap string string) :=
  let* c := getattr h cm "config" in
  match c with
  | ADict d => Ok d
  | _ => Raise AttributeError
  end.

End ConfigManagerMethods.

Module ConfigSamples.
Import Singleton ConfigManagerMethods.

(** The first [ConfigManager()] of a process without configuration in
    its environment, and the heap after [set('LOG_LEVEL', 'DEBUG')]. *)
Definition first_config : result (nat * heap) :=
  ConfigManager Samples.no_environment empty_heap.

Definition config_addr : nat :=
  match first_config with Ok (cm, _) => cm | Raise _ => 0%nat end.

Definition config_heap : heap :=
  match first_config with Ok (_, h) => h | Raise _ => empty_heap end.

Definition debug_heap : heap :=
  match config_set config_addr "LOG_LEVEL" "DEBUG" config_heap with
  | Ok h => h
  | Raise _ => empty_heap
  end.

(** An environment that sets every variable to the same text. *)
Definition loud_environment : string -> option string := fun _ => Some "changed".

End ConfigSamples.

(** The loops of the two scripts that fill [StockPrices] symbol by symbol:
    [scripts/Downloader.py], on one connection for the whole run, and
    [ejemplo_uso] of [scripts/main.py], on a connection per symbol.  The
    database stands as the INSERT statements committed and pending; a
    statement the server rejects leaves the transaction open. *)
Module ScriptLoops.
Import Sql.
Section Loops.
Context {B : Builtins}.

Record env : Type := {
  (* obtener_historico_accion(symbol, api_key): the rows of the frame *)
  obtener_historico_accion : string -> result (list historico);
  (* descargar_datos_yahoo(symbol, ...): the rows of the frame *)
  descargar_datos_yahoo : string -> result (list pyval);
  (* whether the server executes the j-th INSERT of the i-th symbol *)
  execute_accepted : nat -> nat -> bool;
  (* whether the commit after the i-th symbol succeeds *)
  commit_accepted : nat -> bool
}.

Record state : Type := {
  committed : list statement;
  pending : list statement;
  sleeps : list Z
}.

(** [for index, row in df_historico.iterrows(): cursor.execute(...)] *)
Fixpoint Downloader_inserts (E : env) (i : nat) (symbol_id : pyval)
  (rows : list historico) (j : nat) (pending : list statement)
  : result unit * list statement :=
  match rows with
  | [] => (Ok tt, pending)
  | row :: rest =>
      if execute_accepted E i j
      then Downloader_inserts E i symbol_id rest (S j)
             (pending ++ [Downloader_execute symbol_id row])
      else (Raise DatabaseError, pending)
  end.

(** The body of the loop of [Downloader.py] for one symbol: every
    exception ends in [except Exception: ... continue]. *)
Definition Downloader_symbol (E : env) (i : nat) (symbol_data : pyval * string)
  (st : state) : state :=
  let '(symbol_id, symbol) := symbol_data in
  match obtener_historico_accion E symbol with
  | Raise _ => st
  | Ok df_historico =>
      match Downloader_inserts E i symbol_id df_historico 0 (pending st) with
      | (Raise _, pending1) =>
          {| committed := committed st; pending := pending1; sleeps := sleeps st |}
      | (Ok _, pending1) =>
          if commit_accepted E i
          then {| committed := committed st ++ pending1; pending := [];
                  sleeps := sleeps st ++ [12] |}
          else {| committed := committed st; pending := pending1;
                  sleeps := sleeps st |}
      end
  end.

Fixpoint Downloader_loop (E : env) (i : nat) (symbols_lista : list (pyval * string))
  (st : state) : state :=
  match symbols_lista with
  | [] => st
  | symbol_data :: rest =>
      Downloader_loop E (S i) rest (Downloader_symbol E i symbol_data st)
  end.

(** The dictionary [params] of [ejemplo_uso]: [row['Date']] and the
    like raise on a missing column. *)
Definition main_params (symbol_id : Z) (row : pyval) : result WebApp.params :=
  let* d := subscript row "Date" in
  let* o := subscript row "Open" in
  let* h := subscript row "High" in
  let* l := subscript row "Low" in
  let* c := subscript row "Close" in
  let* v := subscript row "Volume" in
  Ok {| WebApp.symbol_id := symbol_id; WebApp.date := d; WebApp.open := o;
        WebApp.high := h; WebApp.low := l; WebApp.close := c;
        WebApp.volume := v |}.

Fixpoint main_inserts (E : env) (i : nat) (symbol_id : Z) (rows : list pyval)
  (j : nat) (pending : list statement) : result unit * list statement :=
  match rows with
  | [] => (Ok tt, pending)
  | row :: rest =>
      match main_params symbol_id row with
      | Raise ex => (Raise ex, pending)
      | Ok p =>
          if execute_accepted E i j
          then main_inserts E i symbol_id rest (S j) (pending ++ [main_execute p])
          else (Raise DatabaseError, pending)
      end
  end.

(** The body of the loop of [ejemplo_uso] for one symbol:
    [with conexion.connect() as conn] opens a connection of its own, and
    what it has not committed when the block is left is rolled back. *)
Definition main_symbol (E : env) (i : nat) (symbol_data : Z * string) (st : state)
  : state :=
  let '(symbol_id, symbol) := symbol_data in
  match descargar_datos_yahoo E symbol with
  | Raise _ => st
  | Ok df_historico =>
      match main_inserts E i symbol_id df_historico 0 [] with
      | (Raise _, _) => st
      | (Ok _, pending1) =>
          if commit_accepted E i
          then {| committed := committed st ++ pending1; pending := pending st;
                  sleeps := sleeps st ++ [12] |}
          else st
      end
  end.

Fixpoint main_loop (E : env) (i : nat) (symbols_lista : list (Z * string))
  (st : state) : state :=
  match symbols_lista with
  | [] => st
  | symbol_data :: rest => main_loop E (S i) rest (main_symbol E i symbol_data st)
  end.

(** The statements of a symbol the server executed: those before the
    first it rejects. *)
Fixpoint executed (E : env) (i j : nat) (stmts : list statement) : list statement :=
  match stmts with
  | [] => []
  | s :: rest => if execute_accepted E i j then s :: executed E i (S j) rest else []
  end.

Fixpoint all_accepted (E : env) (i j n : nat) : bool :=
  match n with
  | O => true
  | S n' => execute_accepted E i j && all_accepted E i (S j) n'
  end.

(** The statements [Downloader.py] sends for a symbol. *)
Definition Downloader_statements (E : env) (symbol_data : pyval * string)
  : list statement :=
  match obtener_historico_accion E (snd symbol_data) with
  | Raise _ => []
  | Ok df_historico => List.map (Downloader_execute (fst symbol_data)) df_historico
  end.

(** The symbol went through: downloaded, every row inserted, committed. *)
Definition Downloader_stored (E : env) (i : nat) (symbol_data : pyval * string)
  : bool :=
  match obtener_historico_accion E (snd symbol_data) with
  | Raise _ => false
  | Ok df_historico =>
      all_accepted E i 0 (List.length df_historico) && commit_accepted E i
  end.

(** Everything the server executed during the run, symbol after symbol. *)
Fixpoint Downloader_executed (E : env) (i : nat)
  (symbols_lista : list (pyval * string)) : list statement :=
  match symbols_lista with
  | [] => []
  | symbol_data :: rest =>
      executed E i 0 (Downloader_statements E symbol_data) ++
      Downloader_executed E (S i) rest
  end.

Fixpoint Downloader_stored_count (E : env) (i : nat)
  (symbols_lista : list (pyval * string)) : nat :=
  match symbols_lista with
  | [] => 0
  | symbol_data :: rest =>
      ((if Downloader_stored E i symbol_data then 1 else 0) +
       Downloader_stored_count E (S i) rest)%nat
  end.

(** [ejemplo_uso]: the parameters of all the rows of a frame. *)
Fixpoint params_list (symbol_id : Z) (rows : list pyval)
  : result (list WebApp.params) :=
  match rows with
  | [] => Ok []
  | row :: rest =>
      let* p := main_params symbol_id row in
      let* ps := params_list symbol_id rest in
      Ok (p :: ps)
  end.

(** The statements of a symbol that went through, none for a symbol that
    did not. *)
Definition main_stored (E : env) (i : nat) (symbol_data : Z * string)
  : list statement * bool :=
  match descargar_datos_yahoo E (snd symbol_data) with
  | Raise _ => ([], false)
  | Ok df_historico =>
      match params_list (fst symbol_data) df_historico with
      | Raise _ => ([], false)
      | Ok ps =>
          if (all_accepted E i 0 (List.length ps) && commit_accepted E i)%bool
          then (List.map main_execute ps, true)
          else ([], false)
      end
  end.

Fixpoint main_stored_rows (E : env) (i : nat) (symbols_lista : list (Z * string))
  : list statement :=
  match symbols_lista with
  | [] => []
  | symbol_data :: rest =>
      fst (main_stored E i symbol_data) ++ main_stored_rows E (S i) rest
  end.

Fixpoint main_stored_count (E : env) (i : nat) (symbols_lista : list (Z * string))
  : nat :=
  match symbols_lista with
  | [] => 0
  | symbol_data :: rest =>
      ((if snd (main_stored E i symbol_data) then 1 else 0) +
       main_stored_count E (S i) rest)%nat
  end.

End Loops.
End ScriptLoops.

Module ScriptSamples.
Import Decimal Samples Sql ScriptLoops.

Definition historico_of (day : string) : @historico Decimal.builtins :=
  {| fecha := str day; apertura := VFloat (18715 # 100)%Q;
     alto := VFloat (18844 # 100)%Q; bajo := VFloat (18388 # 100)%Q;
     cierre := VFloat (18564 # 100)%Q; volumen := VInt 82488700 |}.

Definition yahoo_row (day : string) : pyval :=
  VDict [("Date", str day); ("Open", VFloat (18715 # 100)%Q);
         ("High", VFloat (18844 # 100)%Q); ("Low", VFloat (18388 # 100)%Q);
         ("Close", VFloat (18564 # 100)%Q); ("Volume", VInt 82488700)].

(** Two days for every symbol; the server rejects the second row of the
    first symbol and accepts everything else. *)
Definition second_row_rejected : ScriptLoops.env :=
  {| obtener_historico_accion :=
       fun _ => Ok [historico_of "2024-01-02"; historico_of "2024-01-03"];
     descargar_datos_yahoo :=
       fun _ => Ok [yahoo_row "2024-01-02"; yahoo_row "2024-01-03"];
     execute_accepted := fun i j => negb ((i =? 0)%nat && (j =? 1)%nat);
     commit_accepted := fun _ => true |}.

Definition empty_state : ScriptLoops.state :=
  {| committed := []; pending := []; sleeps := [] |}.

Definition params_of_day (symbol_id : Z) (day : string) : WebApp.params :=
  {| WebApp.symbol_id := symbol_id; WebApp.date := str day;
     WebApp.open := VFloat (18715 # 100)%Q; WebApp.high := VFloat (18844 # 100)%Q;
     WebApp.low := VFloat (18388 # 100)%Q; WebApp.close := VFloat (18564 # 100)%Q;
     WebApp.volume := VInt 82488700 |}.

End ScriptSamples.

(** The statements whose text is put together at run time:
    [MetadataManager.update_symbol], [MetadataManager.update_download_status]
    and [StockDataStorage.get_stock_data_from_db]. *)
Module DynamicSql.
Import Sql.
Section Statements.
Context {B : Builtins}.

(** [', '.join(parts)] *)
Fixpoint join (parts : list string) : string :=
  match parts with
  | [] => ""
  | [p] => p
  | p :: rest => String.append p (String.append ", " (join rest))
  end.

(** [update_symbol(symbol_id, company_name, is_active)] up to
    [cursor.execute]; [None] for an argument left at its default, and for
    the statement when there is nothing to update. *)
Definition update_symbol (symbol_id : pyval) (company_name is_active : option pyval)
  : option statement :=
  let update_parts :=
    (match company_name with Some _ => ["CompanyName = ?"] | None => [] end) ++
    (match is_active with Some _ => ["IsActive = ?"] | None => [] end) in
  let params :=
    (match company_name with Some v => [v] | None => [] end) ++
    (match is_active with
     | Some v => [VInt (if truthy v then 1 else 0)]
     | None => []
     end) in
  match update_parts with
  | [] => None
  | _ =>
      Some {| text := String.append "UPDATE Metadata.Symbols SET "
                        (String.append (join update_parts) " WHERE SymbolID = ?");
              positional := params ++ [symbol_id];
              named := [] |}
  end.

(** [update_download_status(download_id, status, end_date)] up to
    [cursor.execute]. *)
Definition update_download_status (download_id status : pyval)
  (end_date : option pyval) : statement :=
  let update_parts :=
    ["Status = ?"] ++
    (match end_date with Some _ => ["EndDate = ?"] | None => [] end) in
  let params :=
    [status] ++ (match end_date with Some v => [v] | None => [] end) in
  {| text := String.append "UPDATE Metadata.Downloads SET "
               (String.append (join update_parts) " WHERE DownloadID = ?");
     positional := params ++ [download_id];
     named := [] |}.

Definition stock_data_select : string := "
            SELECT 
                s.Symbol,
                p.Date,
                p.Open,
                p.High,
                p.Low,
                p.Close,
                p.AdjustedClose,
                p.Volume
            FROM 
                AVdata.StockPrices p
                JOIN Metadata.Symbols s ON p.SymbolID = s.SymbolID
            WHERE 
                p.SymbolID = ?
            ".

(** The query [get_stock_data_from_db] executes.  [format] is what an
    f-string makes of a value, a built-in of the interpreter. *)
Definition get_stock_data_query (format : pyval -> string)
  (symbol_id start_date end_date limit : pyval) : statement :=
  let query1 := if truthy start_date
                then String.append stock_data_select " AND p.Date >= ?"
                else stock_data_select in
  let params1 := if truthy start_date then [symbol_id; start_date] else [symbol_id] in
  let query2 := if truthy end_date
                then String.append query1 " AND p.Date <= ?" else query1 in
  let params2 := if truthy end_date then params1 ++ [end_date] else params1 in
  let query3 := String.append query2 " ORDER BY p.Date DESC" in
  let query4 :=
    if truthy limit
    then String.append query3
           (String.append " OFFSET 0 ROWS FETCH NEXT "
              (String.append (format limit) " ROWS ONLY"))
    else query3 in
  {| text := query4; positional := params2; named := [] |}.

(** The three texts [update_symbol] can send. *)
Definition update_symbol_texts : list string :=
  ["UPDATE Metadata.Symbols SET CompanyName = ? WHERE SymbolID = ?";
   "UPDATE Metadata.Symbols SET IsActive = ? WHERE SymbolID = ?";
   "UPDATE Metadata.Symbols SET CompanyName = ?, IsActive = ? WHERE SymbolID = ?"].

(** The two texts [update_download_status] can send. *)
Definition update_download_status_texts : list string :=
  ["UPDATE Metadata.Downloads SET Status = ? WHERE DownloadID = ?";
   "UPDATE Metadata.Downloads SET Status = ?, EndDate = ? WHERE DownloadID = ?"].

End Statements.
End DynamicSql.

(** [scripts/stock_storage_poo.py], [StockDataStorage.store_stock_data],
    with [DatabaseConnector.execute_many] of [scripts/db_connector.py]:
    the same tuples and batches as in [stock_storage_commented.py], handed
    to [cursor.executemany] through the connector.  The model records the
    calls of [cursor.executemany], which is what the parameters of the
    INSERT depend on; the observers that are notified only write to the
    log and are left out. *)
Module StockDataStoragePoo.
Section Methods.
Context {B : Builtins}.

Record env : Type := {
  (* metadata.get_symbol_by_ticker(symbol)['SymbolID'], None if not found *)
  symbol_id_of : string -> option Z;
  (* execute_many: [self.conn] and [self.cursor] are set, or [connect()]
     succeeds, when the k-th batch is sent *)
  connected : nat -> bool;
  (* whether the server executes the k-th batch *)
  executemany_accepted : nat -> bool
}.

Definition query : string := "
                INSERT INTO AVdata.StockPrices 
                (SymbolID, Date, Open, High, Low, Close, AdjustedClose, Volume, DownloadID)
                VALUES (?, ?, ?, ?, ?, ?, ?, ?, ?)
                ".

(** One call [self.cursor.executemany(query, params_list)]. *)
Definition call : Type := string * list StockDataStorage.price_row.

(** [DatabaseConnector.execute_many(query, params_list)]: every exception
    is logged and raised again. *)
Definition execute_many (E : env) (k : nat) (query : string)
  (params_list : list StockDataStorage.price_row) (calls : list call)
  : result unit * list call :=
  if connected E k
  then
    let calls1 := calls ++ [(query, params_list)] in
    if executemany_accepted E k then (Ok tt, calls1)
    else (Raise DatabaseError, calls1)
  else (Raise (Exception "No hay conexión con la base de datos"), calls).

(** The [try] with its handler: [self.db.commit()] and [self.db.rollback()]
    return a truth value that is not looked at, and the handler returns
    what was counted so far. *)
Fixpoint insert_batches (E : env) (values_list : list StockDataStorage.price_row)
  (offsets : list nat) (total_inserted : nat) (calls : list call)
  : nat * list call :=
  match offsets with
  | [] => (total_inserted, calls)
  | i :: rest =>
      let batch := StockDataStorage.slice values_list i StockDataStorage.batch_size in
      match execute_many E (i / StockDataStorage.batch_size) query batch calls with
      | (Raise _, calls1) => (total_inserted, calls1)
      | (Ok _, calls1) =>
          insert_batches E values_list rest
            (total_inserted + List.length batch) calls1
      end
  end.

Definition store_stock_data (E : env) (symbol : string) (data_list : list pyval)
  (did : Z) (calls : list call) : result nat * list call :=
  match data_list with
  | [] => (Ok 0%nat, calls)
  | _ =>
      match symbol_id_of E symbol with
      | None => (Ok 0%nat, calls)
      | Some sid =>
          match StockDataStorage.build_values sid did data_list [] with
          | Raise ex => (Raise ex, calls)
          | Ok values_list =>
              let '(total_inserted, calls') :=
                insert_batches E values_list
                  (StockDataStorage.range_step (List.length values_list)
                     StockDataStorage.batch_size) 0 calls in
              (Ok total_inserted, calls')
          end
      end
  end.

End Methods.
End StockDataStoragePoo.

(** What reaches the database driver on the paths that write to
    [StockPrices]. *)
Module InsertPaths.
Import Sql.
Section Paths.
Context {B : Builtins}.


(** The statements the driver received between two states of the
    connection of [stock_storage_commented.py]: the batches
    [store_stock_data] handed to [self.cursor.executemany(query, batch)]. *)
Definition StockDataStorage_sent (d d' : StockDataStorage.db) : list statement :=
  concat (List.map StockDataStorage_executemany
            (skipn (List.length (StockDataStorage.executed d))
                   (StockDataStorage.executed d'))).



End Paths.
End InsertPaths.

(** [webapp/app.py], [descargar] with the errors of leaving a [with]
    block.  [WebApp.descargar] is the request whose blocks are left
    without an error.  Here the COMMIT with which [with connection.begin():]
    ends and the closing of the connection with which
    [with engine.connect() as connection:] ends can fail as well.  Such an
    error is raised when the messages of the block have been flashed
    already, and it is handled by the outer [except Exception], which
    flashes a message of its own. *)
Module WebAppExits.
Section App.
Context {B : Builtins}.

Record exits : Type := {
  (* the COMMIT at the end of the transaction *)
  commit_accepted : bool;
  (* closing the connection of the symbol lookup *)
  lookup_close_accepted : bool;
  (* closing the connection of the transaction *)
  transaction_close_accepted : bool
}.

(** The second [with engine.connect()] block.  The body of the
    transaction is the whole [try ... except Exception] statement, which
    flashes its message and raises nothing; a COMMIT that fails rolls the
    transaction back and raises. *)
Definition transaction (E : WebApp.env) (X : exits) (sid : Z) (sid_text : string)
  (rows : list pydict) (c : WebApp.conn) : list WebApp.flash * WebApp.conn :=
  match WebApp.transaction_body E sid sid_text rows (WebApp.begin_ c) with
  | (Raise ex, c1) => ([WebApp.Unexpected ex], WebApp.rollback c1)
  | (Ok message, c1) =>
      if negb (commit_accepted X)
      then ([message; WebApp.Unexpected DatabaseError], WebApp.rollback c1)
      else if negb (transaction_close_accepted X)
      then ([message; WebApp.Unexpected DatabaseError], WebApp.commit c1)
      else ([message], WebApp.commit c1)
  end.

Definition descargar (E : WebApp.env) (X : exits) (f : WebApp.form)
  (c : WebApp.conn) : list WebApp.flash * WebApp.conn :=
  match WebApp.nonempty (WebApp.form_symbol_id f),
        WebApp.nonempty (WebApp.form_fecha_inicio f),
        WebApp.nonempty (WebApp.form_fecha_fin f) with
  | Some sid_text, Some fecha_inicio_str, Some fecha_fin_str =>
      match WebApp.strptime E fecha_inicio_str, WebApp.strptime E fecha_fin_str with
      | Some fecha_inicio, Some fecha_fin =>
          if String.ltb fecha_fin fecha_inicio then ([WebApp.StartAfterEnd], c)
          else
            match WebApp.connect E with
            | Raise ex => ([WebApp.Unexpected ex], c)
            | Ok _ =>
                match WebApp.sql_int E sid_text with
                | None => ([WebApp.Unexpected DatabaseError], c)
                | Some sid =>
                    match WebApp.symbol_of E sid with
                    | None =>
                        (* flash, then [return] through the end of the block *)
                        if lookup_close_accepted X
                        then ([WebApp.SymbolNotFound], c)
                        else ([WebApp.SymbolNotFound;
                               WebApp.Unexpected DatabaseError], c)
                    | Some symbol =>
                        if negb (lookup_close_accepted X)
                        then ([WebApp.Unexpected DatabaseError], c)
                        else
                          match WebApp.descargar_datos_yahoo E symbol
                                  fecha_inicio fecha_fin with
                          | Raise ex => ([WebApp.Unexpected ex], c)
                          | Ok None => ([WebApp.NoData], c)
                          | Ok (Some []) => ([WebApp.NoData], c)
                          | Ok (Some rows) => transaction E X sid sid_text rows c
                          end
                    end
                end
            end
      | _, _ => ([WebApp.BadDateFormat], c)
      end
  | _, _, _ => ([WebApp.MissingFields], c)
  end.

(** Nothing fails on leaving a block. *)
Definition clean (X : exits) : Prop :=
  commit_accepted X = true /\ lookup_close_accepted X = true /\
  transaction_close_accepted X = true.

End App.
End WebAppExits.

(** [StockDataStorage.process_all_json_files]: every JSON file of the
    data directory is processed, stored and moved to [processed/].  The
    calls the method makes outside any [try] can fail here:
    [os.listdir], [os.makedirs], and the [conn.rollback()] with which the
    handler of [store_stock_data] begins. *)
Module StorageRuns.
Import StockDataFiles.
Section Runs.
Context {B : Builtins}.

(** [s.endswith(suffix)] *)
Fixpoint endswith (s suffix : string) : bool :=
  String.eqb s suffix ||
  match s with
  | EmptyString => false
  | String _ s' => endswith s' suffix
  end.

Record env : Type := {
  data_dir : string;
  (* os.path.exists(self.data_dir) *)
  data_dir_exists : bool;
  (* os.listdir(self.data_dir) *)
  listdir : result (list string);
  (* metadata.get_symbol_by_ticker(symbol)['SymbolID'] *)
  symbol_id_of : string -> option Z;
  (* metadata.get_last_download(symbol_id)['DownloadID'] *)
  last_download_id : Z -> option Z;
  (* what opening the file at a path and json.load give *)
  loaded : string -> result pyval;
  (* the answers of the server while the i-th file is stored *)
  exec_outcome : nat -> nat -> option nat;
  commit_fails : nat -> nat -> bool;
  (* whether conn.rollback() raises while the i-th file is stored *)
  rollback_fails : nat -> bool;
  (* whether os.makedirs(processed_dir, exist_ok=True) succeeds after the
     i-th file *)
  makedirs_ok : nat -> bool;
  (* whether os.rename of the file to processed/ succeeds *)
  rename_ok : string -> bool
}.

(** What the storage meets while the [i]-th file is stored. *)
Definition storage_env (R : env) (i : nat) : StockDataStorage.env :=
  {| StockDataStorage.symbol_id_of := symbol_id_of R;
     StockDataStorage.exec_outcome := exec_outcome R i;
     StockDataStorage.commit_fails := commit_fails R i |}.

(** [store_stock_data] with a rollback that can fail: the handler of the
    [try] calls [self.conn.rollback()] first, and what that raises leaves
    the method, the rows of the failed batch still pending.  With a
    rollback that succeeds this is [StockDataStorage.store_stock_data]. *)
Definition store_stock_data (E : StockDataStorage.env) (rollback_raises : bool)
  (symbol : string) (data_list : list pyval) (did : Z) (d : StockDataStorage.db)
  : result nat * StockDataStorage.db :=
  match data_list with
  | [] => (Ok 0%nat, d)
  | _ =>
      match StockDataStorage.symbol_id_of E symbol with
      | None => (Ok 0%nat, d)
      | Some sid =>
          match StockDataStorage.build_values sid did data_list [] with
          | Raise ex => (Raise ex, d)
          | Ok values_list =>
              match StockDataStorage.insert_batches E StockDataStorage.batch_size
                      values_list
                      (StockDataStorage.range_step (List.length values_list)
                         StockDataStorage.batch_size) 0 d with
              | (Ok total_inserted, d') => (Ok total_inserted, d')
              | (Raise _, d') =>
                  if rollback_raises then (Raise DatabaseError, d')
                  else (Ok 0%nat, StockDataStorage.rollback d')
              end
          end
      end
  end.

Definition process_and_store_file (E : StockDataStorage.env)
  (rollback_raises : bool) (loaded : result pyval) (json_file : string)
  (download_id : Z) (d : StockDataStorage.db) : result nat * StockDataStorage.db :=
  match process_json_file loaded json_file with
  | None => (Ok 0%nat, d)
  | Some (symbol, data_list) =>
      if (String.eqb symbol "" || negb (truthy (VList data_list)))%bool
      then (Ok 0%nat, d)
      else store_stock_data E rollback_raises symbol data_list download_id d
  end.

(** The entry of [results] for a file: symbol, download id and
    [inserted_count]; the time stamp is left out. *)
Definition entry : Type := string * Z * nat.

Record state : Type := {
  db : StockDataStorage.db;
  results : gmap string entry;
  moved : list string         (* the files now in processed/ *)
}.

Fixpoint files_loop (R : env) (i : nat) (json_files : list string) (st : state)
  : result unit * state :=
  match json_files with
  | [] => (Ok tt, st)
  | json_file :: rest =>
      let file_path := path_join (data_dir R) json_file in
      let symbol := split_first json_file in
      match symbol_id_of R symbol with
      | None => files_loop R (S i) rest st
      | Some symbol_id =>
          match last_download_id R symbol_id with
          | None => files_loop R (S i) rest st
          | Some download_id =>
              match process_and_store_file (storage_env R i) (rollback_fails R i)
                      (loaded R file_path) file_path download_id (db st) with
              | (Raise ex, d1) =>
                  (Raise ex, {| db := d1; results := results st; moved := moved st |})
              | (Ok inserted_count, d1) =>
                  let results1 :=
                    <[json_file := (symbol, download_id, inserted_count)]>
                      (results st) in
                  if makedirs_ok R i
                  then
                    files_loop R (S i) rest
                      {| db := d1;
                         results := results1;
                         moved := if rename_ok R json_file
                                  then moved st ++ [json_file] else moved st |}
                  else
                    (Raise OSError,
                     {| db := d1; results := results1; moved := moved st |})
              end
          end
      end
  end.

(** The method: the dictionary it returns, the files it moved, and the
    connection afterwards. *)
Definition process_all_json_files (R : env) (d : StockDataStorage.db)
  : result (gmap string entry) * list string * StockDataStorage.db :=
  if negb (data_dir_exists R) then (Ok ∅, [], d)
  else
    match listdir R with
    | Raise ex => (Raise ex, [], d)
    | Ok files =>
        let json_files := List.filter (fun f => endswith f ".json") files in
        match json_files with
        | [] => (Ok ∅, [], d)
        | _ =>
            match files_loop R 0 json_files
                    {| db := d; results := ∅; moved := [] |} with
            | (Ok _, st) => (Ok (results st), moved st, db st)
            | (Raise ex, st) => (Raise ex, moved st, db st)
            end
        end
    end.

(** A file named after a known symbol that has a download record. *)
Definition known (R : env) (json_file : string) : bool :=
  match symbol_id_of R (split_first json_file) with
  | Some symbol_id =>
      match last_download_id R symbol_id with Some _ => true | None => false end
  | None => false
  end.

(** A file the method does not skip. *)
Definition taken (R : env) (json_file : string) : bool :=
  endswith json_file ".json" && known R json_file.

(** What [os.listdir] gave, nothing when it raised. *)
Definition listed (R : env) : list string :=
  match listdir R with Ok files => files | Raise _ => [] end.

End Runs.
End StorageRuns.

Module RunSamples.
Import Decimal Samples StorageRuns.

(** A data directory with one file of a known symbol, one of an unknown
    symbol and one that is no JSON file; the server rejects the first row
    of every batch. *)
Definition rejecting_run : StorageRuns.env :=
  {| data_dir := "../data";
     data_dir_exists := true;
     listdir := Ok ["AAPL_20250331_120000.json"; "notes.txt";
                    "XYZ_20250331_120000.json"];
     symbol_id_of := fun s => if String.eqb s "AAPL" then Some 1 else None;
     last_download_id := fun _ => Some 7;
     loaded := fun _ => Ok (VDict MoreSamples.daily_payload_oldest_first);
     exec_outcome := fun _ _ => Some 0%nat;
     commit_fails := fun _ _ => false;
     rollback_fails := fun _ => false;
     makedirs_ok := fun _ => true;
     rename_ok := fun _ => true |}.

(** The same run with a connection that is lost: the rollback raises. *)
Definition lost_connection_run : StorageRuns.env :=
  {| data_dir := "../data";
     data_dir_exists := true;
     listdir := Ok ["AAPL_20250331_120000.json"; "notes.txt";
                    "XYZ_20250331_120000.json"];
     symbol_id_of := fun s => if String.eqb s "AAPL" then Some 1 else None;
     last_download_id := fun _ => Some 7;
     loaded := fun _ => Ok (VDict MoreSamples.daily_payload_oldest_first);
     exec_outcome := fun _ _ => Some 0%nat;
     commit_fails := fun _ _ => false;
     rollback_fails := fun _ => true;
     makedirs_ok := fun _ => true;
     rename_ok := fun _ => true |}.

End RunSamples.

(* ===================================================================== *)
(** * Part II. Properties of the embedded code *)
(* ===================================================================== *)

(* --------------------------------------------------------------------- *)
(** ** Order on date strings *)
(* --------------------------------------------------------------------- *)

Module StringOrder.

(** Byte-wise comparison of strings is transitive on its "not below" side:
    the order a most-recent-first list is sorted by. *)
Lemma compare_not_lt_trans (s : string) :
  forall t u : string,
    String.compare s t <> Lt -> String.compare t u <> Lt -> String.compare s u <> Lt.
Proof.
  induction s as [|a s IH]; intros [|b t] [|c u]; simpl; try congruence.
  unfold Ascii.compare.
  destruct (N.compare_spec (N_of_ascii a) (N_of_ascii b)) as [Eab|Lab|Gab];
    destruct (N.compare_spec (N_of_ascii b) (N_of_ascii c)) as [Ebc|Lbc|Gbc];
    try congruence; intros Hst Htu.
  - rewrite Eab, Ebc, N.compare_refl. now apply (IH t u).
  - rewrite Eab. apply N.compare_gt_iff in Gbc. rewrite Gbc. congruence.
  - rewrite <- Ebc. apply N.compare_gt_iff in Gab. rewrite Gab. congruence.
  - assert (H : (N_of_ascii c < N_of_ascii a)%N) by lia.
    apply N.compare_gt_iff in H. rewrite H. congruence.
Qed.

Lemma ltb_false_trans (s t u : string) :
  String.ltb s t = false -> String.ltb t u = false -> String.ltb s u = false.
Proof.
  unfold String.ltb. intros Hst Htu.
  pose proof (compare_not_lt_trans s t u) as H.
  destruct (String.compare s t); destruct (String.compare t u);
    destruct (String.compare s u); try reflexivity; try discriminate;
    exfalso; apply H; congruence.
Qed.

End StringOrder.

(* --------------------------------------------------------------------- *)
(** ** The descending date sort *)
(* --------------------------------------------------------------------- *)

Module DateSortFacts.
Import DateSort.
Section Facts.
Variable A : Type.
Variable date_of : A -> string.

Lemma insert_desc_perm (x : A) (l : list A) :
  Permutation (x :: l) (insert_desc date_of x l).
Proof.
  induction l as [|y l IH]; simpl.
  - apply Permutation_refl.
  - destruct (String.ltb (date_of x) (date_of y)).
    + eapply perm_trans; [apply perm_swap|]. now apply perm_skip.
    + apply Permutation_refl.
Qed.

Lemma sort_desc_perm (l : list A) : Permutation l (sort_desc date_of l).
Proof.
  induction l as [|x l IH]; simpl.
  - constructor.
  - eapply perm_trans; [apply perm_skip, IH | apply insert_desc_perm].
Qed.

Lemma sort_desc_length (l : list A) :
  List.length (sort_desc date_of l) = List.length l.
Proof. symmetry. apply Permutation_length, sort_desc_perm. Qed.

(** [String.ltb] is asymmetric: of two keys, at most one is below the other. *)
Lemma ltb_asym (s t : string) : String.ltb s t = true -> String.ltb t s = false.
Proof.
  unfold String.ltb. rewrite (String.compare_antisym t s).
  destruct (String.compare s t); simpl; congruence.
Qed.

Lemma insert_desc_hd (x a : A) (l : list A) :
  date_ge date_of a x -> HdRel (date_ge date_of) a l ->
  HdRel (date_ge date_of) a (insert_desc date_of x l).
Proof.
  intros Hax Hl. destruct l as [|y l]; simpl.
  - now constructor.
  - destruct (String.ltb (date_of x) (date_of y)).
    + inversion Hl; subst. now constructor.
    + now constructor.
Qed.

Lemma insert_desc_sorted (x : A) (l : list A) :
  Sorted (date_ge date_of) l -> Sorted (date_ge date_of) (insert_desc date_of x l).
Proof.
  induction 1 as [|y l Hs IH Hhd]; simpl.
  - repeat constructor.
  - destruct (String.ltb (date_of x) (date_of y)) eqn:E.
    + constructor; [exact IH|].
      apply insert_desc_hd; [|exact Hhd].
      unfold date_ge. now apply ltb_asym.
    + constructor; [now constructor|]. constructor. exact E.
Qed.

Lemma sort_desc_sorted (l : list A) : Sorted (date_ge date_of) (sort_desc date_of l).
Proof.
  induction l as [|x l IH]; simpl.
  - constructor.
  - now apply insert_desc_sorted.
Qed.

Lemma date_ge_trans (a b c : A) :
  date_ge date_of a b -> date_ge date_of b c -> date_ge date_of a c.
Proof. unfold date_ge. apply StringOrder.ltb_false_trans. Qed.

(** Every row stands before all the rows that are not more recent. *)
Lemma sort_desc_strongly_sorted (l : list A) :
  StronglySorted (date_ge date_of) (sort_desc date_of l).
Proof.
  apply Sorted_StronglySorted; [|apply sort_desc_sorted].
  intros a b c. apply date_ge_trans.
Qed.

End Facts.
End DateSortFacts.


(* --------------------------------------------------------------------- *)
(** ** JSON reshaping *)
(* --------------------------------------------------------------------- *)

Module ParseFacts.
Import DateSort.

Example daily_payload_parsed :
  snd (AlphaVantageClient.parse_daily_time_series Samples.daily_payload) =
  Ok Samples.daily_rows.
Proof. reflexivity. Qed.

Section Generic.
Context {B : Builtins}.

(** The two classes guard, index, loop and sort in the same way; only the
    message written on the early return differs. *)
Lemma daily_same_result (data : pyval) :
  snd (AlphaVantageAPI.parse_daily_time_series data) =
  snd (AlphaVantageClient.parse_daily_time_series data).
Proof.
  unfold AlphaVantageAPI.parse_daily_time_series,
    AlphaVantageClient.parse_daily_time_series.
  destruct (no_time_series data) as [[|]|e]; reflexivity.
Qed.

Lemma adjusted_same_result (data : pyval) :
  snd (AlphaVantageAPI.parse_daily_adjusted data) =
  snd (AlphaVantageClient.parse_daily_adjusted data).
Proof.
  unfold AlphaVantageAPI.parse_daily_adjusted,
    AlphaVantageClient.parse_daily_adjusted.
  destruct (no_time_series data) as [[|]|e]; reflexivity.
Qed.

(** C1. The commented class [AlphaVantageAPI] and the object-oriented class
    [AlphaVantageClient] implement the same JSON-parsing step: on every
    input, [parse_daily_time_series] of the one and of the other have the
    same outcome (the same list, or the same exception), and so have the
    two [parse_daily_adjusted]. *)
Theorem parse_versions_agree (data : pyval) :
  snd (AlphaVantageAPI.parse_daily_time_series data) =
    snd (AlphaVantageClient.parse_daily_time_series data) /\
  snd (AlphaVantageAPI.parse_daily_adjusted data) =
    snd (AlphaVantageClient.parse_daily_adjusted data).
Proof. split; [apply daily_same_result | apply adjusted_same_result]. Qed.

(** *** What the loop builds *)

Lemma format_entry_converts (e : string * pyval) (r : Daily.row) :
  daily_converts e r <-> Daily.format_entry (fst e) (snd e) = Ok r.
Proof.
  unfold daily_converts, Daily.format_entry. destruct r as [d o h l c v]; simpl.
  split.
  - intros (-> & -> & -> & -> & -> & ->). reflexivity.
  - destruct (let* x := subscript (snd e) "1. open" in py_float x); [|discriminate].
    destruct (let* x := subscript (snd e) "2. high" in py_float x); [|discriminate].
    destruct (let* x := subscript (snd e) "3. low" in py_float x); [|discriminate].
    destruct (let* x := subscript (snd e) "4. close" in py_float x); [|discriminate].
    destruct (let* x := subscript (snd e) "5. volume" in py_int x); [|discriminate].
    simpl. intros [= <- <- <- <- <- <-]. repeat split.
Qed.

Lemma format_loop_complete (entries : list (string * pyval)) (rows : list Daily.row) :
  Forall2 daily_converts entries rows ->
  forall acc, Daily.format_loop entries acc = Ok (acc ++ rows).
Proof.
  induction 1 as [|e r entries rows He _ IH]; intros acc; simpl.
  - now rewrite app_nil_r.
  - destruct e as [d values]. apply format_entry_converts in He. simpl in He.
    rewrite He. simpl. rewrite IH, <- app_assoc. reflexivity.
Qed.

Lemma format_loop_sound (entries : list (string * pyval)) :
  forall acc out,
    Daily.format_loop entries acc = Ok out ->
    exists rows, out = acc ++ rows /\ Forall2 daily_converts entries rows.
Proof.
  induction entries as [|[d values] entries IH]; intros acc out; simpl.
  - intros [= <-]. exists []. split; [now rewrite app_nil_r | constructor].
  - destruct (Daily.format_entry d values) as [r|] eqn:E; simpl; [|discriminate].
    intros Hl. destruct (IH _ _ Hl) as (rows & -> & Hrows).
    exists (r :: rows). split; [now rewrite <- app_assoc|].
    constructor; [|exact Hrows]. now apply format_entry_converts.
Qed.

Lemma lookup_has_key (k : string) (d : pydict) (v : pyval) :
  lookup k d = Some v -> has_key k d = true.
Proof. unfold has_key. now intros ->. Qed.

Lemma lookup_truthy (k : string) (d : pydict) (v : pyval) :
  lookup k d = Some v -> truthy (VDict d) = true.
Proof. destruct d; simpl; [discriminate | reflexivity]. Qed.

(** With the key present, the method is the loop followed by the sort. *)
Lemma client_daily_on_series (d : pydict) (series : pyval) :
  lookup TIME_SERIES_KEY d = Some series ->
  snd (AlphaVantageClient.parse_daily_time_series (VDict d)) =
  (let* entries := items series in
   let* formatted_data := Daily.format_loop entries [] in
   Ok (sort_desc Daily.date formatted_data)).
Proof.
  intros Hk. unfold AlphaVantageClient.parse_daily_time_series, no_time_series.
  rewrite (lookup_truthy _ _ _ Hk). simpl negb. cbv iota.
  unfold contains. rewrite (lookup_has_key _ _ _ Hk). simpl.
  now rewrite Hk.
Qed.

Lemma client_daily_without_series (data : pyval) :
  truthy data = false \/ contains TIME_SERIES_KEY data = Ok false ->
  snd (AlphaVantageClient.parse_daily_time_series data) = Ok [].
Proof.
  unfold AlphaVantageClient.parse_daily_time_series, no_time_series.
  intros [Hf|Hc].
  - now rewrite Hf.
  - destruct (truthy data); simpl; [now rewrite Hc | reflexivity].
Qed.

Lemma subscript_raises (v : pyval) (k : string) (ex : exn) :
  subscript v k = Raise ex -> ex = KeyError k \/ ex = TypeError.
Proof.
  destruct v as [| | | | | |members]; cbn; try (intros [= <-]; now right).
  destruct (lookup k members); [discriminate|]. intros [= <-]. now left.
Qed.

Lemma py_float_raises (v : pyval) (ex : exn) :
  py_float v = Raise ex -> ex = TypeError \/ ex = ValueError \/ ex = OverflowError.
Proof.
  destruct v as [|b|z|f|s|l|members]; cbn; try (intros [= <-]; tauto).
  - destruct (float_of_int _); [discriminate|]. intros [= <-]. tauto.
  - destruct (float_of_int _); [discriminate|]. intros [= <-]. tauto.
  - destruct (float_of_str _); [discriminate|]. intros [= <-]. tauto.
Qed.

Lemma float_field_raises (values : pyval) (field : string) (ex : exn) :
  In field daily_fields ->
  (let* x := subscript values field in py_float x) = Raise ex -> entry_error ex.
Proof.
  intros Hin. unfold entry_error.
  destruct (subscript values field) as [x|ex'] eqn:Es; cbn.
  - intros Hf. destruct (py_float_raises _ _ Hf) as [-> | [-> | ->]]; tauto.
  - intros [= <-]. destruct (subscript_raises _ _ _ Es) as [-> | ->]; [|tauto].
    left. now exists field.
Qed.

Lemma int_field_raises (values : pyval) (field : string) (ex : exn) :
  In field daily_fields ->
  (let* x := subscript values field in py_int x) = Raise ex -> entry_error ex.
Proof.
  intros Hin. unfold entry_error.
  destruct (subscript values field) as [x|ex'] eqn:Es; cbn.
  - destruct x as [|b|z|f|s|l|members]; cbn; try discriminate;
      try (intros [= <-]; tauto).
    + intros Hf. right. right. right. right. now exists f.
    + destruct (int_of_str s); [discriminate|]. intros [= <-]. tauto.
  - intros [= <-]. destruct (subscript_raises _ _ _ Es) as [-> | ->]; [|tauto].
    left. now exists field.
Qed.

Lemma format_entry_raises (d : string) (values : pyval) (ex : exn) :
  Daily.format_entry d values = Raise ex -> entry_error ex.
Proof.
  unfold Daily.format_entry.
  destruct (let* x := subscript values "1. open" in py_float x) eqn:E1;
    [|intros [= <-]; apply (float_field_raises _ "1. open" _ ltac:(cbn; tauto) E1)].
  destruct (let* x := subscript values "2. high" in py_float x) eqn:E2;
    [|intros [= <-]; apply (float_field_raises _ "2. high" _ ltac:(cbn; tauto) E2)].
  destruct (let* x := subscript values "3. low" in py_float x) eqn:E3;
    [|intros [= <-]; apply (float_field_raises _ "3. low" _ ltac:(cbn; tauto) E3)].
  destruct (let* x := subscript values "4. close" in py_float x) eqn:E4;
    [|intros [= <-]; apply (float_field_raises _ "4. close" _ ltac:(cbn; tauto) E4)].
  destruct (let* x := subscript values "5. volume" in py_int x) eqn:E5;
    [discriminate|intros [= <-]; apply (int_field_raises _ "5. volume" _ ltac:(cbn; tauto) E5)].
Qed.

(** The loop raises what the first entry that does not convert raises. *)
Lemma format_loop_raises (entries : list (string * pyval)) (ex : exn) :
  forall acc,
    Daily.format_loop entries acc = Raise ex ->
    exists date values,
      In (date, values) entries /\ Daily.format_entry date values = Raise ex.
Proof.
  induction entries as [|[d values] entries IH]; intros acc; cbn [Daily.format_loop].
  - discriminate.
  - destruct (Daily.format_entry d values) as [r|ex'] eqn:E; cbn [bind].
    + intros Hl. destruct (IH _ Hl) as (date & values' & Hin & Hraise).
      exists date, values'. split; [now right | exact Hraise].
    + intros [= <-]. exists d, values. split; [now left | exact E].
Qed.

End Generic.

Section Normalization.
Context {B : Builtins}.

(** C6 (as amended). When the value under ['Time Series (Daily)'] is a
    dictionary whose every entry converts (a dictionary holding
    ['1. open'] to ['4. close'] accepted by [float()] and ['5. volume']
    accepted by [int()]), [parse_daily_time_series] of either class returns
    one record per date entry, holding the converted fields, most recent
    date first.  It returns with the key present only in that case:
    otherwise it raises AttributeError when the value under the key is no
    dictionary, and else what the first entry that does not convert
    raises, which is a KeyError for one of the five fields, TypeError,
    ValueError, OverflowError or an exception of [int()] on a float.  On
    an input that is empty or lacks the key it returns the empty list. *)
Theorem parse_daily_time_series_normalizes
  (d : pydict) (entries : list (string * pyval)) (rows : list Daily.row)
  (Hkey : lookup TIME_SERIES_KEY d = Some (VDict entries))
  (Hconv : Forall2 daily_converts entries rows) :
  let out := sort_desc Daily.date rows in
  (snd (AlphaVantageClient.parse_daily_time_series (VDict d)) = Ok out /\
   snd (AlphaVantageAPI.parse_daily_time_series (VDict d)) = Ok out /\
   List.length out = List.length entries /\
   Permutation rows out /\
   StronglySorted (date_ge Daily.date) out) /\
  (forall (d' : pydict) (series : pyval) (out' : list Daily.row),
     lookup TIME_SERIES_KEY d' = Some series ->
     snd (AlphaVantageClient.parse_daily_time_series (VDict d')) = Ok out' ->
     exists entries' rows',
       series = VDict entries' /\ Forall2 daily_converts entries' rows' /\
       out' = sort_desc Daily.date rows') /\
  (forall (d' : pydict) (series : pyval) (ex : exn),
     lookup TIME_SERIES_KEY d' = Some series ->
     snd (AlphaVantageClient.parse_daily_time_series (VDict d')) = Raise ex ->
     snd (AlphaVantageAPI.parse_daily_time_series (VDict d')) = Raise ex /\
     ((ex = AttributeError /\ forall entries', series <> VDict entries') \/
      (exists entries' date values,
         series = VDict entries' /\ In (date, values) entries' /\
         Daily.format_entry date values = Raise ex /\ entry_error ex))) /\
  (forall data : pyval,
     truthy data = false \/ contains TIME_SERIES_KEY data = Ok false ->
     snd (AlphaVantageClient.parse_daily_time_series data) = Ok [] /\
     snd (AlphaVantageAPI.parse_daily_time_series data) = Ok []).
Proof.
  intros out.
  assert (Hclient : snd (AlphaVantageClient.parse_daily_time_series (VDict d)) = Ok out).
  { rewrite (client_daily_on_series d _ Hkey). simpl.
    now rewrite (format_loop_complete entries rows Hconv []). }
  split; [|split; [|split]].
  - split; [exact Hclient|]. split; [now rewrite daily_same_result|].
    split; [|split].
    + unfold out. rewrite DateSortFacts.sort_desc_length.
      symmetry. eapply Forall2_length, Hconv.
    + apply DateSortFacts.sort_desc_perm.
    + apply DateSortFacts.sort_desc_strongly_sorted.
  - intros d' series out' Hk Hout.
    rewrite (client_daily_on_series d' _ Hk) in Hout.
    destruct series as [| | | | |l|entries']; simpl in Hout; try discriminate.
    destruct (Daily.format_loop entries' []) as [rows'|] eqn:E; simpl in Hout;
      [|discriminate].
    injection Hout as <-.
    destruct (format_loop_sound _ _ _ E) as (rows'' & -> & Hrows).
    exists entries', rows''. simpl. auto.
  - intros d' series ex Hk Hout.
    split; [now rewrite daily_same_result|].
    rewrite (client_daily_on_series d' _ Hk) in Hout.
    destruct series as [| | | | |l|entries']; cbn [items bind] in Hout;
      try (injection Hout as <-; left; split; [reflexivity|discriminate]).
    right.
    destruct (Daily.format_loop entries' []) as [rows'|ex'] eqn:E;
      cbn [bind] in Hout; [discriminate|]. injection Hout as ->.
    destruct (format_loop_raises _ _ _ E) as (date & values & Hin & Hraise).
    exists entries', date, values. split; [reflexivity|]. split; [exact Hin|].
    split; [exact Hraise|]. now apply (format_entry_raises date values).
  - intros data Hnone. split.
    + now apply client_daily_without_series.
    + rewrite daily_same_result. now apply client_daily_without_series.
Qed.

End Normalization.

(** The two sample days, in the order of the payload, convert to the
    sample rows. *)
Lemma daily_payload_converts :
  Forall2 daily_converts
    [("2024-01-02",
      VDict [("1. open", VStr "187.15"); ("2. high", VStr "188.44");
             ("3. low", VStr "183.88"); ("4. close", VStr "185.64");
             ("5. volume", VStr "82488700")]);
     ("2024-01-03",
      VDict [("1. open", VStr "184.22"); ("2. high", VStr "185.88");
             ("3. low", VStr "183.43"); ("4. close", VStr "184.25");
             ("5. volume", VStr "58414500")])]
    (rev Samples.daily_rows).
Proof. repeat constructor. Defined.

Lemma parse_daily_time_series_normalizes_witness :
  snd (AlphaVantageClient.parse_daily_time_series Samples.daily_payload) =
    Ok (sort_desc Daily.date (rev Samples.daily_rows)) /\
  List.length (sort_desc Daily.date (rev Samples.daily_rows)) = 2%nat.
Proof.
  pose proof (parse_daily_time_series_normalizes
                (B := Decimal.builtins)
                [("Meta Data", VDict [("2. Symbol", VStr "AAPL")]);
                 ("Time Series (Daily)", _)] _ _
                eq_refl daily_payload_converts) as [(H1 & _ & H3 & _) _].
  split; [exact H1 | exact H3].
Defined.

(** C6, counterexample: an adjusted-series answer contains the key, yet the
    daily parser raises on it instead of returning records. *)
Lemma adjusted_payload_raises :
  contains TIME_SERIES_KEY Samples.adjusted_payload = Ok true /\
  snd (AlphaVantageClient.parse_daily_time_series Samples.adjusted_payload) =
    Raise (KeyError "5. volume") /\
  snd (AlphaVantageAPI.parse_daily_time_series Samples.adjusted_payload) =
    Raise (KeyError "5. volume").
Proof. repeat split; vm_compute; reflexivity. Qed.

End ParseFacts.

(* --------------------------------------------------------------------- *)
(** ** The rate limiter *)
(* --------------------------------------------------------------------- *)

Module RateLimitFacts.
Local Open Scope Q_scope.
Section Limiter.
Context {B : Builtins}.
Variable e : env.
Hypothesis Henv : well_behaved e.

Lemma Qltb_true (a b : Q) : Qltb a b = true <-> a < b.
Proof.
  unfold Qltb. rewrite negb_true_iff. split.
  - intros H. apply Qnot_le_lt. intros Hle.
    apply Qle_bool_iff in Hle. congruence.
  - intros H. destruct (Qle_bool b a) eqn:E; [|reflexivity].
    apply Qle_bool_iff in E. exfalso. apply (Qlt_not_le _ _ H E).
Qed.

Lemma Qltb_false (a b : Q) : Qltb a b = false <-> b <= a.
Proof.
  unfold Qltb. rewrite negb_false_iff. apply Qle_bool_iff.
Qed.

(** After the limiter has run, the clock is at least one interval past the
    previous timestamp, and has not gone back. *)
Lemma handle_rate_limit_clock (self : AlphaVantageClient.t) (w : world) :
  let w1 := snd (AlphaVantageClient.handle_rate_limit e self w) in
  AlphaVantageClient.last_call_timestamp self +
    AlphaVantageClient.min_call_interval self <= clock w1 /\
  clock w <= clock w1.
Proof.
  unfold AlphaVantageClient.handle_rate_limit, time_time. simpl.
  destruct (Qltb _ _) eqn:E; simpl.
  - apply Qltb_true in E.
    destruct (Henv (List.length (slept w))) as [_ Ho]. split; lra.
  - apply Qltb_false in E. split; lra.
Qed.

Lemma get_requests (function : string) (self : AlphaVantageClient.t) (w : world) :
  let '(_, self1, w2) := AlphaVantageClient.get function e self w in
  let w1 := snd (AlphaVantageClient.handle_rate_limit e self w) in
  requests w2 = requests w ++ [(clock w1, function)] /\
  AlphaVantageClient.last_call_timestamp self1 = clock w1 /\
  AlphaVantageClient.min_call_interval self1 =
    AlphaVantageClient.min_call_interval self /\
  clock w1 <= clock w2.
Proof.
  unfold AlphaVantageClient.get.
  destruct (AlphaVantageClient.handle_rate_limit e self w) as [self1 w1] eqn:Eh.
  assert (Hts : AlphaVantageClient.last_call_timestamp self1 = clock w1 /\
                AlphaVantageClient.min_call_interval self1 =
                  AlphaVantageClient.min_call_interval self).
  { unfold AlphaVantageClient.handle_rate_limit in Eh.
    injection Eh as <- <-. split; reflexivity. }
  unfold requests_get.
  destruct (Henv (List.length (requests w1))) as [Hl _].
  assert (Hreq : requests w1 = requests w).
  { unfold AlphaVantageClient.handle_rate_limit in Eh. injection Eh as _ <-.
    destruct (Qltb _ _); reflexivity. }
  rewrite Hreq in *.
  destruct (response_of e (List.length (requests w))); simpl;
    (split; [reflexivity|]); (split; [apply Hts|]);
    (split; [apply Hts|]); lra.
Qed.

(** C2. The rate limiter is fixed-interval and sleep-based.  Called when
    the time elapsed since [last_call_timestamp] is below
    [min_call_interval] (12 seconds), [handle_rate_limit] and
    [_respect_rate_limit] sleep exactly the interval minus the elapsed
    time, and otherwise do not sleep; either way they then store the
    current time in [last_call_timestamp].  Hence two consecutive calls of
    [get] start their requests at least 12 seconds apart. *)
Theorem rate_limiter_fixed_interval
  (self : AlphaVantageClient.t) (api : AlphaVantageAPI.t) (w : world)
  (f1 f2 : string) (t : Q)
  (Hmin : AlphaVantageClient.min_call_interval self = 12)
  (Hidle : 0 <= t) :
  (let elapsed := clock w - AlphaVantageClient.last_call_timestamp self in
   let '(self1, w1) := AlphaVantageClient.handle_rate_limit e self w in
   w1 = (if Qltb elapsed (AlphaVantageClient.min_call_interval self)
         then time_sleep e (AlphaVantageClient.min_call_interval self - elapsed) w
         else w) /\
   AlphaVantageClient.last_call_timestamp self1 = time_time w1) /\
  (let elapsed := clock w - AlphaVantageAPI.last_call_timestamp api in
   let '(api1, w1) := AlphaVantageAPI._respect_rate_limit e api w in
   w1 = (if Qltb elapsed (AlphaVantageAPI.min_call_interval api)
         then time_sleep e (AlphaVantageAPI.min_call_interval api - elapsed) w
         else w) /\
   AlphaVantageAPI.last_call_timestamp api1 = time_time w1) /\
  (let '(_, self1, w1) := AlphaVantageClient.get f1 e self w in
   let '(_, _, w2) := AlphaVantageClient.get f2 e self1 (idle t w1) in
   exists start1 start2 : Q,
     requests w2 = requests w ++ [(start1, f1); (start2, f2)] /\
     start1 + 12 <= start2).
Proof.
  split; [|split].
  - unfold AlphaVantageClient.handle_rate_limit. simpl. split; reflexivity.
  - unfold AlphaVantageAPI._respect_rate_limit. simpl. split; reflexivity.
  - pose proof (get_requests f1 self w) as H1.
    destruct (AlphaVantageClient.get f1 e self w) as [[r1 self1] w1].
    destruct H1 as (Hr1 & Hts1 & Hmin1 & Hc1).
    pose proof (get_requests f2 self1 (idle t w1)) as H2.
    pose proof (handle_rate_limit_clock self1 (idle t w1)) as [Hgap _].
    destruct (AlphaVantageClient.get f2 e self1 (idle t w1)) as [[r2 self2] w2].
    destruct H2 as (Hr2 & _).
    eexists _, _. split.
    + rewrite Hr2. simpl. rewrite Hr1, <- app_assoc. reflexivity.
    + cbv zeta in Hgap. rewrite Hts1, Hmin1, Hmin in Hgap. exact Hgap.
Qed.

End Limiter.
Lemma steady_env_well_behaved : well_behaved Samples.steady_env.
Proof. intros n. split; simpl; unfold Qle; simpl; lia. Defined.

Example two_gets_sleep_once :
  slept Samples.after_two_gets = [(12 - (1700000000 + (1 # 2) + 3 - 1700000000))%Q].
Proof. reflexivity. Qed.

Lemma rate_limiter_fixed_interval_witness :
  well_behaved Samples.steady_env /\
  exists start1 start2 : Q,
    requests Samples.after_two_gets =
      [(start1, "TIME_SERIES_DAILY"); (start2, "TIME_SERIES_DAILY")] /\
    start1 + 12 <= start2.
Proof.
  split; [exact steady_env_well_behaved|].
  pose proof (rate_limiter_fixed_interval Samples.steady_env
                steady_env_well_behaved Samples.fresh_client Samples.fresh_api
                Samples.fresh_world "TIME_SERIES_DAILY" "TIME_SERIES_DAILY" 3
                eq_refl ltac:(unfold Qle; simpl; lia)) as (_ & _ & H).
  unfold Samples.after_two_gets.
  destruct (AlphaVantageClient.get _ _ Samples.fresh_client _) as [[r1 self1] w1].
  destruct (AlphaVantageClient.get _ _ self1 _) as [[r2 self2] w2].
  exact H.
Defined.

End RateLimitFacts.

(* --------------------------------------------------------------------- *)
(** ** The retry on a rate-limit note *)
(* --------------------------------------------------------------------- *)

Module NoteRetryFacts.
Local Open Scope Q_scope.
Import RateLimitFacts.

Section Retry.
Context {B : Builtins}.
Variable e : env.
Variable function : string.

Lemma respect_requests (self : AlphaVantageAPI.t) (w : world) :
  requests (snd (AlphaVantageAPI._respect_rate_limit e self w)) = requests w.
Proof.
  unfold AlphaVantageAPI._respect_rate_limit. simpl.
  destruct (Qltb _ _); reflexivity.
Qed.

Lemma get_daily_unfold (http_frames room : nat) (self : AlphaVantageAPI.t) (w : world) :
  AlphaVantageAPI.get_daily function http_frames (S (S room)) e self w =
  let sw := AlphaVantageAPI._respect_rate_limit e self w in
  if (S room <? http_frames)%nat then (Raise RecursionError, fst sw, snd sw)
  else
    let rw := requests_get e function (snd sw) in
    match fst rw with
    | HttpError => (Ok VNone, fst sw, snd rw)
    | BadJson => (Ok VNone, fst sw, snd rw)
    | Json data =>
        match contains "Error Message" data with
        | Raise ex => (Raise ex, fst sw, snd rw)
        | Ok true =>
            match subscript data "Error Message" with
            | Raise ex => (Raise ex, fst sw, snd rw)
            | Ok _ => (Ok VNone, fst sw, snd rw)
            end
        | Ok false =>
            match rate_limit_note data with
            | Raise ex => (Raise ex, fst sw, snd rw)
            | Ok true =>
                AlphaVantageAPI.get_daily function http_frames (S room) e (fst sw)
                  (time_sleep e 60 (snd rw))
            | Ok false => (Ok data, fst sw, snd rw)
            end
        end
    end.
Proof.
  cbn [AlphaVantageAPI.get_daily].
  destruct (AlphaVantageAPI._respect_rate_limit e self w) as [self1 w1].
  cbn [fst snd]. destruct (requests_get e function w1) as [response w2].
  reflexivity.
Qed.

Lemma get_response (self : AlphaVantageAPI.t) (w : world) :
  fst (requests_get e function
         (snd (AlphaVantageAPI._respect_rate_limit e self w))) =
  response_of e (List.length (requests w)).
Proof. unfold requests_get. cbn [fst]. now rewrite respect_requests. Qed.

Lemma get_daily_note (http_frames room : nat) (self : AlphaVantageAPI.t) (w : world) :
  (http_frames <= S room)%nat ->
  rate_limited (response_of e (List.length (requests w))) = true ->
  AlphaVantageAPI.get_daily function http_frames (S (S room)) e self w =
  AlphaVantageAPI.get_daily function http_frames (S room) e
    (fst (after_note e function self w)) (snd (after_note e function self w)).
Proof.
  intros Hroom Hn. rewrite get_daily_unfold. cbv zeta.
  apply Nat.ltb_ge in Hroom. rewrite Hroom, get_response.
  unfold after_note. cbn [fst snd]. unfold rate_limited in Hn.
  destruct (response_of e (List.length (requests w))) as [| |data];
    try discriminate.
  destruct (contains "Error Message" data) as [[|]|]; try discriminate.
  destruct (rate_limit_note data) as [[|]|]; try discriminate.
  reflexivity.
Qed.

Lemma get_daily_other (http_frames room : nat) (self : AlphaVantageAPI.t) (w : world) :
  (http_frames <= S room)%nat ->
  rate_limited (response_of e (List.length (requests w))) = false ->
  exists r,
    AlphaVantageAPI.get_daily function http_frames (S (S room)) e self w =
    (r, fst (AlphaVantageAPI._respect_rate_limit e self w),
     snd (requests_get e function
            (snd (AlphaVantageAPI._respect_rate_limit e self w)))).
Proof.
  intros Hroom Hn. rewrite get_daily_unfold. cbv zeta.
  apply Nat.ltb_ge in Hroom. rewrite Hroom, get_response.
  unfold rate_limited in Hn.
  destruct (response_of e (List.length (requests w))) as [| |data];
    try (eexists; reflexivity).
  destruct (contains "Error Message" data) as [[|]|];
    try (eexists; reflexivity).
  - destruct (subscript data "Error Message"); eexists; reflexivity.
  - destruct (rate_limit_note data) as [[|]|]; try discriminate;
      eexists; reflexivity.
Qed.

Lemma after_note_requests (self : AlphaVantageAPI.t) (w : world) :
  List.length (requests (snd (after_note e function self w))) =
  S (List.length (requests w)).
Proof.
  unfold after_note, time_sleep, requests_get. cbn [fst snd requests].
  rewrite List.length_app, respect_requests. simpl. lia.
Qed.

Lemma after_note_slept (self : AlphaVantageAPI.t) (w : world) :
  (List.length (slept (snd (after_note e function self w))) <=
   List.length (slept w) + 2)%nat.
Proof.
  unfold after_note, time_sleep, requests_get. cbn [fst snd slept].
  unfold AlphaVantageAPI._respect_rate_limit. cbn [snd].
  destruct (Qltb _ _); cbn [time_sleep slept]; rewrite !List.length_app; simpl; lia.
Qed.

(** While the API keeps throttling, the calls nest until the stack is
    used up. *)
Lemma get_daily_throttled (http_frames stack : nat) :
  forall (self : AlphaVantageAPI.t) (w : world),
    (forall n, rate_limited (response_of e n) = true) ->
    fst (fst (AlphaVantageAPI.get_daily function http_frames stack e self w)) =
    Raise RecursionError.
Proof.
  induction stack as [|stack IH]; intros self w Hall; [reflexivity|].
  destruct stack as [|room]; [reflexivity|].
  destruct (S room <? http_frames)%nat eqn:Er.
  - rewrite get_daily_unfold. cbv zeta. rewrite Er. reflexivity.
  - apply Nat.ltb_ge in Er. rewrite get_daily_note by (trivial; apply Hall).
    now apply IH.
Qed.

(** Whatever the API answers, a call sends at most one request for each
    frame of the stack below its first, and sleeps at most twice as
    often. *)
Lemma get_daily_bounded (http_frames stack : nat) :
  forall (self : AlphaVantageAPI.t) (w : world),
    let run := AlphaVantageAPI.get_daily function http_frames stack e self w in
    (List.length (requests (snd run)) <=
     List.length (requests w) + (stack - 1))%nat /\
    (List.length (slept (snd run)) <=
     List.length (slept w) + 2 * (stack - 1))%nat.
Proof.
  induction stack as [|stack IH]; intros self w; [cbn; lia|].
  destruct stack as [|room]; [cbn; lia|].
  cbv zeta. rewrite get_daily_unfold. cbv zeta.
  assert (Hreq : List.length
            (requests (snd (requests_get e function
               (snd (AlphaVantageAPI._respect_rate_limit e self w))))) =
          S (List.length (requests w))).
  { unfold requests_get. cbn [snd requests].
    rewrite List.length_app, respect_requests. cbn. lia. }
  assert (Hsl : (List.length
            (slept (snd (AlphaVantageAPI._respect_rate_limit e self w))) <=
          S (List.length (slept w)))%nat).
  { unfold AlphaVantageAPI._respect_rate_limit. cbn [snd].
    destruct (Qltb _ _); cbn [time_sleep slept]; rewrite ?List.length_app;
      simpl; lia. }
  assert (Hsl' : slept (snd (requests_get e function
                   (snd (AlphaVantageAPI._respect_rate_limit e self w)))) =
                 slept (snd (AlphaVantageAPI._respect_rate_limit e self w)))
    by reflexivity.
  destruct (S room <? http_frames)%nat.
  { cbn [fst snd]. rewrite respect_requests. lia. }
  destruct (fst (requests_get e function _)) as [| |data];
    cbn [fst snd]; try (rewrite Hreq, Hsl'; lia).
  destruct (contains "Error Message" data) as [[|]|];
    cbn [fst snd]; try (rewrite Hreq, Hsl'; lia).
  - destruct (subscript data "Error Message"); cbn [fst snd];
      rewrite Hreq, Hsl'; lia.
  - destruct (rate_limit_note data) as [[|]|];
      cbn [fst snd]; try (rewrite Hreq, Hsl'; lia).
    match goal with
    | |- context [AlphaVantageAPI.get_daily _ _ _ _ ?s ?w3] =>
        destruct (IH s w3) as [Hr Hs];
        assert (Hreq3 : List.length (requests w3) = S (List.length (requests w)))
          by exact Hreq;
        assert (Hsl3 : (List.length (slept w3) <= List.length (slept w) + 2)%nat)
          by (cbn [time_sleep slept]; rewrite List.length_app, Hsl';
              cbn [List.length]; lia)
    end.
    lia.
Qed.

Hypothesis Henv : well_behaved e.

Lemma respect_slept (self : AlphaVantageAPI.t) (w : world) :
  slept (snd (AlphaVantageAPI._respect_rate_limit e self w)) =
  slept w ++ limiter_sleep self w.
Proof.
  unfold AlphaVantageAPI._respect_rate_limit, limiter_sleep, time_time.
  cbn [snd]. destruct (Qltb _ _); simpl; [reflexivity | now rewrite app_nil_r].
Qed.

Lemma respect_interval (self : AlphaVantageAPI.t) (w : world) :
  AlphaVantageAPI.min_call_interval
    (fst (AlphaVantageAPI._respect_rate_limit e self w)) =
  AlphaVantageAPI.min_call_interval self.
Proof. reflexivity. Qed.

(** Right after the minute slept on a note, the limiter has nothing to add. *)
Lemma after_note_no_sleep (self : AlphaVantageAPI.t) (w : world) :
  AlphaVantageAPI.min_call_interval self = 12 ->
  limiter_sleep (fst (after_note e function self w))
                (snd (after_note e function self w)) = [].
Proof.
  intros Hmin. unfold limiter_sleep, after_note.
  cbn [fst snd]. rewrite respect_interval, Hmin.
  assert (Hts : AlphaVantageAPI.last_call_timestamp
                  (fst (AlphaVantageAPI._respect_rate_limit e self w)) =
                clock (snd (AlphaVantageAPI._respect_rate_limit e self w)))
    by reflexivity.
  rewrite Hts.
  generalize (snd (AlphaVantageAPI._respect_rate_limit e self w)) as w1.
  intros w1.
  match goal with |- (if Qltb ?a ?b then _ else _) = _ =>
    destruct (Qltb a b) eqn:E; [|reflexivity] end.
  exfalso. apply Qltb_true in E. revert E.
  unfold time_sleep, requests_get. cbn [fst snd clock slept requests].
  destruct (Henv (List.length (requests w1))) as [Hl _].
  destruct (Henv (List.length (slept w1))) as [_ Ho].
  lra.
Qed.

Lemma notes_then_answer (http_frames n : nat) :
  forall (room : nat) (self : AlphaVantageAPI.t) (w : world),
    (http_frames <= S room)%nat ->
    AlphaVantageAPI.min_call_interval self = 12 ->
    (forall i, (i < n)%nat ->
       rate_limited (response_of e (List.length (requests w) + i)) = true) ->
    rate_limited (response_of e (List.length (requests w) + n)) = false ->
    exists r self' w',
      AlphaVantageAPI.get_daily function http_frames (n + S (S room)) e self w =
        (r, self', w') /\
      List.length (requests w') = (List.length (requests w) + n + 1)%nat /\
      slept w' = slept w ++ limiter_sleep self w ++ repeat 60 n.
Proof.
  induction n as [|n IH]; intros room self w Hroom Hmin Hnotes Hlast.
  - rewrite Nat.add_0_r in Hlast.
    destruct (get_daily_other http_frames room self w Hroom Hlast) as [r Hr].
    eexists _, _, _. split; [exact Hr|]. split.
    + unfold requests_get. cbn [snd requests].
      rewrite List.length_app, respect_requests. simpl. lia.
    + unfold requests_get. cbn [snd slept]. rewrite respect_slept.
      simpl. now rewrite app_nil_r.
  - assert (H0 : rate_limited (response_of e (List.length (requests w))) = true).
    { rewrite <- (Nat.add_0_r (List.length (requests w))). apply Hnotes. lia. }
    replace (S n + S (S room))%nat with (S (S (n + S room))) by lia.
    rewrite (get_daily_note http_frames (n + S room) self w) by (trivial; lia).
    replace (S (n + S room)) with (n + S (S room))%nat by lia.
    pose proof (after_note_requests self w) as Hlen.
    destruct (IH room (fst (after_note e function self w))
                 (snd (after_note e function self w)))
      as (r & self' & w' & Hr & Hreq & Hsl).
    + exact Hroom.
    + unfold after_note. cbn [fst]. now rewrite respect_interval.
    + intros i Hi. rewrite Hlen.
      replace (S (List.length (requests w)) + i)%nat
        with (List.length (requests w) + S i)%nat by lia.
      apply Hnotes. lia.
    + rewrite Hlen.
      replace (S (List.length (requests w)) + n)%nat
        with (List.length (requests w) + S n)%nat by lia.
      exact Hlast.
    + exists r, self', w'. split; [exact Hr|]. split; [rewrite Hreq, Hlen; lia|].
      rewrite Hsl, (after_note_no_sleep self w Hmin).
      unfold after_note, time_sleep, requests_get. cbn [fst snd slept].
      rewrite respect_slept. simpl. now rewrite <- !app_assoc.
Qed.

(** What the method returns is never a rate-limit note: it is [None], or
    an answer without ['Error Message'] that is not such a note. *)
Lemma get_daily_never_a_note (http_frames stack : nat) :
  forall (self self' : AlphaVantageAPI.t) (w w' : world) (data : pyval),
    AlphaVantageAPI.get_daily function http_frames stack e self w =
      (Ok data, self', w') ->
    data = VNone \/
    (contains "Error Message" data = Ok false /\ rate_limit_note data = Ok false).
Proof.
  induction stack as [|stack IH]; intros self self' w w' data; [discriminate|].
  destruct stack as [|room]; [discriminate|].
  rewrite get_daily_unfold. cbv zeta.
  destruct (S room <? http_frames)%nat; [discriminate|].
  destruct (fst (requests_get e function _)) as [| |answer].
  - intros [= <- _ _]. now left.
  - intros [= <- _ _]. now left.
  - destruct (contains "Error Message" answer) as [[|]|] eqn:Ee.
    + destruct (subscript answer "Error Message"); [|discriminate].
      intros [= <- _ _]. now left.
    + destruct (rate_limit_note answer) as [[|]|] eqn:En.
      * apply IH.
      * intros [= <- _ _]. right. now split.
      * discriminate.
    + discriminate.
Qed.

End Retry.

Lemma throttling_twice_env_well_behaved : well_behaved Samples.throttling_twice_env.
Proof. intros n. split; simpl; unfold Qle; simpl; lia. Defined.

Lemma throttling_twice_notes (i : nat) :
  (i < 2)%nat ->
  rate_limited (response_of Samples.throttling_twice_env
                  (List.length (requests Samples.fresh_world) + i)) = true.
Proof. destruct i as [|[|i]]; [reflexivity | reflexivity | lia]. Defined.

(** Two notes and then the data: three requests, a minute slept twice. *)
Example throttled_twice_run :
  (fun '(r, _, w') => (is_ok r, List.length (requests w'), slept w'))
    (AlphaVantageAPI.get_daily_time_series 20 1000 Samples.throttling_twice_env
       Samples.fresh_api Samples.fresh_world) =
  (true, 3%nat, [60; 60]).
Proof. vm_compute. reflexivity. Qed.

(** Notes without end and room for four nested calls: four requests, a
    minute slept after each, and RecursionError. *)
Example throttled_run :
  (fun '(r, _, w') => (r, List.length (requests w'), slept w'))
    (AlphaVantageAPI.get_daily_time_series 1 5 Samples.throttling_env
       Samples.fresh_api Samples.fresh_world) =
  (Raise RecursionError, 4%nat, [60; 60; 60; 60]).
Proof. vm_compute. reflexivity. Qed.

End NoteRetryFacts.

(* --------------------------------------------------------------------- *)
(** ** The bounded retry loop of the downloader *)
(* --------------------------------------------------------------------- *)

Module DownloaderFacts.
Import StockDataDownloader.

Section Loop.
Context {B : Builtins}.
Variable E : env.
Variable self : t.

Example backoff_values : backoff 1 = 60 /\ backoff 2 = 120.
Proof. split; reflexivity. Qed.

(** An attempt leaves the [try] through [continue] only when another
    attempt is left. *)
Lemma retries_not_last (attempt : nat) :
  try_body E attempt = Retries -> (attempt < max_retries)%nat.
Proof.
  unfold try_body.
  destruct (api_answer E attempt) as [data|]; [|discriminate].
  destruct (negb (truthy data)); [discriminate|].
  destruct (contains "Error Message" data) as [[|]|]; try discriminate.
  { destruct (subscript data "Error Message"); discriminate. }
  destruct (rate_limit_note data) as [note|]; [|discriminate].
  destruct (note && (attempt <? max_retries)%nat)%bool eqn:En.
  - intros _. apply andb_true_iff in En as [_ En]. now apply Nat.ltb_lt in En.
  - destruct (save_to_json E attempt); discriminate.
Qed.

(** Case analysis on what the three attempts do. *)
Ltac attempts :=
  let H := fresh "Hlast" in
  pose proof (retries_not_last 3) as H;
  cbn; destruct (try_body E 1); cbn;
  try (destruct (try_body E 2); cbn);
  try (destruct (try_body E 3); cbn;
       try (exfalso; specialize (H eq_refl); unfold max_retries in H; lia)).

(** The loop on the three attempts, from a fresh state: it returns a
    tuple, calls the API at most three times and has slept 60 and then 120
    seconds before the second and the third call. *)
Lemma retry_loop_bounded (download_id end_date : Z) :
  let run := retry_loop E self download_id end_date (seq 1 max_retries) 60 fresh in
  (exists r, fst run = Some r) /\
  (1 <= List.length (api_calls (snd run)) <= max_retries)%nat /\
  sleeps (snd run) =
    List.map backoff (seq 1 (List.length (api_calls (snd run)) - 1)).
Proof.
  attempts; (split; [eexists; reflexivity|]);
    (split; [unfold max_retries; lia | reflexivity]).
Qed.


End Loop.
Section Download.
Context {B : Builtins}.

Lemma download_bounded (E : env) (self : t) (symbol_ticker : string) :
  let run := download_symbol_data E self symbol_ticker fresh in
  (exists r, fst run = Some r) /\
  (List.length (api_calls (snd run)) <= max_retries)%nat /\
  sleeps (snd run) =
    List.map backoff (seq 1 (List.length (api_calls (snd run)) - 1)).
Proof.
  unfold download_symbol_data.
  assert (Hidle : forall r : ret,
            (exists r', fst (Some r, fresh) = Some r') /\
            (List.length (api_calls (snd (Some r, fresh))) <= max_retries)%nat /\
            sleeps (snd (Some r, fresh)) =
              List.map backoff
                (seq 1 (List.length (api_calls (snd (Some r, fresh))) - 1))).
  { intros r. cbn. split; [eexists; reflexivity|].
    split; [unfold max_retries; lia | reflexivity]. }
  destruct (symbol_id_of E symbol_ticker) as [symbol_id|]; [|apply Hidle].
  destruct (new_download_id E) as [download_id|].
  - destruct (Z.eqb download_id 0).
    + destruct (last_end_date E symbol_id) as [last|];
        [destruct (Z.ltb _ _)|]; apply Hidle.
    + pose proof (retry_loop_bounded E self download_id (today E)) as Hloop.
      cbv zeta in Hloop.
      destruct (last_end_date E symbol_id) as [last|];
        [destruct (Z.ltb _ _); [apply Hidle|]|];
        (split; [apply Hloop|]); (split; [|apply Hloop]);
        destruct Hloop as (_ & Hle & _); lia.
  - destruct (last_end_date E symbol_id) as [last|];
      [destruct (Z.ltb _ _)|]; apply Hidle.
Qed.




End Download.




End DownloaderFacts.

(* --------------------------------------------------------------------- *)
(** ** Every retry comes to an end *)
(* --------------------------------------------------------------------- *)

Module RetryFacts.
Local Open Scope Q_scope.
Import NoteRetryFacts.

(** C4. Every retry mechanism of the program is bounded.  When a response
    carries a ['Note'] mentioning ['call frequency'],
    [get_daily_time_series] and [get_daily_adjusted] wait 60 seconds and
    reissue the request: after [n] such responses followed by another one,
    a call with room on the stack for [n] nested calls ends having issued
    exactly [n + 1] requests and slept 60 seconds [n] times after at most
    one rate-limiter sleep.  The method counts no attempts; it retries by
    calling itself, so the bound is the interpreter's stack: whatever the
    API answers, a call that starts with [stack] frames left sends at most
    [stack - 1] requests, and when the API keeps answering with such notes
    it ends with RecursionError.  The other retry, the loop of
    [download_symbol_data], makes at most three attempts. *)
Theorem note_retry_is_bounded `{Builtins}
  (get : nat -> nat -> env -> AlphaVantageAPI.t -> world
         -> result pyval * AlphaVantageAPI.t * world)
  (e : env) (n http_frames room : nat) (self : AlphaVantageAPI.t) (w : world)
  (Hget : get = AlphaVantageAPI.get_daily_time_series \/
          get = AlphaVantageAPI.get_daily_adjusted)
  (Henv : well_behaved e)
  (Hmin : AlphaVantageAPI.min_call_interval self = 12)
  (Hroom : (http_frames <= S room)%nat)
  (Hnotes : forall i, (i < n)%nat ->
     rate_limited (response_of e (List.length (requests w) + i)) = true)
  (Hlast : rate_limited (response_of e (List.length (requests w) + n)) = false) :
  (exists r self' w',
     get http_frames (n + S (S room))%nat e self w = (r, self', w') /\
     List.length (requests w') = (List.length (requests w) + n + 1)%nat /\
     slept w' = slept w ++ limiter_sleep self w ++ repeat 60 n) /\
  (forall (e' : env) (frames stack : nat) (self' : AlphaVantageAPI.t) (w' : world),
     let run := get frames stack e' self' w' in
     (List.length (requests (snd run)) <=
      List.length (requests w') + (stack - 1))%nat /\
     (List.length (slept (snd run)) <=
      List.length (slept w') + 2 * (stack - 1))%nat) /\
  (forall e' : env,
     (forall k, rate_limited (response_of e' k) = true) ->
     forall frames stack self' w',
       fst (fst (get frames stack e' self' w')) = Raise RecursionError) /\
  (forall (E : StockDataDownloader.env) (downloader : StockDataDownloader.t)
          (ticker : string),
     (List.length
        (StockDataDownloader.api_calls
           (snd (StockDataDownloader.download_symbol_data E downloader ticker
                   StockDataDownloader.fresh))) <=
      StockDataDownloader.max_retries)%nat).
Proof.
  assert (Hf : exists function, get = AlphaVantageAPI.get_daily function).
  { destruct Hget as [-> | ->]; eexists; reflexivity. }
  destruct Hf as [function ->]. split; [|split; [|split]].
  - now apply notes_then_answer.
  - intros e' frames stack self' w'. apply get_daily_bounded.
  - intros e' Hall frames stack self' w'. now apply get_daily_throttled.
  - intros E downloader ticker.
    apply (DownloaderFacts.download_bounded E downloader ticker).
Qed.

Lemma note_retry_is_bounded_witness :
  well_behaved Samples.throttling_twice_env /\
  exists r self' w',
    AlphaVantageAPI.get_daily_time_series 20 1000 Samples.throttling_twice_env
      Samples.fresh_api Samples.fresh_world = (r, self', w') /\
    List.length (requests w') = 3%nat /\
    slept w' = [] ++ [] ++ [60; 60].
Proof.
  split; [exact throttling_twice_env_well_behaved|].
  exact (proj1 (note_retry_is_bounded
                  AlphaVantageAPI.get_daily_time_series
                  Samples.throttling_twice_env 2 20 996 Samples.fresh_api
                  Samples.fresh_world (or_introl eq_refl)
                  throttling_twice_env_well_behaved eq_refl
                  ltac:(lia) throttling_twice_notes eq_refl)).
Defined.

End RetryFacts.

(* --------------------------------------------------------------------- *)
(** ** The batch insert *)
(* --------------------------------------------------------------------- *)

Module StorageFacts.
Import StockDataStorage.

Section Slices.
Variable A : Type.

Lemma firstn_plus (a b : nat) (l : list A) :
  firstn (a + b) l = firstn a l ++ firstn b (skipn a l).
Proof.
  revert l. induction a as [|a IH]; intros l; simpl.
  - reflexivity.
  - destruct l as [|x l]; simpl.
    + now rewrite firstn_nil.
    + now rewrite IH.
Qed.

Lemma skipn_plus (a b : nat) (l : list A) :
  skipn (a + b) l = skipn b (skipn a l).
Proof.
  revert l. induction a as [|a IH]; intros l; simpl.
  - reflexivity.
  - destruct l as [|x l]; simpl; [now rewrite skipn_nil | apply IH].
Qed.

End Slices.

Section Batches.
Context {B : Builtins}.
Variable E : env.
Variable bs : nat.
Hypothesis Hbs : (0 < bs)%nat.
Variable values_list : list price_row.

Lemma offset_batch (k : nat) : (k * bs / bs = k)%nat.
Proof. apply Nat.div_mul. lia. Qed.

Lemma slice_step (k m : nat) :
  slice values_list (k * bs) bs ++
    firstn (m * bs) (skipn (S k * bs) values_list) =
  firstn (S m * bs) (skipn (k * bs) values_list).
Proof.
  unfold slice. replace (S m * bs)%nat with (bs + m * bs)%nat by lia.
  rewrite firstn_plus. f_equal. f_equal.
  replace (S k * bs)%nat with (k * bs + bs)%nat by lia.
  apply skipn_plus.
Qed.

(** One more batch in front. *)
Lemma after_batches_step (k0 m : nat) (d : db) :
  after_batches bs values_list (S k0) m
    {| committed := committed d ++ pending d ++ slice values_list (k0 * bs) bs;
       pending := [];
       executed := executed d ++ [slice values_list (k0 * bs) bs] |} =
  after_batches bs values_list k0 (S m) d.
Proof.
  destruct m as [|m]; unfold after_batches; cbn [committed pending executed].
  - unfold slice. replace (1 * bs)%nat with bs by lia. reflexivity.
  - rewrite <- (slice_step k0 (S m)).
    cbn [seq List.map app]. rewrite <- !app_assoc. reflexivity.
Qed.

Lemma insert_batches_ok (m : nat) :
  forall (k0 total : nat) (d : db),
    (forall k, (k0 <= k < k0 + m)%nat -> batch_ok E k) ->
    insert_batches E bs values_list
      (List.map (fun k => (k * bs)%nat) (seq k0 m)) total d =
    (Ok (total + List.length (firstn (m * bs) (skipn (k0 * bs) values_list)))%nat,
     after_batches bs values_list k0 m d).
Proof.
  induction m as [|m IH]; intros k0 total d Hok.
  - simpl. now rewrite Nat.add_0_r.
  - cbn [seq List.map insert_batches]. rewrite offset_batch.
    destruct (Hok k0) as [Hexec Hcommit]; [lia|].
    unfold executemany, commit. rewrite Hexec. cbn [committed pending executed].
    rewrite Hcommit. cbn [committed pending executed].
    rewrite IH by (intros k Hk; apply Hok; lia).
    rewrite <- (slice_step k0 m), List.length_app.
    f_equal; [f_equal; lia|]. apply after_batches_step.
Qed.

(** A batch that fails stops the loop; what the earlier batches committed
    stays committed. *)
Lemma insert_batches_fail (m : nat) :
  forall (k0 total f : nat) (d : db),
    (k0 <= f < k0 + m)%nat ->
    (forall k, (k0 <= k < f)%nat -> batch_ok E k) ->
    exec_outcome E f <> None \/ commit_fails E f = true ->
    exists ex d',
      insert_batches E bs values_list
        (List.map (fun k => (k * bs)%nat) (seq k0 m)) total d = (Raise ex, d') /\
      committed d' = committed (after_batches bs values_list k0 (f - k0) d).
Proof.
  induction m as [|m IH]; intros k0 total f d Hf Hok Hfail; [lia|].
  cbn [seq List.map insert_batches]. rewrite offset_batch.
  destruct (Nat.eq_dec f k0) as [->|Hne].
  - rewrite Nat.sub_diag. cbn [after_batches]. unfold executemany, commit.
    destruct (exec_outcome E k0) as [j|] eqn:Ee.
    + eexists _, _. split; reflexivity.
    + destruct Hfail as [Hfail|Hfail]; [congruence|].
      cbn [committed pending executed]. rewrite Hfail.
      eexists _, _. split; reflexivity.
  - destruct (Hok k0) as [Hexec Hcommit]; [lia|].
    unfold executemany, commit. rewrite Hexec. cbn [committed pending executed].
    rewrite Hcommit. cbn [committed pending executed].
    match goal with |- context [insert_batches _ _ _ _ ?t ?d1] =>
      destruct (IH (S k0) t f d1) as (ex & d' & Hrun & Hd');
        [lia | intros k Hk; apply Hok; lia | exact Hfail |]
    end.
    exists ex, d'. split; [exact Hrun|]. rewrite Hd', after_batches_step.
    replace (f - k0)%nat with (S (f - S k0))%nat by lia. reflexivity.
Qed.

(** The offsets of [range] reach the end of the list. *)
Lemma range_covers (len : nat) : (len <= (len + bs - 1) / bs * bs)%nat.
Proof.
  pose proof (Nat.div_mod_eq (len + bs - 1) bs) as Hdm.
  pose proof (Nat.mod_upper_bound (len + bs - 1) bs) as Hlt.
  lia.
Qed.

Lemma range_tight (len k : nat) :
  (k < (len + bs - 1) / bs)%nat -> (k * bs < len)%nat.
Proof.
  intros Hk.
  pose proof (Nat.div_mod_eq (len + bs - 1) bs) as Hdm.
  assert (S k * bs <= (len + bs - 1) / bs * bs)%nat by (apply Nat.mul_le_mono_r; lia).
  lia.
Qed.

Lemma concat_slices (m k0 : nat) :
  concat (List.map (fun k => slice values_list (k * bs) bs) (seq k0 m)) =
  firstn (m * bs) (skipn (k0 * bs) values_list).
Proof.
  revert k0. induction m as [|m IH]; intros k0.
  - reflexivity.
  - cbn [seq List.map concat]. rewrite IH. apply slice_step.
Qed.

Lemma slice_bounds (len k : nat) :
  len = List.length values_list ->
  (k < (len + bs - 1) / bs)%nat ->
  (1 <= List.length (slice values_list (k * bs) bs) <= bs)%nat.
Proof.
  intros -> Hk. apply range_tight in Hk. unfold slice.
  rewrite List.length_firstn, List.length_skipn. lia.
Qed.

End Batches.
Section Store.
Context {B : Builtins}.

Lemma batch_size_pos : (0 < batch_size)%nat.
Proof. unfold batch_size. lia. Qed.

Lemma price_item_values (sid did : Z) (item : pyval) :
  price_item item -> exists row, values_of sid did item = Ok row.
Proof.
  intros (d & -> & Hkeys).
  repeat match goal with
         | H : Forall _ (_ :: _) |- _ => inversion H; subst; clear H
         end.
  unfold values_of, subscript, has_key in *.
  repeat match goal with
         | H : match lookup ?k d with _ => _ end = true |- _ =>
             destruct (lookup k d); [clear H | discriminate H]
         end.
  eexists. reflexivity.
Qed.

Lemma build_values_items (sid did : Z) (data_list : list pyval) :
  Forall price_item data_list ->
  forall acc, exists values_list,
    build_values sid did data_list acc = Ok (acc ++ values_list) /\
    Forall2 (fun item row => values_of sid did item = Ok row) data_list values_list.
Proof.
  induction 1 as [|item data_list Hitem _ IH]; intros acc.
  - exists []. split; [simpl; now rewrite app_nil_r | constructor].
  - destruct (price_item_values sid did item Hitem) as [row Hrow].
    destruct (IH (acc ++ [row])) as (rows & Hbuild & Hrows).
    exists (row :: rows). split.
    + simpl. rewrite Hrow. simpl. rewrite Hbuild, <- app_assoc. reflexivity.
    + now constructor.
Qed.

(** The run of [store_stock_data] once the tuples are built and every
    batch is accepted. *)
Lemma store_all_accepted (E : env) (values_list : list price_row) (d : db) :
  values_list <> [] ->
  (forall k, batch_ok E k) ->
  let m := ((List.length values_list + batch_size - 1) / batch_size)%nat in
  let batches := List.map (nth_batch values_list) (seq 0 m) in
  insert_batches E batch_size values_list
    (range_step (List.length values_list) batch_size) 0 d =
  (Ok (List.length values_list),
   {| committed := committed d ++ pending d ++ values_list;
      pending := [];
      executed := executed d ++ batches |}) /\
  concat batches = values_list /\
  Forall (fun b => (1 <= List.length b <= batch_size)%nat) batches /\
  List.length batches = m.
Proof.
  intros Hne Hok m batches.
  pose proof batch_size_pos as Hbs.
  pose proof (range_covers batch_size Hbs (List.length values_list)) as Hcov.
  fold m in Hcov.
  assert (Hall : firstn (m * batch_size) (skipn (0 * batch_size) values_list) =
                 values_list).
  { cbn [Nat.mul skipn]. apply firstn_all2. exact Hcov. }
  assert (Hm : (1 <= m)%nat).
  { destruct values_list as [|r l]; [congruence|].
    destruct m as [|m']; [|lia]. cbn [List.length] in Hcov. lia. }
  split; [|split; [|split]].
  - unfold range_step. fold m.
    rewrite (insert_batches_ok E batch_size Hbs values_list m 0 0 d)
      by (intros k _; apply Hok).
    rewrite Hall. f_equal. unfold after_batches.
    destruct m as [|m']; [lia|]. rewrite Hall. reflexivity.
  - unfold batches, nth_batch.
    rewrite (concat_slices batch_size Hbs values_list m 0). exact Hall.
  - unfold batches. apply List.Forall_forall. intros b Hb.
    apply in_map_iff in Hb as (k & <- & Hk). apply in_seq in Hk.
    apply (slice_bounds batch_size Hbs values_list (List.length values_list) k);
      [reflexivity | fold m; lia].
  - unfold batches. now rewrite List.length_map, List.length_seq.
Qed.

End Store.

Section Outcome.
Context {B : Builtins}.

(** The tuple built for an item carries the item's values. *)
Lemma values_of_carries (sid did : Z) (item : pyval) (row : price_row) :
  values_of sid did item = Ok row <-> row_carries sid did item row.
Proof.
  unfold values_of, row_carries. split.
  - destruct item as [| | | | | |d]; try discriminate. cbn [subscript].
    destruct (lookup "date" d) as [v1|] eqn:E1; [|discriminate].
    destruct (lookup "open" d) as [v2|] eqn:E2; [|discriminate].
    destruct (lookup "high" d) as [v3|] eqn:E3; [|discriminate].
    destruct (lookup "low" d) as [v4|] eqn:E4; [|discriminate].
    destruct (lookup "close" d) as [v5|] eqn:E5; [|discriminate].
    destruct (lookup "adjusted_close" d) as [v6|] eqn:E6; [|discriminate].
    destruct (lookup "volume" d) as [v7|] eqn:E7; [|discriminate].
    cbn [bind]. intros [= <-]. exists d. cbn. repeat split; assumption.
  - intros (d & -> & Hs & H1 & H2 & H3 & H4 & H5 & H6 & H7 & Hd).
    cbn [subscript]. rewrite H1, H2, H3, H4, H5, H6, H7. cbn [bind].
    destruct row. cbn in *. now subst.
Qed.

(** An item that does not hold the seven fields raises. *)
Lemma values_of_raises (sid did : Z) (item : pyval) (ex : exn) :
  values_of sid did item = Raise ex ->
  ~ price_item item /\
  (ex = TypeError \/ exists field, In field price_fields /\ ex = KeyError field).
Proof.
  intros Hraise. split.
  - intros Hitem. destruct (price_item_values sid did item Hitem) as [row Hrow].
    congruence.
  - revert Hraise. unfold values_of.
    destruct item as [| | | | | |d]; cbn [subscript bind];
      try (intros [= <-]; now left).
    destruct (lookup "date" d); cbn [bind];
      [|intros [= <-]; right; eexists; split; [|reflexivity]; cbn; tauto].
    destruct (lookup "open" d); cbn [bind];
      [|intros [= <-]; right; eexists; split; [|reflexivity]; cbn; tauto].
    destruct (lookup "high" d); cbn [bind];
      [|intros [= <-]; right; eexists; split; [|reflexivity]; cbn; tauto].
    destruct (lookup "low" d); cbn [bind];
      [|intros [= <-]; right; eexists; split; [|reflexivity]; cbn; tauto].
    destruct (lookup "close" d); cbn [bind];
      [|intros [= <-]; right; eexists; split; [|reflexivity]; cbn; tauto].
    destruct (lookup "adjusted_close" d); cbn [bind];
      [|intros [= <-]; right; eexists; split; [|reflexivity]; cbn; tauto].
    destruct (lookup "volume" d); cbn [bind];
      [discriminate|intros [= <-]; right; eexists; split; [|reflexivity]; cbn; tauto].
Qed.

(** The loop that builds the tuples raises at the first item that does
    not hold the seven fields. *)
Lemma build_values_raises (sid did : Z) (data_list : list pyval) :
  ~ Forall price_item data_list ->
  forall acc, exists ex,
    build_values sid did data_list acc = Raise ex /\
    (ex = TypeError \/ exists field, In field price_fields /\ ex = KeyError field).
Proof.
  induction data_list as [|item rest IH]; intros Hnot acc.
  - destruct Hnot. constructor.
  - cbn [build_values]. destruct (values_of sid did item) as [row|ex] eqn:Ev.
    + cbn [bind]. apply IH. intros Hrest. apply Hnot. constructor; [|exact Hrest].
      apply values_of_carries in Ev. destruct Ev as (d & -> & _ & H1 & H2 & H3 & H4 & H5 & H6 & H7 & _).
      exists d. split; [reflexivity|]. unfold has_key.
      repeat constructor;
        match goal with
        | H : lookup ?k d = Some _ |- context [lookup ?k d] => now rewrite H
        end.
    + exists ex. split; [reflexivity|]. exact (proj2 (values_of_raises _ _ _ _ Ev)).
Qed.

(** C5 (as amended). Given a non-empty [data_list] and a symbol known to
    the metadata store, with a server that accepts every batch: when every
    item is a dictionary holding the seven fields, [store_stock_data]
    builds one tuple for each item, in input order, carrying the symbol
    id, the item's seven values and the download id, cuts the tuples into
    consecutive batches of [batch_size = 1000] rows, the last one of what
    is left, inserts and commits every batch, and returns
    [len(data_list)]; when some item is not such a dictionary it raises
    KeyError or TypeError before anything is sent to the database.  It
    returns 0 without inserting anything when [data_list] is empty or the
    symbol is not found. *)
Theorem store_stock_data_batches
  (E : env) (symbol : string) (data_list : list pyval) (did sid : Z) (d : db)
  (Hnonempty : data_list <> [])
  (Hsymbol : symbol_id_of E symbol = Some sid)
  (Haccepted : forall k, batch_ok E k) :
  (Forall price_item data_list ->
   exists (values_list : list price_row) (batches : list (list price_row)),
     Forall2 (row_carries sid did) data_list values_list /\
     concat batches = values_list /\
     Forall (fun b => (1 <= List.length b <= batch_size)%nat) batches /\
     List.length batches =
       ((List.length data_list + batch_size - 1) / batch_size)%nat /\
     batches = List.map (nth_batch values_list) (seq 0 (List.length batches)) /\
     let run := store_stock_data E symbol data_list did d in
     fst run = Ok (List.length data_list) /\
     executed (snd run) = executed d ++ batches /\
     committed (snd run) = committed d ++ pending d ++ values_list /\
     pending (snd run) = []) /\
  (~ Forall price_item data_list ->
   exists ex,
     store_stock_data E symbol data_list did d = (Raise ex, d) /\
     (ex = TypeError \/ exists field, In field price_fields /\ ex = KeyError field)) /\
  (forall E' symbol' did' d',
     store_stock_data E' symbol' [] did' d' = (Ok 0%nat, d')) /\
  (forall E' symbol' data' did' d',
     symbol_id_of E' symbol' = None ->
     store_stock_data E' symbol' data' did' d' = (Ok 0%nat, d')).
Proof.
  split; [|split; [|split]].
  - intros Hitems.
    destruct (build_values_items sid did data_list Hitems [])
      as (values_list & Hbuild & Hrows).
    cbn [app] in Hbuild.
    assert (Hlen : List.length data_list = List.length values_list)
      by (eapply Forall2_length; exact Hrows).
    assert (Hv : values_list <> []).
    { intros ->. destruct data_list; [congruence | discriminate]. }
    destruct (store_all_accepted E values_list d Hv Haccepted)
      as (Hrun & Hcat & Hsz & Hm).
    eexists values_list, _. split.
    { eapply Forall2_impl; [exact Hrows|]. intros item row.
      apply values_of_carries. }
    split; [exact Hcat|]. split; [exact Hsz|].
    split; [now rewrite Hm, Hlen|].
    split; [now rewrite Hm|].
    unfold store_stock_data.
    destruct data_list as [|item rest]; [congruence|].
    rewrite Hsymbol, Hbuild, Hrun. cbn [fst snd committed pending executed].
    rewrite Hlen. repeat split.
  - intros Hnot.
    destruct (build_values_raises sid did data_list Hnot []) as (ex & Hbuild & Hex).
    exists ex. split; [|exact Hex]. unfold store_stock_data.
    destruct data_list as [|item rest]; [congruence|].
    now rewrite Hsymbol, Hbuild.
  - reflexivity.
  - intros E' symbol' data' did' d' Hnone. unfold store_stock_data.
    rewrite Hnone. now destruct data'.
Qed.

(** C10. [store_stock_data] is not all-or-nothing across batches: each
    batch is committed on its own, so when a later batch fails the method
    rolls back what is pending, returns 0, and the rows of the batches
    committed before stay in the database; a return value of 0 does not
    mean that no row was stored. *)
Theorem later_batch_failure_keeps_earlier_rows
  (E : env) (symbol : string) (data_list : list pyval) (did sid : Z) (d : db)
  (values_list : list price_row) (f : nat)
  (Hsymbol : symbol_id_of E symbol = Some sid)
  (Hbuild : build_values sid did data_list [] = Ok values_list)
  (Hlater : (1 <= f)%nat)
  (Hrows : (f * batch_size < List.length values_list)%nat)
  (Hbefore : forall k, (k < f)%nat -> batch_ok E k)
  (Hfails : exec_outcome E f <> None \/ commit_fails E f = true) :
  let run := store_stock_data E symbol data_list did d in
  fst run = Ok 0%nat /\
  pending (snd run) = [] /\
  committed (snd run) =
    committed d ++ pending d ++ firstn (f * batch_size) values_list /\
  List.length (firstn (f * batch_size) values_list) = (f * batch_size)%nat /\
  committed (snd run) <> committed d.
Proof.
  pose proof batch_size_pos as Hbs.
  pose proof (range_covers batch_size Hbs (List.length values_list)) as Hcov.
  assert (Hf : (f < (List.length values_list + batch_size - 1) / batch_size)%nat).
  { apply (Nat.mul_lt_mono_pos_r batch_size); [exact Hbs | lia]. }
  destruct (insert_batches_fail E batch_size Hbs values_list
              ((List.length values_list + batch_size - 1) / batch_size)
              0 0 f d) as (ex & d' & Hrun & Hd');
    [lia | intros k Hk; apply Hbefore; lia | exact Hfails |].
  assert (Hcommitted : committed d' =
            committed d ++ pending d ++ firstn (f * batch_size) values_list).
  { rewrite Hd', Nat.sub_0_r. unfold after_batches.
    destruct f as [|f']; [lia|]. reflexivity. }
  assert (Hlen : List.length (firstn (f * batch_size) values_list) =
                 (f * batch_size)%nat).
  { rewrite List.length_firstn. lia. }
  assert (Hdata : data_list <> []).
  { intros ->. cbn in Hbuild. injection Hbuild as <-. cbn in Hrows. lia. }
  unfold store_stock_data.
  destruct data_list as [|item rest]; [congruence|].
  rewrite Hsymbol, Hbuild. unfold range_step. rewrite Hrun.
  cbn [fst snd rollback committed pending].
  split; [reflexivity|]. split; [reflexivity|].
  split; [exact Hcommitted|]. split; [exact Hlen|].
  rewrite Hcommitted. intros Heq.
  apply (f_equal (@List.length _)) in Heq.
  rewrite !List.length_app, Hlen in Heq.
  unfold batch_size in *. lia.
Qed.

End Outcome.

Lemma accepting_server_accepts (k : nat) : batch_ok Samples.accepting_server k.
Proof. split; reflexivity. Defined.

Lemma many_items_are_price_items : Forall price_item Samples.many_items.
Proof.
  apply List.Forall_forall. intros item Hin.
  apply repeat_spec in Hin. subst item.
  eexists. split; [reflexivity|]. repeat constructor.
Defined.

(** The tuples of equal items are equal. *)
Lemma row_carries_repeat `{Builtins} (sid did : Z) (item : pyval)
  (row : price_row) (n : nat) :
  row_carries sid did item row ->
  forall values_list,
    Forall2 (row_carries sid did) (repeat item n) values_list ->
    values_list = repeat row n.
Proof.
  intros (d & -> & Hs & H1 & H2 & H3 & H4 & H5 & H6 & H7 & Hd).
  induction n as [|n IH]; intros values_list Hall; inversion Hall; subst;
    [reflexivity|].
  cbn [repeat]. f_equal; [|now apply IH].
  match goal with
  | Hc : row_carries _ _ _ ?y |- ?y = _ =>
      destruct Hc as (d' & [= <-] & Hs' & K1 & K2 & K3 & K4 & K5 & K6 & K7 & Hd');
      destruct y, row; cbn in *; congruence
  end.
Defined.

Lemma store_stock_data_batches_witness :
  let run := store_stock_data Samples.accepting_server "AAPL" Samples.many_items 7
               Samples.empty_db in
  fst run = Ok 1001%nat /\
  committed (snd run) = Samples.many_rows /\
  executed (snd run) =
    [nth_batch Samples.many_rows 0; nth_batch Samples.many_rows 1] /\
  pending (snd run) = [].
Proof.
  destruct (store_stock_data_batches Samples.accepting_server "AAPL"
              Samples.many_items 7 1 Samples.empty_db
              ltac:(discriminate) eq_refl accepting_server_accepts)
    as (Hstored & _).
  destruct (Hstored many_items_are_price_items)
    as (values_list & batches & Hrows & _ & _ & Hcount & Hbatches &
        Hret & Hexecuted & Hcommitted & Hpending).
  assert (Hvalues : values_list = Samples.many_rows).
  { apply (row_carries_repeat 1 7 (Samples.price_item_of "2024-01-02")
             (Samples.price_row_of "2024-01-02") 1001); [|exact Hrows].
    eexists. split; [reflexivity|]. repeat split. }
  subst values_list. cbv zeta.
  split; [exact Hret|]. split; [exact Hcommitted|]. split; [|exact Hpending].
  rewrite Hexecuted, Hbatches, Hcount. reflexivity.
Defined.

(** C5, counterexample: a non-empty [data_list] and a known symbol are
    not enough.  For the records [parse_daily_time_series] returns, which
    have no ['adjusted_close'], the method raises KeyError while it builds
    the tuples: nothing is inserted and nothing is returned, although the
    server accepts every batch. *)
Theorem daily_records_are_not_stored :
  [MoreSamples.daily_record] <> [] /\
  symbol_id_of Samples.accepting_server "AAPL" = Some 1 /\
  (forall k, batch_ok Samples.accepting_server k) /\
  store_stock_data Samples.accepting_server "AAPL" [MoreSamples.daily_record] 7
    Samples.empty_db = (Raise (KeyError "adjusted_close"), Samples.empty_db).
Proof.
  split; [discriminate|]. split; [reflexivity|].
  split; [intros k; split; reflexivity | reflexivity].
Qed.

Lemma build_values_repeat `{Builtins} (sid did : Z) (item : pyval)
  (row : price_row) (n : nat) :
  values_of sid did item = Ok row ->
  forall acc, build_values sid did (repeat item n) acc = Ok (acc ++ repeat row n).
Proof.
  intros Hrow. induction n as [|n IH]; intros acc; cbn [repeat build_values].
  - now rewrite app_nil_r.
  - rewrite Hrow. cbn [bind]. rewrite IH, <- app_assoc. reflexivity.
Defined.

Lemma many_items_build :
  build_values 1 7 Samples.many_items [] = Ok Samples.many_rows.
Proof.
  exact (build_values_repeat 1 7 (Samples.price_item_of "2024-01-02")
           (Samples.price_row_of "2024-01-02") 1001 eq_refl []).
Defined.

Lemma many_rows_two_batches :
  (1 * batch_size < List.length Samples.many_rows)%nat.
Proof.
  unfold Samples.many_rows, batch_size. rewrite List.repeat_length. lia.
Defined.

Lemma second_batch_fails_first_ok (k : nat) :
  (k < 1)%nat -> batch_ok Samples.second_batch_fails k.
Proof. intros Hk. destruct k; [split; reflexivity | lia]. Defined.

Lemma later_batch_failure_keeps_earlier_rows_witness :
  fst (store_stock_data Samples.second_batch_fails "AAPL" Samples.many_items 7
         Samples.empty_db) = Ok 0%nat /\
  committed (snd (store_stock_data Samples.second_batch_fails "AAPL"
                    Samples.many_items 7 Samples.empty_db)) =
    [] ++ [] ++ firstn (1 * batch_size) Samples.many_rows.
Proof.
  destruct (later_batch_failure_keeps_earlier_rows Samples.second_batch_fails
              "AAPL" Samples.many_items 7 1 Samples.empty_db Samples.many_rows 1
              eq_refl many_items_build (le_n 1) many_rows_two_batches
              second_batch_fails_first_ok
              ltac:(left; discriminate))
    as (Hret & _ & Hcommitted & _).
  split; [exact Hret | exact Hcommitted].
Defined.

Example second_batch_failure_run :
  let run := store_stock_data Samples.second_batch_fails "AAPL"
               Samples.many_items 7 Samples.empty_db in
  fst run = Ok 0%nat /\
  List.length (committed (snd run)) = 1000%nat /\
  List.length (pending (snd run)) = 0%nat /\
  List.map (@List.length _) (executed (snd run)) = [1000%nat; 1%nat].
Proof. vm_compute. repeat split. Qed.

End StorageFacts.

(* --------------------------------------------------------------------- *)
(** ** The transaction of the web form *)
(* --------------------------------------------------------------------- *)

Module WebAppFacts.
Import WebApp.

Section Transaction.
Context {B : Builtins}.
Variable E : env.

(** The handler sits inside the [with] block, so no exception of the
    delete or of an insert leaves the block: the transaction is committed
    whatever happened in it. *)
Lemma transaction_always_commits (sid : Z) (sid_text : string)
  (rows : list pydict) (c : conn) :
  exists message,
    with_begin (transaction_body E sid sid_text rows) c =
    (Ok message,
     commit (snd (delete_and_insert E sid sid_text rows (begin_ c)))).
Proof.
  unfold with_begin, transaction_body.
  destruct (delete_and_insert E sid sid_text rows (begin_ c)) as [[u|ex] c1];
    eexists; reflexivity.
Qed.

Lemma insert_rows_accepted (sid_text : string) (sid : Z) (rows : list pydict) :
  py_int (VStr sid_text) = Ok sid ->
  (forall p, insert_accepted E p = true) ->
  forall c, exists ps,
    insert_rows E sid_text rows c =
      (Ok tt, {| stored := stored c; working := working c ++ ps |}) /\
    Forall2 (fun row p => params_of sid_text row = Ok p) rows ps.
Proof.
  intros Hsid Hacc. induction rows as [|row rows IH]; intros c.
  - exists []. split; [|constructor]. cbn. rewrite app_nil_r. now destruct c.
  - cbn [insert_rows]. unfold params_of at 1. rewrite Hsid. cbn [bind].
    unfold execute_insert. rewrite Hacc.
    match goal with |- context [insert_rows E sid_text rows ?c1] =>
      destruct (IH c1) as (ps & Hrun & Hps) end.
    eexists (_ :: ps). split.
    + rewrite Hrun. cbn [stored working]. rewrite <- app_assoc. reflexivity.
    + constructor; [|exact Hps]. unfold params_of. rewrite Hsid. reflexivity.
Qed.

(** When the server accepts every statement, the rows of the symbol are
    replaced by one row per downloaded record and the other rows stay. *)
Lemma transaction_replaces_rows (sid : Z) (sid_text : string)
  (rows : list pydict) (c : conn) :
  py_int (VStr sid_text) = Ok sid ->
  delete_accepted E = true ->
  (forall p, insert_accepted E p = true) ->
  exists ps,
    Forall2 (fun row p => params_of sid_text row = Ok p) rows ps /\
    with_begin (transaction_body E sid sid_text rows) c =
    (Ok (Inserted (List.length rows)),
     commit {| stored := stored c;
               working :=
                 List.filter (fun r => negb (Z.eqb (symbol_id r) sid)) (stored c)
                 ++ ps |}).
Proof.
  intros Hsid Hdel Hacc.
  unfold with_begin, transaction_body, delete_and_insert, execute_delete.
  rewrite Hdel.
  match goal with |- context [insert_rows E sid_text rows ?c1] =>
    destruct (insert_rows_accepted sid_text sid rows Hsid Hacc c1)
      as (ps & Hrun & Hps) end.
  exists ps. split; [exact Hps|]. rewrite Hrun. reflexivity.
Qed.

End Transaction.

(** C7, the run that contradicts it: a valid form, a non-empty download,
    the delete and the first insert accepted, the second insert rejected.
    The user is told of the error, yet the transaction is committed: the
    row stored before for the symbol is gone and the first new row is in. *)
Theorem descargar_commits_after_failed_insert :
  fst (descargar Samples.web_env Samples.valid_form Samples.price_table) =
    [SaveError DatabaseError] /\
  stored (snd (descargar Samples.web_env Samples.valid_form Samples.price_table)) =
    [Samples.stored_price 2 "2023-12-29"; Samples.stored_price 1 "2024-01-02"] /\
  rows_of 1 (stored (snd (descargar Samples.web_env Samples.valid_form
                            Samples.price_table))) <>
    rows_of 1 (stored Samples.price_table).
Proof.
  split; [reflexivity|]. split; [reflexivity|].
  assert (Hafter : rows_of 1 (stored (snd (descargar Samples.web_env
                      Samples.valid_form Samples.price_table))) =
                   [Samples.stored_price 1 "2024-01-02"]) by reflexivity.
  assert (Hbefore : rows_of 1 (stored Samples.price_table) =
                    [Samples.stored_price 1 "2023-12-29"]) by reflexivity.
  rewrite Hafter, Hbefore. intros Hrows.
  apply (f_equal (List.map date)) in Hrows. discriminate Hrows.
Qed.

End WebAppFacts.

(* --------------------------------------------------------------------- *)
(** ** Singleton identity *)
(* --------------------------------------------------------------------- *)

Module SingletonFacts.
Import Singleton.

Lemma setattr_hasattr (self : nat) (name : string) (v : attr) (h h' : heap) :
  setattr self name v h = Ok h' -> hasattr h' self name = true.
Proof.
  unfold setattr, hasattr. destruct (objects h !! self) as [o|]; [|discriminate].
  intros [= <-]. cbn. rewrite lookup_insert_eq. cbn. now rewrite lookup_insert_eq.
Qed.

(** Assignments only add attributes. *)
Lemma setattr_keeps_hasattr (self other : nat) (name k : string) (v : attr)
  (h h' : heap) :
  setattr self name v h = Ok h' ->
  hasattr h other k = true -> hasattr h' other k = true.
Proof.
  unfold setattr, hasattr. destruct (objects h !! self) as [o|] eqn:Eo; [|discriminate].
  intros [= <-]. cbn. destruct (decide (self = other)) as [->|Hne].
  - rewrite lookup_insert_eq, Eo. cbn.
    destruct (decide (name = k)) as [->|Hk].
    + now rewrite lookup_insert_eq.
    + now rewrite lookup_insert_ne.
  - now rewrite lookup_insert_ne.
Qed.

Lemma setattr_instances (self : nat) (name : string) (v : attr) (h h' : heap) :
  setattr self name v h = Ok h' -> _instances h' = _instances h.
Proof.
  unfold setattr. destruct (objects h !! self); [|discriminate].
  now intros [= <-].
Qed.

Section Construction.
Variable getenv : string -> option string.

(** Constructing the configuration manager leaves the registrations of
    the other classes alone. *)
Lemma ConfigManager_instances (h h' : heap) (cm : nat) (cls : string) :
  cls <> "ConfigManager" ->
  ConfigManager getenv h = Ok (cm, h') ->
  _instances h' !! cls = _instances h !! cls.
Proof.
  intros Hne. unfold ConfigManager, __new__, ConfigManager__init__.
  destruct (_instances h !! "ConfigManager") as [a|] eqn:Ea.
  - destruct (hasattr h a "config").
    + now intros [= _ <-].
    + cbn. destruct (setattr a "config" _ h) as [h2|] eqn:Es; [|discriminate].
      cbn. intros [= _ <-]. now rewrite (setattr_instances _ _ _ _ _ Es).
  - cbn.
    match goal with |- context [if ?b then _ else _] => destruct b end.
    + cbn. intros [= _ <-]. cbn. now rewrite lookup_insert_ne.
    + match goal with |- context [setattr ?s ?n ?v ?h0] =>
        destruct (setattr s n v h0) as [h2|] eqn:Es; [|discriminate] end.
      cbn. intros [= _ <-]. rewrite (setattr_instances _ _ _ _ _ Es).
      cbn. now rewrite lookup_insert_ne.
Qed.

(** An initialised instance is handed back as it is. *)
Lemma construct_initialized (c : singleton_class) (api_key : option string)
  (self : nat) (h : heap) :
  initialized c self h -> construct getenv c api_key h = Ok (self, h).
Proof.
  intros [Hinst Hguard].
  destruct c; cbn in Hinst, Hguard; cbn [construct];
    unfold ConfigManager, AlphaVantageClient, MetadataManager, __new__,
      ConfigManager__init__, AlphaVantageClient__init__, MetadataManager__init__;
    rewrite Hinst, Hguard; reflexivity.
Qed.

Lemma new_registers (cls : string) (h : heap) :
  _instances (snd (__new__ cls h)) !! cls = Some (fst (__new__ cls h)).
Proof.
  unfold __new__. destruct (_instances h !! cls) as [a|] eqn:Ea; cbn.
  - exact Ea.
  - apply lookup_insert_eq.
Qed.

(** Splitting a successful [let*]. *)
Tactic Notation "ok_bind" hyp(H) "as" ident(x) ident(E) :=
  match type of H with
  | bind ?m _ = Ok _ =>
      destruct m as [x|?] eqn:E; cbn [bind] in H; [|discriminate H]
  end.

Lemma ConfigManager_initialized (h h1 : heap) (self : nat) :
  ConfigManager getenv h = Ok (self, h1) -> initialized CConfigManager self h1.
Proof.
  unfold ConfigManager. pose proof (new_registers "ConfigManager" h) as Hreg.
  destruct (__new__ "ConfigManager" h) as [a h0]. cbn [fst snd] in Hreg.
  unfold ConfigManager__init__.
  destruct (hasattr h0 a "config") eqn:Eh; cbn [bind].
  - intros [= <- <-]. split; assumption.
  - intros H. ok_bind H as h2 E. injection H as <- <-.
    split; cbn [class_name guard].
    + now rewrite (setattr_instances _ _ _ _ _ E).
    + exact (setattr_hasattr _ _ _ _ _ E).
Qed.

Lemma AlphaVantageClient_initialized (api_key : option string) (h h1 : heap)
  (self : nat) :
  AlphaVantageClient getenv api_key h = Ok (self, h1) ->
  initialized CAlphaVantageClient self h1.
Proof.
  unfold AlphaVantageClient.
  pose proof (new_registers "AlphaVantageClient" h) as Hreg.
  destruct (__new__ "AlphaVantageClient" h) as [a h0]. cbn [fst snd] in Hreg.
  unfold AlphaVantageClient__init__.
  destruct (hasattr h0 a "api_key") eqn:Eh; cbn [bind].
  - intros [= <- <-]. split; assumption.
  - intros H. ok_bind H as hf Einit. injection H as <- <-. rename Einit into H.
    ok_bind H as p Ecm. destruct p as [cm hc].
    ok_bind H as h_config Econfig.
    ok_bind H as configured Eget.
    ok_bind H as h_key Ekey.
    ok_bind H as url Eurl.
    ok_bind H as h_url Ebase.
    ok_bind H as h_ts Ets.
    split; cbn [class_name guard].
    + rewrite (setattr_instances _ _ _ _ _ H), (setattr_instances _ _ _ _ _ Ets),
        (setattr_instances _ _ _ _ _ Ebase), (setattr_instances _ _ _ _ _ Ekey),
        (setattr_instances _ _ _ _ _ Econfig).
      rewrite (ConfigManager_instances h0 hc cm "AlphaVantageClient"
                 ltac:(discriminate) Ecm).
      exact Hreg.
    + eapply setattr_keeps_hasattr; [exact H|].
      eapply setattr_keeps_hasattr; [exact Ets|].
      eapply setattr_keeps_hasattr; [exact Ebase|].
      exact (setattr_hasattr _ _ _ _ _ Ekey).
Qed.

Lemma alloc_instances (cls : string) (h : heap) :
  _instances (snd (alloc cls h)) = _instances h.
Proof. reflexivity. Qed.

Lemma MetadataManager_initialized (h h1 : heap) (self : nat) :
  MetadataManager getenv h = Ok (self, h1) ->
  initialized CMetadataManager self h1.
Proof.
  unfold MetadataManager.
  pose proof (new_registers "MetadataManager" h) as Hreg.
  destruct (__new__ "MetadataManager" h) as [a h0]. cbn [fst snd] in Hreg.
  unfold MetadataManager__init__.
  destruct (hasattr h0 a "db") eqn:Eh; cbn [bind].
  - intros [= <- <-]. split; assumption.
  - intros H. ok_bind H as hf Einit. injection H as <- <-. rename Einit into H.
    ok_bind H as p Edb. destruct p as [db hd].
    split; cbn [class_name guard]; [|exact (setattr_hasattr _ _ _ _ _ H)].
    rewrite (setattr_instances _ _ _ _ _ H).
    unfold SQLServerConnector in Edb.
    pose proof (alloc_instances "SQLServerConnector" h0) as Halloc.
    destruct (alloc "SQLServerConnector" h0) as [conn ha]. cbn [snd] in Halloc.
    ok_bind Edb as p Ecm. destruct p as [cm hc].
    ok_bind Edb as h2 E2. ok_bind Edb as server Eserver.
    ok_bind Edb as h3 E3. ok_bind Edb as port Eport.
    ok_bind Edb as h4 E4. ok_bind Edb as user Euser.
    ok_bind Edb as h5 E5. ok_bind Edb as password Epassword.
    ok_bind Edb as h6 E6. ok_bind Edb as database Edatabase.
    ok_bind Edb as h7 E7. ok_bind Edb as h8 E8. ok_bind Edb as h9 E9.
    injection Edb as _ <-.
    rewrite (setattr_instances _ _ _ _ _ E9), (setattr_instances _ _ _ _ _ E8),
      (setattr_instances _ _ _ _ _ E7), (setattr_instances _ _ _ _ _ E6),
      (setattr_instances _ _ _ _ _ E5), (setattr_instances _ _ _ _ _ E4),
      (setattr_instances _ _ _ _ _ E3), (setattr_instances _ _ _ _ _ E2).
    rewrite (ConfigManager_instances ha hc cm "MetadataManager"
               ltac:(discriminate) Ecm), Halloc.
    exact Hreg.
Qed.

(** C9. Singleton identity: for every class of the repository that
    inherits [Singleton], a second construction returns the very object
    the first one returned and leaves every attribute as it is; and so
    does any later construction once the instance is initialised, whatever
    happened to the attributes in between (for [AlphaVantageClient]:
    [api_key] and [last_call_timestamp] are not set again). *)
Theorem singleton_identity
  (c : singleton_class) (key1 key2 : option string) (h h1 : heap) (self : nat)
  (Hfirst : construct getenv c key1 h = Ok (self, h1)) :
  construct getenv c key2 h1 = Ok (self, h1) /\
  (forall self2 h2,
     construct getenv c key2 h1 = Ok (self2, h2) ->
     self2 = self /\ forall name, getattr h2 self name = getattr h1 self name) /\
  (forall h', initialized c self h' ->
     construct getenv c key2 h' = Ok (self, h')).
Proof.
  assert (Hinit : initialized c self h1).
  { destruct c; cbn [construct] in Hfirst.
    - now apply ConfigManager_initialized with h.
    - now apply AlphaVantageClient_initialized with key1 h.
    - now apply MetadataManager_initialized with h. }
  split; [now apply construct_initialized|].
  split; [|intros h' Hh'; now apply construct_initialized].
  intros self2 h2. rewrite (construct_initialized c key2 self h1 Hinit).
  intros [= <- <-]. split; reflexivity.
Qed.

End Construction.
Lemma first_client_constructed :
  Singleton.construct Samples.no_environment CAlphaVantageClient (Some "demo")
    empty_heap = Ok (Samples.client_addr, Samples.client_heap).
Proof. vm_compute. reflexivity. Defined.

Example first_client_attributes :
  getattr Samples.client_heap Samples.client_addr "api_key" = Ok (AStr "demo") /\
  getattr Samples.client_heap Samples.client_addr "last_call_timestamp" =
    Ok (ANum 0) /\
  getattr Samples.client_heap Samples.client_addr "min_call_interval" =
    Ok (ANum 12).
Proof. repeat split; vm_compute; reflexivity. Qed.

Lemma singleton_identity_witness :
  Singleton.construct Samples.no_environment CAlphaVantageClient (Some "other")
    Samples.client_heap = Ok (Samples.client_addr, Samples.client_heap).
Proof.
  exact (proj1 (singleton_identity Samples.no_environment CAlphaVantageClient
                  (Some "demo") (Some "other") empty_heap Samples.client_heap
                  Samples.client_addr first_client_constructed)).
Defined.

End SingletonFacts.

(* --------------------------------------------------------------------- *)
(** ** Parameterized inserts *)
(* --------------------------------------------------------------------- *)

Module SqlFacts.
Import Sql.

Example downloader_placeholders : count_positional Downloader_insert_sql = 7%nat.
Proof. reflexivity. Qed.

Example storage_placeholders : count_positional StockDataStorage_query = 9%nat.
Proof. reflexivity. Qed.

Example app_placeholders :
  named_placeholders app_insert_sql =
  ["symbol_id"; "date"; "open"; "high"; "low"; "close"; "volume"].
Proof. reflexivity. Qed.

End SqlFacts.

(* ===================================================================== *)
(** * Part III. Further properties *)
(* ===================================================================== *)

(* --------------------------------------------------------------------- *)
(** ** The adjusted series *)
(* --------------------------------------------------------------------- *)

Module AdjustedParseFacts.
Import DateSort.

Section Generic.
Context {B : Builtins}.

Lemma adjusted_entry_converts (e : string * pyval) (r : Adjusted.row) :
  adjusted_converts e r <-> Adjusted.format_entry (fst e) (snd e) = Ok r.
Proof.
  unfold adjusted_converts, Adjusted.format_entry.
  destruct r as [d o h l c a v dv sc]; simpl.
  split.
  - intros (-> & -> & -> & -> & -> & -> & -> & -> & ->). reflexivity.
  - destruct (let* x := subscript (snd e) "1. open" in py_float x); [|discriminate].
    destruct (let* x := subscript (snd e) "2. high" in py_float x); [|discriminate].
    destruct (let* x := subscript (snd e) "3. low" in py_float x); [|discriminate].
    destruct (let* x := subscript (snd e) "4. close" in py_float x); [|discriminate].
    destruct (let* x := subscript (snd e) "5. adjusted close" in py_float x);
      [|discriminate].
    destruct (let* x := subscript (snd e) "6. volume" in py_int x); [|discriminate].
    destruct (let* x := subscript (snd e) "7. dividend amount" in py_float x);
      [|discriminate].
    destruct (let* x := subscript (snd e) "8. split coefficient" in py_float x);
      [|discriminate].
    simpl. intros [= <- <- <- <- <- <- <- <- <-]. repeat split.
Qed.

Lemma adjusted_loop_complete (entries : list (string * pyval))
  (rows : list Adjusted.row) :
  Forall2 adjusted_converts entries rows ->
  forall acc, Adjusted.format_loop entries acc = Ok (acc ++ rows).
Proof.
  induction 1 as [|e r entries rows He _ IH]; intros acc; simpl.
  - now rewrite app_nil_r.
  - destruct e as [d values]. apply adjusted_entry_converts in He. simpl in He.
    rewrite He. simpl. rewrite IH, <- app_assoc. reflexivity.
Qed.

Lemma adjusted_loop_sound (entries : list (string * pyval)) :
  forall acc out,
    Adjusted.format_loop entries acc = Ok out ->
    exists rows, out = acc ++ rows /\ Forall2 adjusted_converts entries rows.
Proof.
  induction entries as [|[d values] entries IH]; intros acc out; simpl.
  - intros [= <-]. exists []. split; [now rewrite app_nil_r | constructor].
  - destruct (Adjusted.format_entry d values) as [r|] eqn:E; simpl; [|discriminate].
    intros Hl. destruct (IH _ _ Hl) as (rows & -> & Hrows).
    exists (r :: rows). split; [now rewrite <- app_assoc|].
    constructor; [|exact Hrows]. now apply adjusted_entry_converts.
Qed.

Lemma client_adjusted_on_series (d : pydict) (series : pyval) :
  lookup TIME_SERIES_KEY d = Some series ->
  snd (AlphaVantageClient.parse_daily_adjusted (VDict d)) =
  (let* entries := items series in
   let* formatted_data := Adjusted.format_loop entries [] in
   Ok (sort_desc Adjusted.date formatted_data)).
Proof.
  intros Hk. unfold AlphaVantageClient.parse_daily_adjusted, no_time_series.
  rewrite (ParseFacts.lookup_truthy _ _ _ Hk). simpl negb. cbv iota.
  unfold contains. rewrite (ParseFacts.lookup_has_key _ _ _ Hk). simpl.
  now rewrite Hk.
Qed.

(** X1. When every entry under ['Time Series (Daily)'] holds the eight
    adjusted fields in a form [float()] and [int()] accept,
    [parse_daily_adjusted] of either class returns one record per entry
    with the converted fields, most recent date first; with the key
    present it returns in that case only. *)
Theorem parse_daily_adjusted_normalizes
  (d : pydict) (entries : list (string * pyval)) (rows : list Adjusted.row)
  (Hkey : lookup TIME_SERIES_KEY d = Some (VDict entries))
  (Hconv : Forall2 adjusted_converts entries rows) :
  let out := sort_desc Adjusted.date rows in
  (snd (AlphaVantageClient.parse_daily_adjusted (VDict d)) = Ok out /\
   snd (AlphaVantageAPI.parse_daily_adjusted (VDict d)) = Ok out /\
   List.length out = List.length entries /\
   Permutation rows out /\
   StronglySorted (date_ge Adjusted.date) out) /\
  (forall (d' : pydict) (series : pyval) (out' : list Adjusted.row),
     lookup TIME_SERIES_KEY d' = Some series ->
     snd (AlphaVantageClient.parse_daily_adjusted (VDict d')) = Ok out' ->
     exists entries' rows',
       series = VDict entries' /\ Forall2 adjusted_converts entries' rows' /\
       out' = sort_desc Adjusted.date rows').
Proof.
  intros out.
  assert (Hclient : snd (AlphaVantageClient.parse_daily_adjusted (VDict d)) = Ok out).
  { rewrite (client_adjusted_on_series d _ Hkey). simpl.
    now rewrite (adjusted_loop_complete entries rows Hconv []). }
  split.
  - split; [exact Hclient|].
    split; [now rewrite ParseFacts.adjusted_same_result|].
    split; [|split].
    + unfold out. rewrite DateSortFacts.sort_desc_length.
      symmetry. eapply Forall2_length, Hconv.
    + apply DateSortFacts.sort_desc_perm.
    + apply DateSortFacts.sort_desc_strongly_sorted.
  - intros d' series out' Hk Hout.
    rewrite (client_adjusted_on_series d' _ Hk) in Hout.
    destruct series as [| | | | |l|entries']; simpl in Hout; try discriminate.
    destruct (Adjusted.format_loop entries' []) as [rows'|] eqn:E; simpl in Hout;
      [|discriminate].
    injection Hout as <-.
    destruct (adjusted_loop_sound _ _ _ E) as (rows'' & -> & Hrows).
    exists entries', rows''. simpl. auto.
Qed.

End Generic.

Lemma adjusted_payload_converts :
  Forall2 adjusted_converts
    [("2024-01-02",
      VDict [("1. open", VStr "187.15"); ("2. high", VStr "188.44");
             ("3. low", VStr "183.88"); ("4. close", VStr "185.64");
             ("5. adjusted close", VStr "184.90");
             ("6. volume", VStr "82488700");
             ("7. dividend amount", VStr "0.0000");
             ("8. split coefficient", VStr "1.0")])]
    MoreSamples.adjusted_rows.
Proof. repeat constructor. Defined.

Lemma parse_daily_adjusted_normalizes_witness :
  snd (AlphaVantageClient.parse_daily_adjusted Samples.adjusted_payload) =
    Ok (sort_desc Adjusted.date MoreSamples.adjusted_rows).
Proof.
  exact (proj1 (proj1 (parse_daily_adjusted_normalizes
                  (B := Decimal.builtins)
                  [("Meta Data", VDict [("2. Symbol", VStr "AAPL")]);
                   ("Time Series (Daily)", _)] _ _
                  eq_refl adjusted_payload_converts))).
Defined.

End AdjustedParseFacts.

(* --------------------------------------------------------------------- *)
(** ** The parsed list does not depend on the order of the payload *)
(* --------------------------------------------------------------------- *)

Module SortOrderFacts.
Import DateSort.

Lemma ltb_total (s t : string) :
  s <> t -> String.ltb s t = false -> String.ltb t s = true.
Proof.
  unfold String.ltb. intros Hne. rewrite (String.compare_antisym t s).
  destruct (String.compare s t) eqn:E; simpl; try congruence.
  apply String.compare_eq_iff in E. contradiction.
Qed.

Section Insert.
Variable A : Type.
Variable date_of : A -> string.

(** Two insertions with different keys can be done in either order. *)
Lemma insert_desc_comm (x y : A) (l : list A) :
  date_of x <> date_of y ->
  insert_desc date_of x (insert_desc date_of y l) =
  insert_desc date_of y (insert_desc date_of x l).
Proof.
  intros Hxy. induction l as [|z l IH]; simpl.
  - destruct (String.ltb (date_of x) (date_of y)) eqn:Exy.
    + now rewrite (DateSortFacts.ltb_asym _ _ Exy).
    + now rewrite (ltb_total _ _ Hxy Exy).
  - destruct (String.ltb (date_of y) (date_of z)) eqn:Eyz;
      destruct (String.ltb (date_of x) (date_of z)) eqn:Exz; simpl;
      rewrite ?Eyz, ?Exz.
    + now rewrite IH.
    + destruct (String.ltb (date_of y) (date_of x)) eqn:Eyx.
      * simpl; rewrite ?Eyz, ?Exz; reflexivity.
      * pose proof (StringOrder.ltb_false_trans _ _ _ Eyx Exz). congruence.
    + destruct (String.ltb (date_of x) (date_of y)) eqn:Exy.
      * simpl; rewrite ?Eyz, ?Exz; reflexivity.
      * pose proof (StringOrder.ltb_false_trans _ _ _ Exy Eyz). congruence.
    + destruct (String.ltb (date_of x) (date_of y)) eqn:Exy.
      * rewrite (DateSortFacts.ltb_asym _ _ Exy).
        simpl; rewrite ?Eyz, ?Exz; reflexivity.
      * rewrite (ltb_total _ _ Hxy Exy).
        simpl; rewrite ?Eyz, ?Exz; reflexivity.
Qed.

(** Lists with the same elements and pairwise different keys sort to the
    same list. *)
Lemma sort_desc_permutation (l l' : list A) :
  Permutation l l' ->
  List.NoDup (List.map date_of l) ->
  sort_desc date_of l = sort_desc date_of l'.
Proof.
  induction 1 as [|x l l' Hp IH|x y l|l l' l'' Hp1 IH1 Hp2 IH2]; intros Hnd.
  - reflexivity.
  - simpl in *. apply List.NoDup_cons_iff in Hnd as [_ Hnd]. now rewrite IH.
  - simpl in *. apply List.NoDup_cons_iff in Hnd as [Hy Hnd].
    apply insert_desc_comm. intros Heq. apply Hy. left. symmetry. exact Heq.
  - rewrite IH1 by exact Hnd. apply IH2.
    eapply Permutation_NoDup; [|exact Hnd]. now apply Permutation_map.
Qed.

End Insert.

Section Converting.
Variables (E R : Type) (conv : E -> R -> Prop).

Lemma Forall2_permutation (l l' : list E) :
  Permutation l l' ->
  forall m, Forall2 conv l m ->
  exists m', Forall2 conv l' m' /\ Permutation m m'.
Proof.
  induction 1 as [|x l l' Hp IH|x y l|l l' l'' Hp1 IH1 Hp2 IH2]; intros m Hm.
  - inversion Hm; subst. exists []. split; constructor.
  - inversion Hm as [|? r ? rs Hr Hrs]; subst.
    destruct (IH rs Hrs) as (rs' & Hrs' & Hperm).
    exists (r :: rs'). split; [now constructor | now apply perm_skip].
  - inversion Hm as [|? ry ? m1 Hy Hm1]; subst.
    inversion Hm1 as [|? rx ? rs Hx Hrs]; subst.
    exists (rx :: ry :: rs). split; [repeat constructor; assumption | apply perm_swap].
  - destruct (IH1 m Hm) as (m1 & Hm1 & Hp1').
    destruct (IH2 m1 Hm1) as (m2 & Hm2 & Hp2').
    exists m2. split; [exact Hm2 | now apply perm_trans with m1].
Qed.

End Converting.

Section Parse.
Context {B : Builtins}.

Lemma daily_dates (entries : list (string * pyval)) (rows : list Daily.row) :
  Forall2 daily_converts entries rows ->
  List.map Daily.date rows = List.map fst entries.
Proof.
  induction 1 as [|e r entries rows (Hd & _) _ IH]; simpl; [reflexivity|].
  now rewrite Hd, IH.
Qed.

(** X2. The list [parse_daily_time_series] returns depends on the entries
    of the series, not on their order in the payload: two payloads whose
    series hold the same entries (each date once) in different orders
    parse to the same list. *)
Theorem parse_ignores_entry_order
  (d d' : pydict) (entries entries' : list (string * pyval))
  (rows : list Daily.row)
  (Hkey : lookup TIME_SERIES_KEY d = Some (VDict entries))
  (Hkey' : lookup TIME_SERIES_KEY d' = Some (VDict entries'))
  (Hperm : Permutation entries entries')
  (Hdates : List.NoDup (List.map fst entries))
  (Hconv : Forall2 daily_converts entries rows) :
  snd (AlphaVantageClient.parse_daily_time_series (VDict d')) =
    snd (AlphaVantageClient.parse_daily_time_series (VDict d)) /\
  snd (AlphaVantageClient.parse_daily_time_series (VDict d)) =
    Ok (sort_desc Daily.date rows).
Proof.
  destruct (Forall2_permutation _ _ daily_converts entries entries' Hperm rows Hconv)
    as (rows' & Hconv' & Hrows).
  rewrite (ParseFacts.client_daily_on_series d _ Hkey),
    (ParseFacts.client_daily_on_series d' _ Hkey'). simpl.
  rewrite (ParseFacts.format_loop_complete entries rows Hconv []),
    (ParseFacts.format_loop_complete entries' rows' Hconv' []). simpl.
  split; [|reflexivity]. f_equal. symmetry.
  apply sort_desc_permutation; [exact Hrows|].
  now rewrite (daily_dates entries rows Hconv).
Qed.

End Parse.
Lemma sample_days_distinct :
  List.NoDup (List.map fst [MoreSamples.day_2; MoreSamples.day_3]).
Proof.
  repeat constructor; simpl; intros H;
    repeat (destruct H as [H|H]; [discriminate H|]); exact H.
Defined.

Lemma parse_ignores_entry_order_witness :
  snd (AlphaVantageClient.parse_daily_time_series
         (VDict MoreSamples.daily_payload_recent_first)) =
  snd (AlphaVantageClient.parse_daily_time_series
         (VDict MoreSamples.daily_payload_oldest_first)).
Proof.
  exact (proj1 (parse_ignores_entry_order
                  MoreSamples.daily_payload_oldest_first
                  MoreSamples.daily_payload_recent_first
                  [MoreSamples.day_2; MoreSamples.day_3]
                  [MoreSamples.day_3; MoreSamples.day_2]
                  (rev Samples.daily_rows) eq_refl eq_refl
                  (perm_swap _ _ _) sample_days_distinct
                  ParseFacts.daily_payload_converts)).
Defined.

End SortOrderFacts.

(* --------------------------------------------------------------------- *)
(** ** The client's requests *)
(* --------------------------------------------------------------------- *)

Module ClientFacts.
Local Open Scope Q_scope.
Import RateLimitFacts ClientRuns.

Section Client.
Context {B : Builtins}.
Variable e : env.

(** X3. [AlphaVantageClient.get] sends exactly one request per call and
    never waits beyond the rate limiter: a failed request raises, a JSON
    object carrying ['Error Message'] raises the [Exception] of the
    method, a JSON list or string in which ['Error Message'] is found
    raises TypeError when the message is looked up, and an answer carrying
    a rate-limit note is handed to the caller as it is, without a
    retry. *)
Theorem get_sends_one_request
  (function : string) (self : AlphaVantageClient.t) (w : world) :
  let run := AlphaVantageClient.get function e self w in
  let answer := response_of e (List.length (requests w)) in
  List.length (requests (snd run)) = S (List.length (requests w)) /\
  (List.length (slept (snd run)) <= S (List.length (slept w)))%nat /\
  (answer = HttpError -> fst (fst run) = Raise RequestException) /\
  (answer = BadJson -> fst (fst run) = Raise JSONDecodeError) /\
  (forall data, answer = Json data ->
     contains "Error Message" data = Ok true ->
     fst (fst run) =
       match data with
       | VDict _ => Raise (Exception "Error de Alpha Vantage")
       | _ => Raise TypeError
       end) /\
  (forall data, answer = Json data ->
     contains "Error Message" data = Ok false ->
     rate_limit_note data = Ok true ->
     fst (fst run) = Ok data).
Proof.
  unfold AlphaVantageClient.get.
  destruct (AlphaVantageClient.handle_rate_limit e self w) as [self1 w1] eqn:Eh.
  assert (Hreq : requests w1 = requests w).
  { unfold AlphaVantageClient.handle_rate_limit in Eh. injection Eh as _ <-.
    destruct (Qltb _ _); reflexivity. }
  assert (Hsl : (List.length (slept w1) <= S (List.length (slept w)))%nat).
  { unfold AlphaVantageClient.handle_rate_limit in Eh. injection Eh as _ <-.
    destruct (Qltb _ _); cbn [time_sleep slept]; [|lia].
    rewrite List.length_app. simpl. lia. }
  unfold requests_get. rewrite Hreq.
  destruct (response_of e (List.length (requests w))) as [| |data] eqn:Ea;
    cbn [fst snd requests slept];
    (split; [rewrite List.length_app; simpl; lia|]);
    (split; [exact Hsl|]);
    repeat split; try discriminate; try reflexivity.
  - intros data' [= <-] Herr. rewrite Herr. cbn [bind].
    destruct data as [| | | | |l|members]; try discriminate Herr;
      try reflexivity.
    cbn [contains] in Herr. unfold has_key in Herr. cbn [subscript].
    destruct (lookup "Error Message" members); [reflexivity|discriminate].
  - intros data' [= <-] Herr Hnote. now rewrite Herr, Hnote.
Qed.

(** X4. The rate limiter never holds a call longer than one interval:
    when the clock has not gone back behind the last call, what
    [handle_rate_limit] sleeps is positive and at most
    [min_call_interval], and it sleeps at most once. *)
Theorem handle_rate_limit_sleep_bounded
  (self : AlphaVantageClient.t) (w : world)
  (Hclock : AlphaVantageClient.last_call_timestamp self <= clock w) :
  exists pause : list Q,
    slept (snd (AlphaVantageClient.handle_rate_limit e self w)) = slept w ++ pause /\
    (List.length pause <= 1)%nat /\
    Forall (fun s => 0 < s /\ s <= AlphaVantageClient.min_call_interval self) pause.
Proof.
  unfold AlphaVantageClient.handle_rate_limit, time_time. cbn [snd].
  destruct (Qltb _ _) eqn:E.
  - apply Qltb_true in E. eexists [_]. cbn [time_sleep slept].
    split; [reflexivity|]. split; [simpl; lia|].
    constructor; [|constructor]. split; lra.
  - exists []. split; [now rewrite app_nil_r|]. split; [simpl; lia | constructor].
Qed.

Hypothesis Henv : well_behaved e.

Lemma spaced_snoc (gap t : Q) (times : list Q) :
  spaced gap times ->
  (times <> [] -> List.last times 0 + gap <= t) ->
  spaced gap (times ++ [t]).
Proof.
  induction times as [|a [|b l] IH]; intros Hs Hlast.
  - exact I.
  - simpl. split; [|exact I]. apply Hlast. discriminate.
  - destruct Hs as [Hab Hs].
    change ((a :: b :: l) ++ [t]) with (a :: ((b :: l) ++ [t])).
    change (a + gap <= b /\ spaced gap ((b :: l) ++ [t])).
    split; [exact Hab|]. apply IH; [exact Hs|].
    intros _. apply Hlast. discriminate.
Qed.

Lemma get_keeps_in_step (function : string) (pause : Q)
  (self : AlphaVantageClient.t) (w : world) :
  in_step self w -> 0 <= pause ->
  let run := AlphaVantageClient.get function e self (idle pause w) in
  in_step (snd (fst run)) (snd run) /\
  List.length (requests (snd run)) = S (List.length (requests w)).
Proof.
  intros (Hsp & Hlast & Hmin) Hpause.
  pose proof (get_requests e Henv function self (idle pause w)) as Hget.
  pose proof (handle_rate_limit_clock e Henv self (idle pause w)) as [Hgap _].
  cbv zeta in Hgap.
  destruct (AlphaVantageClient.get function e self (idle pause w))
    as [[r self1] w1].
  destruct Hget as (Hreq & Hts & Hmin1 & _). cbn [fst snd idle requests] in *.
  split; [|rewrite Hreq, List.length_app; simpl; lia].
  split; [|split].
  - rewrite Hreq, List.map_app. cbn [List.map fst]. apply spaced_snoc; [exact Hsp|].
    intros Hne. rewrite Hlast.
    + rewrite Hmin in Hgap. exact Hgap.
    + intros Hnil. apply Hne. now rewrite Hnil.
  - intros _. rewrite Hreq, List.map_app. cbn [List.map fst].
    rewrite List.last_last. symmetry. exact Hts.
  - now rewrite Hmin1.
Qed.

Lemma gets_keep_in_step (calls : list (string * Q)) :
  forall (self : AlphaVantageClient.t) (w : world),
    in_step self w ->
    Forall (fun c => 0 <= snd c) calls ->
    in_step (fst (gets e calls self w)) (snd (gets e calls self w)) /\
    List.length (requests (snd (gets e calls self w))) =
      (List.length (requests w) + List.length calls)%nat.
Proof.
  induction calls as [|[function pause] calls IH]; intros self w Hin Hpauses.
  - cbn. split; [exact Hin | lia].
  - inversion Hpauses as [|? ? Hp Hrest]; subst. cbn [snd] in Hp.
    pose proof (get_keeps_in_step function pause self w Hin Hp) as Hstep.
    cbv zeta in Hstep. cbn [gets].
    destruct (AlphaVantageClient.get function e self (idle pause w))
      as [[r self1] w1].
    cbn [fst snd] in Hstep. destruct Hstep as [Hin1 Hlen1].
    destruct (IH self1 w1 Hin1 Hrest) as [Hin' Hlen'].
    split; [exact Hin'|]. rewrite Hlen', Hlen1. cbn [List.length]. lia.
Qed.

(** X5. Over a whole session the requests stay spaced: however many
    calls of [get] a fresh process makes, and however long it pauses
    between them, each request starts at least 12 seconds after the one
    before, and every call sends exactly one request. *)
Theorem session_requests_spaced
  (calls : list (string * Q)) (self : AlphaVantageClient.t) (w : world)
  (Hmin : AlphaVantageClient.min_call_interval self = 12)
  (Hfresh : requests w = [])
  (Hpauses : Forall (fun c => 0 <= snd c) calls) :
  spaced 12 (List.map fst (requests (snd (gets e calls self w)))) /\
  List.length (requests (snd (gets e calls self w))) = List.length calls.
Proof.
  assert (Hin : in_step self w).
  { split; [rewrite Hfresh; exact I|]. split; [|exact Hmin].
    intros Hne. now rewrite Hfresh in Hne. }
  destruct (gets_keep_in_step calls self w Hin Hpauses) as [(Hsp & _) Hlen].
  split; [exact Hsp|]. rewrite Hlen, Hfresh. reflexivity.
Qed.

End Client.

Lemma handle_rate_limit_sleep_bounded_witness :
  AlphaVantageClient.last_call_timestamp MoreSamples.recent_client <=
    clock Samples.fresh_world /\
  exists pause : list Q,
    slept (snd (AlphaVantageClient.handle_rate_limit Samples.steady_env
                  MoreSamples.recent_client Samples.fresh_world)) =
      slept Samples.fresh_world ++ pause /\
    (List.length pause <= 1)%nat /\
    Forall (fun s => 0 < s /\
                     s <= AlphaVantageClient.min_call_interval
                            MoreSamples.recent_client) pause.
Proof.
  assert (Hclock : AlphaVantageClient.last_call_timestamp MoreSamples.recent_client <=
                   clock Samples.fresh_world)
    by (unfold Qle; simpl; lia).
  split; [exact Hclock|].
  exact (handle_rate_limit_sleep_bounded Samples.steady_env
           MoreSamples.recent_client Samples.fresh_world Hclock).
Defined.

Example recent_client_sleeps_seven :
  slept (snd (AlphaVantageClient.handle_rate_limit Samples.steady_env
                MoreSamples.recent_client Samples.fresh_world)) =
    [(12 - (1700000000 - 1699999995))%Q].
Proof. reflexivity. Qed.

Lemma session_requests_spaced_witness :
  well_behaved Samples.steady_env /\
  AlphaVantageClient.min_call_interval Samples.fresh_client = 12 /\
  requests Samples.fresh_world = [] /\
  Forall (fun c => 0 <= snd c) MoreSamples.three_calls /\
  spaced 12 (List.map fst (requests (snd (gets Samples.steady_env
    MoreSamples.three_calls Samples.fresh_client Samples.fresh_world)))) /\
  List.length (requests (snd (gets Samples.steady_env
    MoreSamples.three_calls Samples.fresh_client Samples.fresh_world))) =
    List.length MoreSamples.three_calls.
Proof.
  assert (Hpauses : Forall (fun c : string * Q => 0 <= snd c) MoreSamples.three_calls).
  { repeat constructor; unfold Qle; simpl; lia. }
  split; [exact steady_env_well_behaved|].
  split; [reflexivity|]. split; [reflexivity|]. split; [exact Hpauses|].
  exact (session_requests_spaced Samples.steady_env steady_env_well_behaved
           MoreSamples.three_calls Samples.fresh_client Samples.fresh_world
           eq_refl eq_refl Hpauses).
Defined.

End ClientFacts.

(* --------------------------------------------------------------------- *)
(** ** From a JSON file to the price table *)
(* --------------------------------------------------------------------- *)

Module StorageFileFacts.
Import StockDataStorage StockDataFiles.

Section Items.
Context {B : Builtins}.

Lemma item_of_price_item (adjusted : bool) (date : string) (values item : pyval) :
  item_of adjusted date values = Ok item -> price_item item.
Proof.
  unfold item_of.
  destruct (let* x := subscript values "1. open" in py_float x); [|discriminate].
  destruct (let* x := subscript values "2. high" in py_float x); [|discriminate].
  destruct (let* x := subscript values "3. low" in py_float x); [|discriminate].
  destruct (let* x := subscript values "4. close" in py_float x); [|discriminate].
  cbn [bind].
  destruct (let* x := subscript values _ in py_int x); [|discriminate].
  cbn [bind].
  destruct adjusted.
  - destruct (subscript values "5. adjusted close") as [x|]; [|discriminate].
    cbn [bind]. destruct (py_float x); [|discriminate]. cbn [bind].
    intros [= <-]. eexists. split; [reflexivity|]. repeat constructor.
  - cbn. intros [= <-]. eexists. split; [reflexivity|]. repeat constructor.
Qed.

Lemma item_loop_price_items (adjusted : bool) (entries : list (string * pyval)) :
  forall acc data_list,
    Forall price_item acc ->
    item_loop adjusted entries acc = Ok data_list ->
    Forall price_item data_list.
Proof.
  induction entries as [|[date values] entries IH]; intros acc data_list Hacc.
  - cbn. now intros [= <-].
  - cbn [item_loop].
    destruct (item_of adjusted date values) as [item|] eqn:Eitem; [|discriminate].
    cbn [bind]. apply IH. apply Forall_app. split; [exact Hacc|].
    constructor; [|constructor]. eapply item_of_price_item. exact Eitem.
Qed.

(** Whatever [process_json_file] returns can be stored. *)
Lemma process_json_file_price_items (loaded : result pyval) (json_file symbol : string)
  (data_list : list pyval) :
  process_json_file loaded json_file = Some (symbol, data_list) ->
  Forall price_item data_list.
Proof.
  unfold process_json_file, process_body.
  destruct loaded as [data|]; [|discriminate]. cbn [bind].
  destruct (contains "Time Series (Daily)" data) as [[|]|]; try discriminate.
  cbn [bind].
  destruct (subscript data "Time Series (Daily)") as [ts|]; [|discriminate].
  cbn [bind].
  destruct (is_adjusted ts) as [adjusted|]; [|discriminate]. cbn [bind].
  destruct (items ts) as [entries|]; [|discriminate]. cbn [bind].
  destruct (item_loop adjusted entries []) as [l|] eqn:El; [|discriminate].
  cbn [bind]. intros [= _ <-].
  eapply item_loop_price_items; [|exact El]. constructor.
Qed.

Lemma daily_entry_item (e : string * pyval) (r : Daily.row) :
  daily_converts e r -> item_of false (fst e) (snd e) = Ok (daily_item r).
Proof.
  intros (Hd & Ho & Hh & Hl & Hc & Hv). rewrite <- Hd. unfold item_of.
  rewrite Ho, Hh, Hl, Hc. cbn [bind negb]. rewrite Hv. reflexivity.
Qed.

Lemma adjusted_entry_item (e : string * pyval) (r : Adjusted.row) :
  adjusted_converts e r -> item_of true (fst e) (snd e) = Ok (adjusted_item r).
Proof.
  intros (Hd & Ho & Hh & Hl & Hc & Ha & Hv & _). rewrite <- Hd. unfold item_of.
  rewrite Ho, Hh, Hl, Hc. cbn [bind negb]. rewrite Hv. cbn [bind].
  destruct (subscript (snd e) "5. adjusted close") as [x|]; [|discriminate Ha].
  cbn [bind] in *. rewrite Ha. reflexivity.
Qed.

Lemma item_loop_converts {R : Type} (adjusted : bool)
  (converts : string * pyval -> R -> Prop) (item : R -> pyval) :
  (forall e r, converts e r -> item_of adjusted (fst e) (snd e) = Ok (item r)) ->
  forall entries rows, Forall2 converts entries rows ->
  forall acc, item_loop adjusted entries acc = Ok (acc ++ List.map item rows).
Proof.
  intros Hitem entries rows Hconv.
  induction Hconv as [|[date values] r entries rows He _ IH]; intros acc.
  - cbn. now rewrite app_nil_r.
  - cbn [item_loop]. pose proof (Hitem _ _ He) as Hrow. cbn [fst snd] in Hrow.
    rewrite Hrow. cbn [bind]. rewrite IH, <- app_assoc. reflexivity.
Qed.

Lemma process_body_on_series (d : pydict) (entries : list (string * pyval))
  (json_file : string) :
  lookup TIME_SERIES_KEY d = Some (VDict entries) ->
  process_json_file (Ok (VDict d)) json_file =
    match (let* adjusted := is_adjusted (VDict entries) in
           item_loop adjusted entries []) with
    | Ok data_list => Some (split_first (basename json_file), data_list)
    | Raise _ => None
    end.
Proof.
  intros Hkey. unfold process_json_file, process_body, TIME_SERIES_KEY in *.
  cbn [bind contains subscript]. unfold has_key. rewrite Hkey. cbn [bind].
  destruct (is_adjusted (VDict entries)) as [adjusted|]; [|reflexivity].
  cbn [bind items]. now destruct (item_loop adjusted entries []).
Qed.

(** X6. From a plain daily file (the first entry of the series has no
    ['5. adjusted close']) whose entries hold the five daily fields in a
    form [float()] and [int()] accept, [process_json_file] returns the
    symbol read off the file name and one item per entry, in the order of
    the file (it does not sort), with the converted fields and the close
    standing in for the adjusted close. *)
Theorem process_json_file_daily
  (d : pydict) (entries : list (string * pyval)) (rows : list Daily.row)
  (json_file : string)
  (Hkey : lookup TIME_SERIES_KEY d = Some (VDict entries))
  (Hplain : is_adjusted (VDict entries) = Ok false)
  (Hconv : Forall2 daily_converts entries rows) :
  process_json_file (Ok (VDict d)) json_file =
    Some (split_first (basename json_file), List.map daily_item rows) /\
  List.map Daily.date rows = List.map fst entries.
Proof.
  split.
  - rewrite (process_body_on_series d entries json_file Hkey), Hplain.
    cbn [bind].
    now rewrite (item_loop_converts false daily_converts daily_item
                   daily_entry_item entries rows Hconv []).
  - clear Hkey Hplain. induction Hconv as [|e r entries rows He _ IH]; [reflexivity|].
    cbn [List.map]. rewrite IH. destruct He as [-> _]. reflexivity.
Qed.

(** X7. From an adjusted file (the first entry of the series has
    ['5. adjusted close']) whose entries hold the adjusted fields in a
    form [float()] and [int()] accept, [process_json_file] returns one
    item per entry in the order of the file, the volume read from
    ['6. volume'] and the adjusted close from ['5. adjusted close']. *)
Theorem process_json_file_adjusted
  (d : pydict) (entries : list (string * pyval)) (rows : list Adjusted.row)
  (json_file : string)
  (Hkey : lookup TIME_SERIES_KEY d = Some (VDict entries))
  (Hadjusted : is_adjusted (VDict entries) = Ok true)
  (Hconv : Forall2 adjusted_converts entries rows) :
  process_json_file (Ok (VDict d)) json_file =
    Some (split_first (basename json_file), List.map adjusted_item rows).
Proof.
  rewrite (process_body_on_series d entries json_file Hkey), Hadjusted.
  cbn [bind].
  now rewrite (item_loop_converts true adjusted_converts adjusted_item
                 adjusted_entry_item entries rows Hconv []).
Qed.

End Items.

Lemma sample_days_convert :
  Forall2 daily_converts [MoreSamples.day_2; MoreSamples.day_3]
    (rev Samples.daily_rows).
Proof. repeat constructor. Defined.

Lemma process_json_file_daily_witness :
  process_json_file (Ok (VDict MoreSamples.daily_payload_oldest_first))
    "../data/AAPL_20250331_120000.json" =
  Some ("AAPL", List.map daily_item (rev Samples.daily_rows)).
Proof.
  exact (proj1 (process_json_file_daily (B := Decimal.builtins)
                  MoreSamples.daily_payload_oldest_first
                  [MoreSamples.day_2; MoreSamples.day_3] (rev Samples.daily_rows)
                  "../data/AAPL_20250331_120000.json"
                  eq_refl eq_refl sample_days_convert)).
Defined.

Lemma sample_adjusted_day_converts :
  Forall2 adjusted_converts [MoreSamples.adjusted_day] MoreSamples.adjusted_rows.
Proof. repeat constructor. Defined.

Lemma process_json_file_adjusted_witness :
  process_json_file (Ok Samples.adjusted_payload)
    "../data/AAPL_20250331_120000.json" =
  Some ("AAPL", List.map adjusted_item MoreSamples.adjusted_rows).
Proof.
  exact (process_json_file_adjusted (B := Decimal.builtins)
           [("Meta Data", VDict [("2. Symbol", VStr "AAPL")]);
            ("Time Series (Daily)", VDict [MoreSamples.adjusted_day])]
           [MoreSamples.adjusted_day] MoreSamples.adjusted_rows
           "../data/AAPL_20250331_120000.json"
           eq_refl eq_refl sample_adjusted_day_converts).
Defined.

Section Store.
Context {B : Builtins}.

(** A run of the batch loop that ends normally has had every batch
    accepted. *)
Lemma insert_batches_ok_inv (E : env) (bs : nat) (values_list : list price_row)
  (m : nat) :
  (0 < bs)%nat ->
  forall (k0 total n : nat) (d d' : db),
    insert_batches E bs values_list
      (List.map (fun k => (k * bs)%nat) (seq k0 m)) total d = (Ok n, d') ->
    forall k, (k0 <= k < k0 + m)%nat -> batch_ok E k.
Proof.
  intros Hbs. induction m as [|m IH]; intros k0 total n d d' Hrun k Hk; [lia|].
  cbn [seq List.map insert_batches] in Hrun.
  rewrite (StorageFacts.offset_batch bs Hbs) in Hrun.
  unfold executemany, commit in Hrun.
  destruct (exec_outcome E k0) eqn:Ee; [discriminate|].
  cbn [committed pending executed] in Hrun.
  destruct (commit_fails E k0) eqn:Ec; [discriminate|].
  destruct (Nat.eq_dec k k0) as [->|Hne]; [split; assumption|].
  apply (IH _ _ _ _ _ Hrun). lia.
Qed.

Lemma insert_all_accepted (E : env) (values_list : list price_row) (d : db) :
  values_list <> [] ->
  (forall k, (k < (List.length values_list + batch_size - 1) / batch_size)%nat ->
             batch_ok E k) ->
  insert_batches E batch_size values_list
    (range_step (List.length values_list) batch_size) 0 d =
  (Ok (List.length values_list),
   {| committed := committed d ++ pending d ++ values_list;
      pending := [];
      executed := executed d ++
        List.map (nth_batch values_list)
          (seq 0 ((List.length values_list + batch_size - 1) / batch_size)) |}).
Proof.
  intros Hne Hok.
  pose proof StorageFacts.batch_size_pos as Hbs.
  pose proof (StorageFacts.range_covers batch_size Hbs (List.length values_list))
    as Hcov.
  set (m := ((List.length values_list + batch_size - 1) / batch_size)%nat) in *.
  assert (Hall : firstn (m * batch_size) (skipn (0 * batch_size) values_list) =
                 values_list).
  { cbn [Nat.mul skipn]. apply firstn_all2. exact Hcov. }
  assert (Hm : (1 <= m)%nat).
  { destruct values_list as [|r l]; [congruence|].
    destruct m as [|m']; [|lia]. cbn [List.length] in Hcov. lia. }
  unfold range_step. fold m.
  rewrite (StorageFacts.insert_batches_ok E batch_size Hbs values_list m 0 0 d)
    by (intros k Hk; apply Hok; lia).
  rewrite Hall. f_equal. unfold after_batches.
  destruct m as [|m']; [lia|]. rewrite Hall. reflexivity.
Qed.

Lemma build_values_length (sid did : Z) (data_list : list pyval) :
  forall acc values_list,
    build_values sid did data_list acc = Ok values_list ->
    List.length values_list = (List.length acc + List.length data_list)%nat.
Proof.
  induction data_list as [|item rest IH]; intros acc values_list.
  - cbn. intros [= <-]. lia.
  - cbn [build_values].
    destruct (values_of sid did item) as [row|]; [|discriminate]. cbn [bind].
    intros Hrest. rewrite (IH _ _ Hrest), List.length_app. cbn. lia.
Qed.

(** X8. [store_stock_data] returns a positive count only when every row
    of [data_list] has been inserted and committed: the count is then
    [len(data_list)], and nothing is left pending. *)
Theorem store_stock_data_positive_return
  (E : env) (symbol : string) (data_list : list pyval) (did : Z) (d : db) (n : nat)
  (Hrun : fst (store_stock_data E symbol data_list did d) = Ok n)
  (Hpos : (0 < n)%nat) :
  n = List.length data_list /\
  exists (sid : Z) (values_list : list price_row),
    symbol_id_of E symbol = Some sid /\
    build_values sid did data_list [] = Ok values_list /\
    committed (snd (store_stock_data E symbol data_list did d)) =
      committed d ++ pending d ++ values_list /\
    pending (snd (store_stock_data E symbol data_list did d)) = [].
Proof.
  pose proof StorageFacts.batch_size_pos as Hbs.
  unfold store_stock_data in *.
  destruct data_list as [|item rest]; [cbn in Hrun; injection Hrun as <-; lia|].
  destruct (symbol_id_of E symbol) as [sid|];
    [|cbn in Hrun; injection Hrun as <-; lia].
  destruct (build_values sid did (item :: rest) []) as [values_list|] eqn:Eb;
    [|discriminate Hrun].
  pose proof (build_values_length sid did _ _ _ Eb) as Hlen.
  cbn [List.length Nat.add] in Hlen.
  assert (Hne : values_list <> []) by (intros ->; discriminate Hlen).
  destruct (insert_batches E batch_size values_list
              (range_step (List.length values_list) batch_size) 0 d)
    as [[total|ex] d'] eqn:Eloop;
    [|cbn in Hrun; injection Hrun as <-; lia].
  unfold range_step in Eloop.
  pose proof (insert_batches_ok_inv E batch_size values_list _ Hbs _ _ _ _ _ Eloop)
    as Hok.
  fold (range_step (List.length values_list) batch_size) in Eloop.
  rewrite (insert_all_accepted E values_list d Hne) in Eloop
    by (intros k Hk; apply Hok; lia).
  injection Eloop as <- <-. cbn [fst snd committed pending] in *.
  injection Hrun as <-. split; [exact Hlen|].
  exists sid, values_list. repeat split. exact Eb.
Qed.

Lemma process_and_store_file_count (E : env) (loaded : result pyval)
  (json_file : string) (did : Z) (d : db) :
  exists n d', process_and_store_file E loaded json_file did d = (Ok n, d').
Proof.
  unfold process_and_store_file.
  destruct (process_json_file loaded json_file) as [[symbol data_list]|] eqn:Efile;
    [|eexists _, _; reflexivity].
  destruct (String.eqb symbol "" || negb (truthy (VList data_list)))%bool;
    [eexists _, _; reflexivity|].
  pose proof (process_json_file_price_items _ _ _ _ Efile) as Hitems.
  unfold store_stock_data.
  destruct data_list as [|item rest]; [eexists _, _; reflexivity|].
  destruct (symbol_id_of E symbol) as [sid|]; [|eexists _, _; reflexivity].
  destruct (StorageFacts.build_values_items sid did _ Hitems [])
    as (values_list & -> & _).
  destruct (insert_batches E batch_size _ _ 0 d) as [[total|ex] d'];
    eexists _, _; reflexivity.
Qed.

(** X9. [process_and_store_file] hands [store_stock_data] only items that
    hold the seven fields it reads: whatever the file holds and whatever
    the server does, no exception leaves the method (the rollback taken as
    succeeding); it returns a count, and a file [process_json_file]
    rejects leaves the connection as it was. *)
Theorem process_and_store_file_returns
  (E : env) (loaded : result pyval) (json_file : string) (did : Z) (d : db) :
  (exists n, fst (process_and_store_file E loaded json_file did d) = Ok n) /\
  (process_json_file loaded json_file = None ->
   process_and_store_file E loaded json_file did d = (Ok 0%nat, d)).
Proof.
  split.
  - destruct (process_and_store_file_count E loaded json_file did d)
      as (n & d' & Hrun).
    exists n. now rewrite Hrun.
  - intros Hnone. unfold process_and_store_file. now rewrite Hnone.
Qed.

Lemma build_values_daily (sid did : Z) (rows : list Daily.row) :
  forall acc,
    build_values sid did (List.map daily_item rows) acc =
      Ok (acc ++ List.map (daily_price_row sid did) rows).
Proof.
  induction rows as [|r rows IH]; intros acc; cbn [List.map build_values].
  - now rewrite app_nil_r.
  - change (values_of sid did (daily_item r)) with (Ok (daily_price_row sid did r)).
    cbn [bind]. rewrite IH, <- app_assoc. reflexivity.
Qed.

(** X10. Read and store compose: for a plain daily file whose entries
    convert, named after a symbol the metadata store knows, and a server
    that accepts every batch, [process_and_store_file] returns the number
    of entries of the file and commits one row per entry, in the order of
    the file, with the symbol's id, the download id and the close as
    adjusted close. *)
Theorem process_and_store_file_stores_file
  (E : env) (d : pydict) (entries : list (string * pyval))
  (rows : list Daily.row) (json_file : string) (sid did : Z) (c : db)
  (Hkey : lookup TIME_SERIES_KEY d = Some (VDict entries))
  (Hplain : is_adjusted (VDict entries) = Ok false)
  (Hconv : Forall2 daily_converts entries rows)
  (Hentries : entries <> [])
  (Hname : split_first (basename json_file) <> "")
  (Hsymbol : symbol_id_of E (split_first (basename json_file)) = Some sid)
  (Haccepted : forall k, batch_ok E k) :
  let run := process_and_store_file E (Ok (VDict d)) json_file did c in
  fst run = Ok (List.length entries) /\
  committed (snd run) =
    committed c ++ pending c ++ List.map (daily_price_row sid did) rows /\
  pending (snd run) = [].
Proof.
  assert (Hfile : process_json_file (Ok (VDict d)) json_file =
                  Some (split_first (basename json_file), List.map daily_item rows)).
  { rewrite (process_body_on_series d entries json_file Hkey), Hplain.
    cbn [bind].
    now rewrite (item_loop_converts false daily_converts daily_item
                   daily_entry_item entries rows Hconv []). }
  assert (Hlen : List.length rows = List.length entries).
  { symmetry. eapply Forall2_length. exact Hconv. }
  apply String.eqb_neq in Hname.
  destruct rows as [|r rows]; [destruct entries; [congruence | discriminate Hlen]|].
  unfold process_and_store_file. rewrite Hfile, Hname.
  cbn [List.map truthy negb orb]. unfold store_stock_data. rewrite Hsymbol.
  change (daily_item r :: List.map daily_item rows)
    with (List.map daily_item (r :: rows)).
  rewrite build_values_daily. cbn [app].
  rewrite (insert_all_accepted E _ c)
    by (try discriminate; intros k _; apply Haccepted).
  cbn [fst snd committed pending].
  rewrite List.length_map, Hlen. repeat split.
Qed.

End Store.

Lemma store_stock_data_positive_return_witness :
  2%nat = List.length Samples.two_items /\
  exists (sid : Z) (values_list : list price_row),
    symbol_id_of Samples.accepting_server "AAPL" = Some sid /\
    build_values sid 7 Samples.two_items [] = Ok values_list /\
    committed (snd (store_stock_data Samples.accepting_server "AAPL"
                      Samples.two_items 7 Samples.empty_db)) =
      committed Samples.empty_db ++ pending Samples.empty_db ++ values_list /\
    pending (snd (store_stock_data Samples.accepting_server "AAPL"
                    Samples.two_items 7 Samples.empty_db)) = [].
Proof.
  exact (store_stock_data_positive_return Samples.accepting_server "AAPL"
           Samples.two_items 7 Samples.empty_db 2 eq_refl ltac:(lia)).
Defined.

Lemma process_and_store_file_stores_file_witness :
  let run := process_and_store_file Samples.accepting_server
               (Ok (VDict MoreSamples.daily_payload_oldest_first))
               "../data/AAPL_20250331_120000.json" 7 Samples.empty_db in
  fst run = Ok 2%nat /\
  committed (snd run) =
    List.map (daily_price_row 1 7) (rev Samples.daily_rows) /\
  pending (snd run) = [].
Proof.
  exact (process_and_store_file_stores_file (B := Decimal.builtins)
           Samples.accepting_server MoreSamples.daily_payload_oldest_first
           [MoreSamples.day_2; MoreSamples.day_3] (rev Samples.daily_rows)
           "../data/AAPL_20250331_120000.json" 1 7 Samples.empty_db
           eq_refl eq_refl sample_days_convert ltac:(discriminate)
           ltac:(discriminate) eq_refl StorageFacts.accepting_server_accepts).
Defined.

(** A file named without a symbol is read but never stored. *)
Example nameless_file_not_stored :
  process_and_store_file Samples.accepting_server
    (Ok (VDict MoreSamples.daily_payload_oldest_first))
    "../data/_20250331_120000.json" 7 Samples.empty_db = (Ok 0%nat, Samples.empty_db).
Proof. reflexivity. Qed.

Section FileNames.

Lemma has_char_app (c : ascii) (a b : string) :
  has_char c (String.append a b) = (has_char c a || has_char c b)%bool.
Proof.
  induction a as [|c' a IH]; [reflexivity|].
  simpl. rewrite IH. now rewrite orb_assoc.
Qed.

Lemma basename_plain (s : string) : has_char "/" s = false -> basename s = s.
Proof.
  destruct s as [|c s]; [reflexivity|]. cbn [has_char basename].
  intros H. apply orb_false_iff in H as [Hc Hs]. rewrite Hs.
  rewrite Ascii.eqb_sym, Hc. reflexivity.
Qed.

Lemma basename_after_slash (a b : string) :
  has_char "/" b = false ->
  basename (String.append a (String "/" b)) = b.
Proof.
  intros Hb. induction a as [|c a IH].
  - simpl. rewrite Hb. reflexivity.
  - change (String.append (String c a) (String "/" b))
      with (String c (String.append a (String "/" b))).
    cbn [basename]. rewrite has_char_app. cbn [has_char].
    rewrite Ascii.eqb_refl, orb_true_r. exact IH.
Qed.

Lemma ends_with_slash_split (a : string) :
  ends_with_slash a = true -> exists a', a = String.append a' "/".
Proof.
  induction a as [|c a IH]; [discriminate|].
  destruct a as [|c' a].
  - cbn. intros H. apply Ascii.eqb_eq in H. subst. now exists "".
  - intros H. change (ends_with_slash (String c' a) = true) in H.
    destruct (IH H) as [a' Ha']. exists (String c a').
    change (String.append (String c a') "/") with (String c (String.append a' "/")).
    now rewrite <- Ha'.
Qed.

Lemma append_assoc (a b c : string) :
  String.append (String.append a b) c = String.append a (String.append b c).
Proof.
  induction a as [|x a IH]; [reflexivity|].
  change (String x (String.append (String.append a b) c) =
          String x (String.append a (String.append b c))).
  now rewrite IH.
Qed.

Lemma basename_join (a b : string) :
  has_char "/" b = false -> basename (path_join a b) = b.
Proof.
  intros Hb. unfold path_join.
  assert (Hprefix : String.prefix "/" b = false).
  { destruct b as [|c b]; [reflexivity|]. cbn [has_char] in Hb.
    apply orb_false_iff in Hb as [Hc _]. cbn [String.prefix].
    destruct (ascii_dec "/" c) as [<-|_]; [|reflexivity].
    now rewrite Ascii.eqb_refl in Hc. }
  rewrite Hprefix.
  destruct (String.eqb a "") eqn:Ea.
  - apply String.eqb_eq in Ea. subst. cbn. now apply basename_plain.
  - cbn [orb]. destruct (ends_with_slash a) eqn:Es.
    + destruct (ends_with_slash_split a Es) as [a' ->].
      rewrite append_assoc.
      change (String.append "/" b) with (String "/"%char b).
      now apply basename_after_slash.
    + change (String.append "/" b) with (String "/"%char b).
      now apply basename_after_slash.
Qed.

Lemma split_first_append (s t : string) :
  split_first (String.append s (String "_" t)) = split_first s.
Proof.
  induction s as [|c s IH]; [reflexivity|].
  change (String.append (String c s) (String "_" t))
    with (String c (String.append s (String "_" t))).
  cbn [split_first]. destruct (Ascii.eqb c "_"); [reflexivity|]. now rewrite IH.
Qed.

Lemma split_first_plain (s : string) :
  split_first s = s <-> has_char "_" s = false.
Proof.
  induction s as [|c s IH]; [split; reflexivity|].
  cbn [split_first has_char]. rewrite (Ascii.eqb_sym "_" c).
  destruct (Ascii.eqb c "_"); cbn [orb].
  - split; discriminate.
  - rewrite <- IH. split; [now intros [= ->] | now intros ->].
Qed.

(** X11. The symbol [process_json_file] reads off a file name is the
    part of the symbol before its first underscore: a file [save_to_json]
    wrote for a symbol (without ['/']) gives the symbol back exactly when
    the symbol holds no underscore, whatever the output directory and the
    time stamp. *)
Theorem saved_file_gives_symbol_back
  (output_dir symbol timestamp : string)
  (Hsymbol : has_char "/" symbol = false)
  (Htimestamp : has_char "/" timestamp = false) :
  let read := split_first (basename (json_filepath output_dir symbol timestamp)) in
  read = split_first symbol /\
  (read = symbol <-> has_char "_" symbol = false).
Proof.
  intros read.
  assert (Hread : read = split_first symbol).
  { unfold read, json_filepath. rewrite basename_join.
    - apply (split_first_append symbol (String.append timestamp ".json")).
    - rewrite has_char_app, Hsymbol.
      change (String.append "_" (String.append timestamp ".json"))
        with (String "_"%char (String.append timestamp ".json")).
      cbn [orb has_char]. rewrite has_char_app, Htimestamp. reflexivity. }
  split; [exact Hread|]. rewrite Hread. apply split_first_plain.
Qed.

End FileNames.

Lemma saved_file_gives_symbol_back_witness :
  split_first (basename (json_filepath "../data" "AAPL" "20250331_120000")) = "AAPL".
Proof.
  exact (proj2 (proj2 (saved_file_gives_symbol_back "../data" "AAPL"
                         "20250331_120000" eq_refl eq_refl)) eq_refl).
Defined.

(** A symbol with an underscore does not survive the round trip. *)
Example underscore_symbol_is_cut :
  split_first (basename (json_filepath "../data" "BRK_B" "20250331_120000")) = "BRK".
Proof. reflexivity. Qed.

End StorageFileFacts.

(* --------------------------------------------------------------------- *)
(** ** Downloads: the record kept, and several symbols in a row *)
(* --------------------------------------------------------------------- *)

Module DownloaderRunFacts.
Import StockDataDownloader DownloaderRuns.

Section One.
Context {B : Builtins}.
Variable E : env.
Variable self : t.

(** Case analysis on what the three attempts do; the third cannot ask for
    another one. *)
Ltac three_attempts :=
  let H := fresh "Hlast" in
  pose proof (DownloaderFacts.retries_not_last E 3) as H;
  cbn; destruct (try_body E 1) eqn:E1; cbn;
  try (destruct (try_body E 2) eqn:E2; cbn);
  try (destruct (try_body E 3) eqn:E3; cbn;
       try (exfalso; specialize (H eq_refl); unfold max_retries in H; lia)).

Lemma retry_loop_outcomes (download_id end_date : Z) :
  let run := retry_loop E self download_id end_date (seq 1 max_retries) 60 fresh in
  (exists data,
     fst run = Some (Some download_id, Some data, true) /\
     status_updates (snd run) = [(download_id, "Completed", Some end_date)] /\
     api_calls (snd run) <> []) \/
  (fst run = Some (Some download_id, None, false) /\
   status_updates (snd run) = [(download_id, "Failed", None)] /\
   List.length (api_calls (snd run)) = 3%nat).
Proof.
  three_attempts;
    solve [ left; eexists; repeat split; discriminate
          | right; repeat split ].
Qed.

(** X12. What [download_symbol_data] returns agrees with the download
    record it leaves: a tuple with data and [True] comes with exactly one
    status update, ['Completed'] with today's date; a tuple with an id, no
    data and [False] comes with exactly one update, ['Failed'], after three
    API calls; a tuple without an id comes with no API call, no sleep and
    no update at all; the method returns nothing else. *)
Theorem download_result_matches_record (symbol_ticker : string) :
  let run := download_symbol_data E self symbol_ticker fresh in
  match fst run with
  | Some (Some download_id, Some data, true) =>
      status_updates (snd run) = [(download_id, "Completed", Some (today E))] /\
      api_calls (snd run) <> []
  | Some (Some download_id, None, false) =>
      status_updates (snd run) = [(download_id, "Failed", None)] /\
      List.length (api_calls (snd run)) = 3%nat
  | Some (None, None, _) => snd run = fresh
  | _ => False
  end.
Proof.
  unfold download_symbol_data.
  destruct (symbol_id_of E symbol_ticker) as [symbol_id|]; [|reflexivity].
  assert (Hloop : forall download_id,
    let run := retry_loop E self download_id (today E) (seq 1 max_retries) 60 fresh in
    match fst run with
    | Some (Some download_id, Some data, true) =>
        status_updates (snd run) = [(download_id, "Completed", Some (today E))] /\
        api_calls (snd run) <> []
    | Some (Some download_id, None, false) =>
        status_updates (snd run) = [(download_id, "Failed", None)] /\
        List.length (api_calls (snd run)) = 3%nat
    | Some (None, None, _) => snd run = fresh
    | _ => False
    end).
  { intros download_id. cbv zeta.
    pose proof (retry_loop_outcomes download_id (today E)) as Hout.
    cbv zeta in Hout.
    destruct Hout as [(data & -> & Hst & Hcalls) | (-> & Hst & Hcalls)];
      split; assumption. }
  destruct (last_end_date E symbol_id) as [last|];
    [destruct (Z.ltb (today E) (last + 1)); [reflexivity|]|];
    (destruct (new_download_id E) as [download_id|]; [|reflexivity];
     destruct (Z.eqb download_id 0); [reflexivity | apply Hloop]).
Qed.

Lemma retry_loop_succeeds_at (download_id end_date : Z) (k : nat) (data : pyval) :
  (1 <= k <= max_retries)%nat ->
  (forall a data', (1 <= a < k)%nat -> try_body E a <> Succeeds data') ->
  try_body E k = Succeeds data ->
  let run := retry_loop E self download_id end_date (seq 1 max_retries) 60 fresh in
  fst run = Some (Some download_id, Some data, true) /\
  List.length (api_calls (snd run)) = k /\
  sleeps (snd run) = List.map backoff (seq 1 (k - 1)) /\
  status_updates (snd run) = [(download_id, "Completed", Some end_date)].
Proof.
  unfold max_retries. intros Hk Hbefore Hat.
  assert (H1 : (2 <= k)%nat -> forall data', try_body E 1 <> Succeeds data')
    by (intros; apply Hbefore; lia).
  assert (H2 : (3 <= k)%nat -> forall data', try_body E 2 <> Succeeds data')
    by (intros; apply Hbefore; lia).
  destruct k as [|[|[|[|k]]]]; try lia; cbn.
  - rewrite Hat. cbn. repeat split.
  - destruct (try_body E 1) eqn:E1; [exfalso; eapply H1; [lia | reflexivity]| |];
      cbn; rewrite Hat; cbn; repeat split.
  - destruct (try_body E 1) eqn:E1; [exfalso; eapply H1; [lia | reflexivity]| |];
      cbn;
      (destruct (try_body E 2) eqn:E2; [exfalso; eapply H2; [lia | reflexivity]| |]);
      cbn; rewrite Hat; cbn; repeat split.
Qed.

(** X13. When the download is due and its record is created, the first
    attempt whose body runs to its end decides the call: if that is
    attempt [k], after [k - 1] attempts that ended in a retry,
    [download_symbol_data] has called the API [k] times, slept 60 * 2^(j-1)
    seconds before the retry [j], marks the record ['Completed'] with
    today's date and returns [(download_id, data, True)]. *)
Theorem download_succeeds_at_attempt
  (symbol_ticker : string) (symbol_id download_id : Z) (k : nat) (data : pyval)
  (Hsymbol : symbol_id_of E symbol_ticker = Some symbol_id)
  (Hdue : forall last, last_end_date E symbol_id = Some last -> last + 1 <= today E)
  (Hrecord : new_download_id E = Some download_id)
  (Hid : download_id <> 0)
  (Hk : (1 <= k <= max_retries)%nat)
  (Hbefore : forall a data', (1 <= a < k)%nat -> try_body E a <> Succeeds data')
  (Hat : try_body E k = Succeeds data) :
  let run := download_symbol_data E self symbol_ticker fresh in
  fst run = Some (Some download_id, Some data, true) /\
  List.length (api_calls (snd run)) = k /\
  sleeps (snd run) = List.map backoff (seq 1 (k - 1)) /\
  status_updates (snd run) = [(download_id, "Completed", Some (today E))].
Proof.
  unfold download_symbol_data. rewrite Hsymbol, Hrecord.
  apply Z.eqb_neq in Hid. rewrite Hid.
  pose proof (retry_loop_succeeds_at download_id (today E) k data Hk Hbefore Hat)
    as Hloop.
  destruct (last_end_date E symbol_id) as [last|] eqn:El; [|exact Hloop].
  specialize (Hdue last eq_refl).
  destruct (Z.ltb (today E) (last + 1)) eqn:Elt; [|exact Hloop].
  apply Z.ltb_lt in Elt. lia.
Qed.

End One.

Lemma download_succeeds_at_attempt_witness :
  let run := download_symbol_data MoreSamples.second_attempt_succeeds
               Samples.downloader "AAPL" fresh in
  fst run = Some (Some 7, Some Samples.daily_payload, true) /\
  List.length (api_calls (snd run)) = 2%nat /\
  sleeps (snd run) = [60] /\
  status_updates (snd run) = [(7, "Completed", Some 19800)].
Proof.
  refine (download_succeeds_at_attempt MoreSamples.second_attempt_succeeds
            Samples.downloader "AAPL" 1 7 2 Samples.daily_payload
            eq_refl _ eq_refl ltac:(discriminate) ltac:(unfold max_retries; lia)
            _ eq_refl).
  - intros last [= <-]. cbn. lia.
  - intros a data' Ha. assert (a = 1%nat) as -> by lia. discriminate.
Defined.

Section Several.
Context {B : Builtins}.

Lemma after_fresh (st : state) : after st fresh = st.
Proof. destruct st. unfold after. cbn. now rewrite !app_nil_r. Qed.

Lemma after_assoc (a b c : state) : after (after a b) c = after a (after b c).
Proof. unfold after. cbn. now rewrite !app_assoc. Qed.

(** A call adds to the record of the calls before it what it does when
    run on its own. *)
Lemma retry_loop_frame (E : env) (self : t) (download_id end_date : Z)
  (attempts : list nat) :
  forall (retry_delay : Z) (st : state),
    retry_loop E self download_id end_date attempts retry_delay st =
    (fst (retry_loop E self download_id end_date attempts retry_delay fresh),
     after st (snd (retry_loop E self download_id end_date attempts retry_delay
                      fresh))).
Proof.
  induction attempts as [|attempt rest IH]; intros retry_delay st.
  - cbn. now rewrite after_fresh.
  - cbn [retry_loop].
    assert (Hnext : forall st',
      retry_loop E self download_id end_date rest (retry_delay * 2)
        (time_sleep retry_delay (call_api self st')) =
      (fst (retry_loop E self download_id end_date rest (retry_delay * 2)
              (time_sleep retry_delay (call_api self fresh))),
       after st' (snd (retry_loop E self download_id end_date rest
                         (retry_delay * 2)
                         (time_sleep retry_delay (call_api self fresh)))))).
    { intros st'. rewrite (IH _ (time_sleep retry_delay (call_api self st'))).
      rewrite (IH _ (time_sleep retry_delay (call_api self fresh))).
      cbn [fst snd]. f_equal. rewrite <- after_assoc. f_equal.
      unfold after, time_sleep, call_api. cbn. now rewrite app_nil_r. }
    destruct (try_body E attempt).
    + cbn [fst snd]. f_equal.
      unfold after, update_download_status, call_api. cbn.
      now rewrite app_nil_r.
    + now rewrite (Hnext st).
    + destruct (attempt <? max_retries)%nat.
      * now rewrite (Hnext st).
      * cbn [fst snd]. f_equal.
        unfold after, update_download_status, call_api. cbn.
        now rewrite app_nil_r.
Qed.

Lemma download_symbol_data_frame (E : env) (self : t) (symbol_ticker : string)
  (st : state) :
  download_symbol_data E self symbol_ticker st =
  (fst (download_symbol_data E self symbol_ticker fresh),
   after st (snd (download_symbol_data E self symbol_ticker fresh))).
Proof.
  unfold download_symbol_data.
  destruct (symbol_id_of E symbol_ticker) as [symbol_id|];
    [|cbn; now rewrite after_fresh].
  destruct (last_end_date E symbol_id) as [last|];
    [destruct (Z.ltb (today E) (last + 1)); [cbn; now rewrite after_fresh|]|];
    (destruct (new_download_id E) as [download_id|];
       [|cbn; now rewrite after_fresh];
     destruct (Z.eqb download_id 0); [cbn; now rewrite after_fresh|];
     apply retry_loop_frame).
Qed.

(** The tuple of a call can always be unpacked, and is the one the call
    returns when run on its own. *)
Lemma download_unpacks (E : env) (self : t) (symbol_ticker : string) (st : state) :
  exists download_id data success,
    unpack (fst (download_symbol_data E self symbol_ticker st)) =
      Ok (download_id, data, success) /\
    entry_of (fst (download_symbol_data E self symbol_ticker fresh)) =
      Some (download_id, success).
Proof.
  rewrite download_symbol_data_frame. cbn [fst].
  destruct (DownloaderFacts.download_bounded E self symbol_ticker)
    as ([[[download_id data] success] ->] & _).
  now exists download_id, data, success.
Qed.

Lemma last_in (l : list string) (d : string) : l <> [] -> In (List.last l d) l.
Proof.
  induction l as [|a [|b l] IH]; intros Hne; [congruence | now left |].
  right. apply IH. discriminate.
Qed.

Lemma specific_loop_run (envs : nat -> env) (self : t) (last : string)
  (several : bool) (symbols : list string) :
  forall (i : nat) (results : gmap string entry) (st : state),
    List.NoDup symbols ->
    (symbols <> [] -> List.last symbols "" = last) ->
    (several = false -> (List.length symbols <= 1)%nat) ->
    exists results' st',
      specific_loop envs self last several i symbols results st =
        (Ok results', st') /\
      sleeps st' = sleeps st ++ pauses_between (own_sleeps envs self i symbols) /\
      (forall j ticker, nth_error symbols j = Some ticker ->
         results' !! ticker =
           entry_of (fst (download_symbol_data (envs (i + j)%nat) self ticker fresh))) /\
      (forall ticker, ~ In ticker symbols -> results' !! ticker = results !! ticker).
Proof.
  induction symbols as [|a rest IH]; intros i results st Hnodup Hlast Hone.
  - exists results, st. split; [reflexivity|]. split; [cbn; now rewrite app_nil_r|].
    split; [intros [|j] ticker; discriminate | reflexivity].
  - apply List.NoDup_cons_iff in Hnodup as [Ha Hnodup].
    cbn [specific_loop].
    destruct (download_unpacks (envs i) self a st)
      as (download_id & data & success & Hunpack & Hentry).
    rewrite download_symbol_data_frame in Hunpack |- *. cbn [fst] in Hunpack.
    rewrite Hunpack.
    set (own := snd (download_symbol_data (envs i) self a fresh)) in *.
    assert (Hpause : (several && negb (String.eqb a last))%bool =
                     match rest with [] => false | _ => true end).
    { destruct rest as [|b rest'].
      - rewrite <- (Hlast ltac:(discriminate)). cbn. rewrite String.eqb_refl.
        now rewrite andb_false_r.
      - destruct several; [|specialize (Hone eq_refl); cbn in Hone; lia].
        cbn [andb]. destruct (String.eqb a last) eqn:Ea; [|reflexivity].
        apply String.eqb_eq in Ea. exfalso. apply Ha. rewrite Ea.
        rewrite <- (Hlast ltac:(discriminate)).
        change (List.last (a :: b :: rest') "") with (List.last (b :: rest') "").
        apply last_in. discriminate. }
    rewrite Hpause.
    match goal with
    | |- context [specific_loop envs self last several (S i) rest ?r1 ?s2] =>
        destruct (IH (S i) r1 s2 Hnodup) as (results' & st' & Hrun & Hsl & Hin & Hout)
    end.
    { intros Hne. rewrite <- (Hlast ltac:(discriminate)).
      destruct rest; [congruence | reflexivity]. }
    { intros Hs. specialize (Hone Hs). cbn in Hone. lia. }
    exists results', st'. split; [exact Hrun|]. split; [|split].
    + rewrite Hsl. cbn [own_sleeps]. fold own.
      destruct rest as [|b rest'].
      * cbn. now rewrite !app_nil_r.
      * cbn [time_sleep sleeps after pauses_between own_sleeps].
        rewrite <- !app_assoc. reflexivity.
    + intros [|j] ticker.
      * intros [= <-]. rewrite (Hout a Ha), lookup_insert_eq, Nat.add_0_r.
        now rewrite Hentry.
      * cbn [nth_error]. intros Hj. rewrite (Hin j ticker Hj).
        now replace (S i + j)%nat with (i + S j)%nat by lia.
    + intros ticker Hnot. rewrite Hout by (intros Hr; apply Hnot; now right).
      apply lookup_insert_ne. intros ->. apply Hnot. now left.
Qed.

(** X14. [download_specific_symbols], given tickers without repetition,
    downloads each of them once, in order, sleeps 15 seconds between two
    downloads and not after the last, beside the sleeps of the downloads
    themselves, and returns for every ticker the id and the success flag
    its own download returned. *)
Theorem download_specific_symbols_pauses
  (envs : nat -> env) (self : t) (symbols : list string) (st : state)
  (Hdistinct : List.NoDup symbols) :
  exists results,
    fst (download_specific_symbols envs self symbols st) = Ok results /\
    sleeps (snd (download_specific_symbols envs self symbols st)) =
      sleeps st ++ pauses_between (own_sleeps envs self 0 symbols) /\
    (forall j ticker, nth_error symbols j = Some ticker ->
       results !! ticker =
         entry_of (fst (download_symbol_data (envs j) self ticker fresh))).
Proof.
  unfold download_specific_symbols.
  destruct symbols as [|a rest] eqn:Es.
  - exists ∅. split; [reflexivity|]. split; [cbn; now rewrite app_nil_r|].
    intros [|j] ticker; discriminate.
  - rewrite <- Es in *.
    destruct (specific_loop_run envs self (List.last symbols "")
                (1 <? List.length symbols)%nat symbols 0 ∅ st Hdistinct)
      as (results & st' & Hrun & Hsl & Hin & _).
    + reflexivity.
    + intros Hs. apply Nat.ltb_ge in Hs. exact Hs.
    + exists results. rewrite Hrun. split; [reflexivity|]. split; [exact Hsl|].
      exact Hin.
Qed.

Lemma pending_loop_run (envs : nat -> env) (self : t) (several : bool)
  (symbols : list string) :
  forall (i : nat) (results : gmap string entry) (st : state),
    exists results' st',
      pending_loop envs self several i symbols results st = (Ok results', st') /\
      sleeps st' =
        sleeps st ++ (if several then pauses_after (own_sleeps envs self i symbols)
                      else concat (own_sleeps envs self i symbols)).
Proof.
  induction symbols as [|a rest IH]; intros i results st.
  - exists results, st. split; [reflexivity|]. destruct several; cbn;
      now rewrite app_nil_r.
  - cbn [pending_loop].
    destruct (download_unpacks (envs i) self a st)
      as (download_id & data & success & Hunpack & _).
    rewrite download_symbol_data_frame in Hunpack |- *. cbn [fst] in Hunpack.
    rewrite Hunpack.
    match goal with
    | |- context [pending_loop envs self several (S i) rest ?r1 ?s2] =>
        destruct (IH (S i) r1 s2) as (results' & st' & Hrun & Hsl)
    end.
    exists results', st'. split; [exact Hrun|]. rewrite Hsl.
    destruct several; cbn [time_sleep sleeps after pauses_after own_sleeps concat];
      rewrite <- !app_assoc; reflexivity.
Qed.

(** X15. [download_all_pending_symbols] downloads every pending symbol in
    order and, when there is more than one, sleeps 15 seconds after every
    download, the last one included; with one symbol it adds no sleep. *)
Theorem download_all_pending_symbols_pauses
  (envs : nat -> env) (self : t) (symbols_to_download : list string) (st : state) :
  exists results,
    fst (download_all_pending_symbols envs self symbols_to_download st) =
      Ok results /\
    sleeps (snd (download_all_pending_symbols envs self symbols_to_download st)) =
      sleeps st ++
      (if (1 <? List.length symbols_to_download)%nat
       then pauses_after (own_sleeps envs self 0 symbols_to_download)
       else concat (own_sleeps envs self 0 symbols_to_download)).
Proof.
  unfold download_all_pending_symbols.
  destruct symbols_to_download as [|a rest] eqn:Es.
  - exists ∅. split; [reflexivity|]. cbn. now rewrite app_nil_r.
  - rewrite <- Es.
    destruct (pending_loop_run envs self (1 <? List.length symbols_to_download)%nat
                symbols_to_download 0 ∅ st) as (results & st' & Hrun & Hsl).
    exists results. rewrite Hrun. split; [reflexivity | exact Hsl].
Qed.

End Several.

Lemma download_specific_symbols_pauses_witness :
  exists results,
    fst (download_specific_symbols (fun _ => Samples.failing_downloads)
           Samples.downloader ["AAPL"; "MSFT"] fresh) = Ok results /\
    sleeps (snd (download_specific_symbols (fun _ => Samples.failing_downloads)
                   Samples.downloader ["AAPL"; "MSFT"] fresh)) =
      sleeps fresh ++
      pauses_between (own_sleeps (fun _ => Samples.failing_downloads)
                        Samples.downloader 0 ["AAPL"; "MSFT"]) /\
    (forall j ticker, nth_error ["AAPL"; "MSFT"] j = Some ticker ->
       results !! ticker =
         entry_of (fst (download_symbol_data Samples.failing_downloads
                          Samples.downloader ticker fresh))).
Proof.
  apply (download_specific_symbols_pauses (fun _ => Samples.failing_downloads)
           Samples.downloader ["AAPL"; "MSFT"] fresh).
  repeat constructor; cbn; intuition discriminate.
Defined.

(** Two symbols, the first failing three times, the second unknown: the
    backoff of the first download, then one pause. *)
Example two_symbols_one_pause :
  sleeps (snd (download_specific_symbols (fun _ => Samples.failing_downloads)
                 Samples.downloader ["AAPL"; "MSFT"] fresh)) = [60; 120; 15].
Proof. reflexivity. Qed.

(** The same two symbols as pending symbols: a pause after each. *)
Example two_pending_symbols_two_pauses :
  sleeps (snd (download_all_pending_symbols (fun _ => Samples.failing_downloads)
                 Samples.downloader ["AAPL"; "MSFT"] fresh)) = [60; 120; 15; 15].
Proof. reflexivity. Qed.

(** A ticker that is also the last of the list gets no pause after it,
    wherever it stands. *)
Example repeated_last_ticker_no_pause :
  sleeps (snd (download_specific_symbols (fun _ => Samples.failing_downloads)
                 Samples.downloader ["MSFT"; "AAPL"; "MSFT"] fresh)) = [60; 120; 15].
Proof. reflexivity. Qed.

End DownloaderRunFacts.

(* --------------------------------------------------------------------- *)
(** ** The download form: what a request can change *)
(* --------------------------------------------------------------------- *)

Module WebAppRequestFacts.
Import WebApp.

Section Request.
Context {B : Builtins}.
Variable E : env.

Lemma rows_of_app (sid : Z) (a b : list params) :
  rows_of sid (a ++ b) = rows_of sid a ++ rows_of sid b.
Proof. unfold rows_of. apply List.filter_app. Qed.

Lemma rows_of_others (sid sid' : Z) (rows : list params) :
  sid <> sid' ->
  rows_of sid' (List.filter (fun r => negb (Z.eqb (symbol_id r) sid)) rows) =
  rows_of sid' rows.
Proof.
  intros Hne. unfold rows_of. induction rows as [|r rows IH]; [reflexivity|].
  cbn [List.filter]. destruct (Z.eqb (symbol_id r) sid) eqn:Er; cbn [negb].
  - apply Z.eqb_eq in Er.
    destruct (Z.eqb (symbol_id r) sid') eqn:Er'; [|exact IH].
    apply Z.eqb_eq in Er'. congruence.
  - cbn [List.filter]. now rewrite IH.
Qed.

(** The inserts of a request add rows of the form's symbol only. *)
Lemma insert_rows_others (sid_text : string) (sid' : Z) (rows : list pydict) :
  py_int (VStr sid_text) <> Ok sid' ->
  forall c,
    rows_of sid' (working (snd (insert_rows E sid_text rows c))) =
    rows_of sid' (working c).
Proof.
  intros Hne. induction rows as [|row rows IH]; intros c; [reflexivity|].
  cbn [insert_rows]. unfold params_of at 1.
  destruct (py_int (VStr sid_text)) as [sid|] eqn:Es; [|reflexivity].
  cbn [bind]. unfold execute_insert.
  destruct (insert_accepted E _); [|reflexivity].
  rewrite IH. cbn [working]. rewrite rows_of_app. unfold rows_of at 2.
  cbn [List.filter symbol_id].
  destruct (Z.eqb sid sid') eqn:Ee; [|now rewrite app_nil_r].
  apply Z.eqb_eq in Ee. congruence.
Qed.

Lemma delete_and_insert_others (sid sid' : Z) (sid_text : string)
  (rows : list pydict) (c : conn) :
  sid <> sid' ->
  py_int (VStr sid_text) <> Ok sid' ->
  rows_of sid' (working (snd (delete_and_insert E sid sid_text rows c))) =
  rows_of sid' (working c).
Proof.
  intros Hsid Hint. unfold delete_and_insert, execute_delete.
  destruct (delete_accepted E); [|reflexivity].
  rewrite (insert_rows_others sid_text sid' rows Hint). cbn [working].
  now apply rows_of_others.
Qed.

(** X16. A request for one symbol never touches the stored rows of
    another: whatever the form holds and whatever the server, the download
    and the inserts do, the rows of every symbol other than the one the
    form names are after [descargar] what they were before. *)
Theorem descargar_keeps_other_symbols (f : form) (c : conn) (other : Z)
  (Hother : forall sid_text, form_symbol_id f = Some sid_text ->
              sql_int E sid_text <> Some other /\
              py_int (VStr sid_text) <> Ok other) :
  rows_of other (stored (snd (descargar E f c))) = rows_of other (stored c).
Proof.
  unfold descargar.
  destruct (form_symbol_id f) as [sid_text|]; [|reflexivity].
  destruct (Hother sid_text eq_refl) as [Hsql Hint]. cbn [nonempty].
  destruct (String.eqb sid_text ""); [reflexivity|].
  destruct (nonempty (form_fecha_inicio f)) as [fecha_inicio_str|]; [|reflexivity].
  destruct (nonempty (form_fecha_fin f)) as [fecha_fin_str|]; [|reflexivity].
  destruct (strptime E fecha_inicio_str) as [fecha_inicio|]; [|reflexivity].
  destruct (strptime E fecha_fin_str) as [fecha_fin|]; [|reflexivity].
  destruct (String.ltb fecha_fin fecha_inicio); [reflexivity|].
  destruct (connect E); [|reflexivity].
  destruct (sql_int E sid_text) as [sid|]; [|reflexivity].
  destruct (symbol_of E sid) as [symbol|]; [|reflexivity].
  destruct (descargar_datos_yahoo E symbol fecha_inicio fecha_fin)
    as [[[|row rows]|]|]; try reflexivity.
  destruct (WebAppFacts.transaction_always_commits E sid sid_text (row :: rows) c)
    as [message ->].
  cbn [fst snd commit stored].
  rewrite (delete_and_insert_others sid other sid_text (row :: rows) (begin_ c));
    [reflexivity | congruence | exact Hint].
Qed.

(** The statements of the transaction leave the stored rows alone. *)
Lemma insert_rows_stored (sid_text : string) (rows : list pydict) :
  forall c, stored (snd (insert_rows E sid_text rows c)) = stored c.
Proof.
  induction rows as [|row rows IH]; intros c; [reflexivity|].
  cbn [insert_rows]. destruct (params_of sid_text row) as [p|]; [|reflexivity].
  unfold execute_insert. destruct (insert_accepted E p); [|reflexivity].
  now rewrite IH.
Qed.

Lemma delete_and_insert_stored (sid : Z) (sid_text : string)
  (rows : list pydict) (c : conn) :
  stored (snd (delete_and_insert E sid sid_text rows (begin_ c))) = stored c.
Proof.
  unfold delete_and_insert, execute_delete.
  destruct (delete_accepted E); [|reflexivity].
  now rewrite insert_rows_stored.
Qed.

(** X17. A request is answered with one message, or with two: the
    second one is the message of the outer handler, and it comes only when
    the COMMIT of the transaction or the closing of a connection failed
    after the first had been flashed inside the block, so that a request
    can report [Inserted] and an unexpected error at once.  When nothing
    fails on leaving a block the request is [WebApp.descargar] and
    reports once.  Only a request whose first message is [Inserted] or
    [SaveError] can have changed anything, and when the COMMIT failed the
    stored rows are what they were. *)
Theorem descargar_reports_once_or_twice
  (X : WebAppExits.exits) (f : form) (c : conn) :
  let run := WebAppExits.descargar E X f c in
  (exists message,
     (fst run = [message] \/
      (exists ex, fst run = [message; Unexpected ex]) /\ ~ WebAppExits.clean X) /\
     ((forall n, message <> Inserted n) ->
      (forall ex, message <> SaveError ex) ->
      snd run = c)) /\
  (WebAppExits.clean X ->
   run = descargar E f c /\ exists message, fst run = [message]) /\
  (WebAppExits.commit_accepted X = false -> stored (snd run) = stored c).
Proof.
  cbv zeta. unfold WebAppExits.descargar, descargar, WebAppExits.clean.
  assert (Hone : forall (message : flash) (c' : conn),
            (forall n, message <> Inserted n) ->
            (forall ex, message <> SaveError ex) ->
            c' = c ->
            (exists message0,
               (fst ([message], c') = [message0] \/
                (exists ex, fst ([message], c') = [message0; Unexpected ex]) /\
                ~ (WebAppExits.commit_accepted X = true /\
                   WebAppExits.lookup_close_accepted X = true /\
                   WebAppExits.transaction_close_accepted X = true)) /\
               ((forall n, message0 <> Inserted n) ->
                (forall ex, message0 <> SaveError ex) ->
                snd ([message], c') = c))).
  { intros message c' _ _ ->. exists message. split; [now left | reflexivity]. }
  destruct (nonempty (form_symbol_id f)) as [sid_text|];
    [|split; [apply Hone; [discriminate ..|reflexivity]|
      split; [intros _; split; [reflexivity|eexists; reflexivity]|reflexivity]]].
  destruct (nonempty (form_fecha_inicio f)) as [fecha_inicio_str|];
    [|split; [apply Hone; [discriminate ..|reflexivity]|
      split; [intros _; split; [reflexivity|eexists; reflexivity]|reflexivity]]].
  destruct (nonempty (form_fecha_fin f)) as [fecha_fin_str|];
    [|split; [apply Hone; [discriminate ..|reflexivity]|
      split; [intros _; split; [reflexivity|eexists; reflexivity]|reflexivity]]].
  destruct (strptime E fecha_inicio_str) as [fecha_inicio|];
    [|split; [apply Hone; [discriminate ..|reflexivity]|
      split; [intros _; split; [reflexivity|eexists; reflexivity]|reflexivity]]].
  destruct (strptime E fecha_fin_str) as [fecha_fin|];
    [|split; [apply Hone; [discriminate ..|reflexivity]|
      split; [intros _; split; [reflexivity|eexists; reflexivity]|reflexivity]]].
  destruct (String.ltb fecha_fin fecha_inicio);
    [split; [apply Hone; [discriminate ..|reflexivity]|
      split; [intros _; split; [reflexivity|eexists; reflexivity]|reflexivity]]|].
  destruct (connect E);
    [|split; [apply Hone; [discriminate ..|reflexivity]|
      split; [intros _; split; [reflexivity|eexists; reflexivity]|reflexivity]]].
  destruct (sql_int E sid_text) as [sid|];
    [|split; [apply Hone; [discriminate ..|reflexivity]|
      split; [intros _; split; [reflexivity|eexists; reflexivity]|reflexivity]]].
  destruct (symbol_of E sid) as [symbol|].
  2:{ destruct (WebAppExits.lookup_close_accepted X) eqn:Eclose.
      - split; [apply Hone; [discriminate ..|reflexivity]|
          split; [intros _; split; [reflexivity|eexists; reflexivity]|reflexivity]].
      - split; [|split; [intros (_ & Hc & _); discriminate|reflexivity]].
        exists SymbolNotFound. split; [|reflexivity].
        right. split; [eexists; reflexivity|]. intros (_ & Hc & _). discriminate. }
  destruct (WebAppExits.lookup_close_accepted X) eqn:Eclose; cbn [negb].
  2:{ split; [apply Hone; [discriminate ..|reflexivity]|
        split; [intros (_ & Hc & _); discriminate|reflexivity]]. }
  destruct (descargar_datos_yahoo E symbol fecha_inicio fecha_fin)
    as [[[|row rows]|]|];
    try (split; [apply Hone; [discriminate ..|reflexivity]|
      split; [intros _; split; [reflexivity|eexists; reflexivity]|reflexivity]]).
  unfold WebAppExits.transaction, with_begin, transaction_body.
  destruct (delete_and_insert E sid sid_text (row :: rows) (begin_ c))
    as [[u|ex] c1] eqn:Ebody.
  - destruct (WebAppExits.commit_accepted X) eqn:Ecommit; cbn [negb].
    + destruct (WebAppExits.transaction_close_accepted X) eqn:Etc; cbn [negb].
      * split; [|split; [intros _; split; [reflexivity|eexists; reflexivity]
                        |discriminate]].
        eexists. split; [now left|]. intros Hins _.
        now destruct (Hins (List.length (row :: rows))).
      * split; [|split; [intros (_ & _ & Hc); discriminate|discriminate]].
        eexists. split.
        -- right. split; [eexists; reflexivity|].
           intros (_ & _ & Hc). discriminate.
        -- intros Hins _. now destruct (Hins (List.length (row :: rows))).
    + split; [|split; [intros (Hc & _); discriminate|]].
      * eexists. split.
        -- right. split; [eexists; reflexivity|]. intros (Hc & _). discriminate.
        -- intros Hins _. now destruct (Hins (List.length (row :: rows))).
      * intros _. cbn [snd rollback stored].
        pose proof (f_equal (fun r => stored (snd r)) Ebody) as Hst.
        cbn [snd] in Hst. rewrite <- Hst. apply delete_and_insert_stored.
  - destruct (WebAppExits.commit_accepted X) eqn:Ecommit; cbn [negb].
    + destruct (WebAppExits.transaction_close_accepted X) eqn:Etc; cbn [negb].
      * split; [|split; [intros _; split; [reflexivity|eexists; reflexivity]
                        |discriminate]].
        eexists. split; [now left|]. intros _ Hsave. now destruct (Hsave ex).
      * split; [|split; [intros (_ & _ & Hc); discriminate|discriminate]].
        eexists. split.
        -- right. split; [eexists; reflexivity|].
           intros (_ & _ & Hc). discriminate.
        -- intros _ Hsave. now destruct (Hsave ex).
    + split; [|split; [intros (Hc & _); discriminate|]].
      * eexists. split.
        -- right. split; [eexists; reflexivity|]. intros (Hc & _). discriminate.
        -- intros _ Hsave. now destruct (Hsave ex).
      * intros _. cbn [snd rollback stored].
        pose proof (f_equal (fun r => stored (snd r)) Ebody) as Hst.
        cbn [snd] in Hst. rewrite <- Hst. apply delete_and_insert_stored.
Qed.

Lemma rows_of_same (sid : Z) (sid_text : string) (rows : list pydict)
  (ps : list params) :
  Forall2 (fun row p => params_of sid_text row = Ok p) rows ps ->
  py_int (VStr sid_text) = Ok sid ->
  rows_of sid ps = ps.
Proof.
  intros Hps Hsid. unfold rows_of.
  induction Hps as [|row p rows ps Hp _ IH]; [reflexivity|].
  unfold params_of in Hp. rewrite Hsid in Hp. cbn [bind] in Hp.
  injection Hp as <-. cbn [List.filter symbol_id]. rewrite Z.eqb_refl.
  now rewrite IH.
Qed.

Lemma rows_of_deleted (sid : Z) (rows : list params) :
  rows_of sid (List.filter (fun r => negb (Z.eqb (symbol_id r) sid)) rows) = [].
Proof.
  unfold rows_of. induction rows as [|r rows IH]; [reflexivity|].
  cbn [List.filter]. destruct (Z.eqb (symbol_id r) sid) eqn:Er; cbn [negb];
    [exact IH|]. cbn [List.filter]. now rewrite Er.
Qed.

(** X18. A request that goes through replaces the rows of its symbol:
    with the three fields filled in, dates that parse and are in order, a
    connection, a symbol id the server and [int()] read alike, a known
    symbol, a download that is not empty and a server that accepts the
    delete and every insert, [descargar] reports [Inserted] with the
    number of downloaded records, and the stored rows of the symbol are
    then exactly one row per record, in the order of the download. *)
Theorem descargar_replaces_rows
  (f : form) (c : conn) (sid_text fecha_inicio_str fecha_fin_str : string)
  (fecha_inicio fecha_fin symbol : string) (sid : Z) (rows : list pydict)
  (Hid : nonempty (form_symbol_id f) = Some sid_text)
  (Hinicio : nonempty (form_fecha_inicio f) = Some fecha_inicio_str)
  (Hfin : nonempty (form_fecha_fin f) = Some fecha_fin_str)
  (Hparse1 : strptime E fecha_inicio_str = Some fecha_inicio)
  (Hparse2 : strptime E fecha_fin_str = Some fecha_fin)
  (Horder : String.ltb fecha_fin fecha_inicio = false)
  (Hconnect : connect E = Ok tt)
  (Hsql : sql_int E sid_text = Some sid)
  (Hint : py_int (VStr sid_text) = Ok sid)
  (Hsymbol : symbol_of E sid = Some symbol)
  (Hdata : descargar_datos_yahoo E symbol fecha_inicio fecha_fin = Ok (Some rows))
  (Hrows : rows <> [])
  (Hdelete : delete_accepted E = true)
  (Hinsert : forall p, insert_accepted E p = true) :
  fst (descargar E f c) = [Inserted (List.length rows)] /\
  exists ps,
    Forall2 (fun row p => params_of sid_text row = Ok p) rows ps /\
    rows_of sid (stored (snd (descargar E f c))) = ps /\
    List.length ps = List.length rows.
Proof.
  unfold descargar.
  rewrite Hid, Hinicio, Hfin, Hparse1, Hparse2, Horder, Hconnect, Hsql, Hsymbol,
    Hdata.
  destruct rows as [|row rows']; [congruence|].
  destruct (WebAppFacts.transaction_replaces_rows E sid sid_text (row :: rows') c
              Hint Hdelete Hinsert) as (ps & Hps & ->).
  cbn [fst snd commit stored working]. split; [reflexivity|].
  exists ps. split; [exact Hps|]. split.
  - rewrite rows_of_app, rows_of_deleted.
    apply (rows_of_same sid sid_text (row :: rows') ps Hps Hint).
  - symmetry. eapply Forall2_length. exact Hps.
Qed.

End Request.

Lemma descargar_keeps_other_symbols_witness :
  rows_of 2 (stored (snd (descargar Samples.web_env Samples.valid_form
                            Samples.price_table))) =
  rows_of 2 (stored Samples.price_table).
Proof.
  apply (descargar_keeps_other_symbols Samples.web_env Samples.valid_form
           Samples.price_table 2).
  intros sid_text [= <-]. split; discriminate.
Defined.

Lemma descargar_replaces_rows_witness :
  fst (descargar MoreSamples.accepting_web_env Samples.valid_form
         Samples.price_table) = [Inserted (List.length Samples.yahoo_records)] /\
  exists ps,
    Forall2 (fun row p => params_of "1" row = Ok p) Samples.yahoo_records ps /\
    rows_of 1 (stored (snd (descargar MoreSamples.accepting_web_env
                              Samples.valid_form Samples.price_table))) = ps /\
    List.length ps = List.length Samples.yahoo_records.
Proof.
  apply (descargar_replaces_rows MoreSamples.accepting_web_env Samples.valid_form
           Samples.price_table "1" "2024-01-01" "2024-01-31"
           "2024-01-01" "2024-01-31" "AAPL" 1 Samples.yahoo_records);
    try reflexivity; try discriminate.
Defined.

End WebAppRequestFacts.

(* --------------------------------------------------------------------- *)
(** ** Observers of a subject *)
(* --------------------------------------------------------------------- *)

Module SubjectFacts.
Import Subject.

Lemma registered_in (observer : nat) (self : t) :
  registered observer self = true <-> In observer (_observers self).
Proof.
  unfold registered. rewrite existsb_exists. split.
  - intros (x & Hx & Heq). apply Nat.eqb_eq in Heq. now subst.
  - intros Hin. exists observer. split; [exact Hin | apply Nat.eqb_refl].
Qed.

Lemma list_remove_in (x y : nat) (l : list nat) :
  In y (list_remove x l) -> In y l.
Proof.
  induction l as [|z l IH]; [easy|]. cbn [list_remove].
  destruct (Nat.eqb x z); [now right|]. intros [->|Hin]; [now left|].
  right. now apply IH.
Qed.

Lemma list_remove_nodup (x : nat) (l : list nat) :
  List.NoDup l -> List.NoDup (list_remove x l) /\ ~ In x (list_remove x l).
Proof.
  induction 1 as [|z l Hz Hl IH]; [split; [constructor | easy]|].
  cbn [list_remove]. destruct (Nat.eqb x z) eqn:Exz.
  - apply Nat.eqb_eq in Exz. subst. split; assumption.
  - apply Nat.eqb_neq in Exz. destruct IH as [IHn IHx]. split.
    + constructor; [|exact IHn]. intros Hin. apply Hz.
      eapply list_remove_in. exact Hin.
    + intros [Heq|Hin]; [congruence | contradiction].
Qed.

Lemma attach_nodup (observer : nat) (self : t) :
  List.NoDup (_observers self) -> List.NoDup (_observers (attach observer self)).
Proof.
  intros Hn. unfold attach.
  destruct (registered observer self) eqn:Er; cbn [negb]; [exact Hn|].
  cbn [_observers]. apply List.NoDup_app; [exact Hn | repeat constructor; easy |].
  intros x Hx [<-|[]]. apply registered_in in Hx. congruence.
Qed.

Lemma detach_nodup (observer : nat) (self : t) :
  List.NoDup (_observers self) -> List.NoDup (_observers (detach observer self)).
Proof.
  intros Hn. unfold detach. destruct (registered observer self); [|exact Hn].
  cbn [_observers]. now apply list_remove_nodup.
Qed.

(** Whatever was attached and detached, no observer is registered
    twice. *)
Lemma after_calls_nodup (calls : list call) :
  List.NoDup (_observers (after_calls calls)).
Proof.
  unfold after_calls.
  assert (Hgen : forall s, List.NoDup (_observers s) ->
                 List.NoDup (_observers (List.fold_left step calls s))).
  { induction calls as [|c calls IH]; intros s Hs; [exact Hs|].
    cbn [List.fold_left]. apply IH.
    destruct c; [now apply attach_nodup | now apply detach_nodup]. }
  apply Hgen. constructor.
Qed.

Lemma notify_loop_called (update : nat -> result unit) (observers : list nat) :
  forall called,
    exists k,
      snd (notify_loop update observers called) = called ++ firstn k observers /\
      ((forall x, In x observers -> exists u, update x = Ok u) ->
       notify_loop update observers called = (Ok tt, called ++ observers)).
Proof.
  induction observers as [|o rest IH]; intros called.
  - exists 0%nat. split; [cbn; now rewrite app_nil_r|].
    intros _. cbn. now rewrite app_nil_r.
  - cbn [notify_loop]. destruct (update o) as [u|ex] eqn:Eo.
    + destruct (IH (called ++ [o])) as (k & Hk & Hall). exists (S k). split.
      * rewrite Hk, <- app_assoc. reflexivity.
      * intros Hok. rewrite Hall, <- app_assoc; [reflexivity|].
        intros x Hx. apply Hok. now right.
    + exists 1%nat. split; [reflexivity|].
      intros Hok. destruct (Hok o (or_introl eq_refl)) as [u Hu]. congruence.
Qed.

Lemma firstn_in (k : nat) (l : list nat) (x : nat) :
  In x (firstn k l) -> In x l.
Proof.
  revert l. induction k as [|k IH]; intros [|y l]; cbn; try easy.
  intros [->|Hin]; [now left | right; now apply IH].
Qed.

Lemma firstn_nodup (k : nat) (l : list nat) :
  List.NoDup l -> List.NoDup (firstn k l).
Proof.
  revert l. induction k as [|k IH]; intros l Hl; [constructor|].
  destruct l as [|y l]; [constructor|]. cbn [firstn].
  apply List.NoDup_cons_iff in Hl as [Hy Hl]. constructor; [|now apply IH].
  intros Hin. apply Hy. eapply firstn_in. exact Hin.
Qed.

(** X19. However a subject has been used, [notify] calls no observer
    twice; an observer that has been detached is not called, even if it
    had been attached several times; and an observer just attached is
    called, exactly once, when no observer raises. *)
Theorem notify_calls_each_observer_once
  (calls : list call) (update : nat -> result unit) (observer : nat) :
  let self := after_calls calls in
  List.NoDup (snd (notify update self)) /\
  ~ In observer (snd (notify update (detach observer self))) /\
  ((forall x, exists u, update x = Ok u) ->
   count_occ Nat.eq_dec (snd (notify update (attach observer self))) observer = 1%nat).
Proof.
  intros self. pose proof (after_calls_nodup calls) as Hn. fold self in Hn.
  split; [|split].
  - unfold notify.
    destruct (notify_loop_called update (_observers self) []) as (k & -> & _).
    cbn [app]. now apply firstn_nodup.
  - unfold notify.
    destruct (notify_loop_called update (_observers (detach observer self)) [])
      as (k & -> & _).
    cbn [app]. intros Hin. apply firstn_in in Hin. revert Hin.
    unfold detach. destruct (registered observer self) eqn:Er.
    + cbn [_observers]. now apply list_remove_nodup.
    + intros Hin. apply registered_in in Hin. congruence.
  - intros Hok. unfold notify.
    destruct (notify_loop_called update (_observers (attach observer self)) [])
      as (k & _ & Hall).
    rewrite Hall by (intros x _; apply Hok). cbn [snd app].
    apply (proj1 (List.NoDup_count_occ' Nat.eq_dec _)); [now apply attach_nodup|].
    unfold attach. destruct (registered observer self) eqn:Er; cbn [negb].
    + now apply registered_in.
    + cbn [_observers]. apply in_or_app. right. now left.
Qed.

End SubjectFacts.

(* --------------------------------------------------------------------- *)
(** ** The configuration kept by the singleton *)
(* --------------------------------------------------------------------- *)

Module ConfigManagerFacts.
Import Singleton ConfigManagerMethods.

(** X20. A value set on the configuration manager stays: after
    [ConfigManager().set(key, value)], every later [ConfigManager()],
    whatever the environment holds by then, hands back the same object
    without loading the environment again, [get(key)] gives [value]
    whatever the default, and the other keys read as before. *)
Theorem config_set_persists
  (getenv getenv' : string -> option string) (h h1 h2 : heap) (cm : nat)
  (key value : string)
  (Hfirst : ConfigManager getenv h = Ok (cm, h1))
  (Hset : config_set cm key value h1 = Ok h2) :
  ConfigManager getenv' h2 = Ok (cm, h2) /\
  (forall default, config_get h2 cm key default = Ok value) /\
  (forall key' default, key' <> key ->
     config_get h2 cm key' default = config_get h1 cm key' default).
Proof.
  pose proof (SingletonFacts.ConfigManager_initialized getenv h h1 cm Hfirst)
    as [Hinst Hguard].
  unfold config_set in Hset.
  destruct (getattr h1 cm "config") as [[| | | |d]|] eqn:Eg; try discriminate Hset.
  cbn [bind] in Hset.
  assert (Hread : getattr h2 cm "config" = Ok (ADict (<[key := value]> d))).
  { unfold setattr in Hset. unfold getattr.
    destruct (objects h1 !! cm) as [o|]; [|discriminate Hset].
    injection Hset as <-. cbn. rewrite lookup_insert_eq. cbn.
    now rewrite lookup_insert_eq. }
  split; [|split].
  - apply (SingletonFacts.construct_initialized getenv' CConfigManager None cm h2).
    split; cbn [class_name guard].
    + now rewrite (SingletonFacts.setattr_instances _ _ _ _ _ Hset).
    + exact (SingletonFacts.setattr_hasattr _ _ _ _ _ Hset).
  - intros default. unfold config_get. rewrite Hread. cbn [bind].
    now rewrite lookup_insert_eq.
  - intros key' default Hne. unfold config_get. rewrite Hread, Eg. cbn [bind].
    now rewrite lookup_insert_ne.
Qed.

Lemma first_config_constructed :
  ConfigManager Samples.no_environment empty_heap =
    Ok (ConfigSamples.config_addr, ConfigSamples.config_heap).
Proof. vm_compute. reflexivity. Defined.

Lemma debug_level_set :
  config_set ConfigSamples.config_addr "LOG_LEVEL" "DEBUG" ConfigSamples.config_heap =
    Ok ConfigSamples.debug_heap.
Proof. vm_compute. reflexivity. Defined.

Lemma config_set_persists_witness :
  ConfigManager ConfigSamples.loud_environment ConfigSamples.debug_heap =
    Ok (ConfigSamples.config_addr, ConfigSamples.debug_heap) /\
  config_get ConfigSamples.debug_heap ConfigSamples.config_addr "LOG_LEVEL" "INFO" =
    Ok "DEBUG" /\
  config_get ConfigSamples.debug_heap ConfigSamples.config_addr "SQL_PORT" "0" =
    config_get ConfigSamples.config_heap ConfigSamples.config_addr "SQL_PORT" "0".
Proof.
  destruct (config_set_persists Samples.no_environment
              ConfigSamples.loud_environment empty_heap ConfigSamples.config_heap
              ConfigSamples.debug_heap ConfigSamples.config_addr
              "LOG_LEVEL" "DEBUG" first_config_constructed debug_level_set)
    as (Hagain & Hget & Hothers).
  split; [exact Hagain|]. split; [apply Hget|]. apply Hothers. discriminate.
Defined.

(** The port read with the defaults of [_load_from_env]. *)
Example default_port_kept :
  config_get ConfigSamples.debug_heap ConfigSamples.config_addr "SQL_PORT" "0" =
    Ok "1433".
Proof. vm_compute. reflexivity. Qed.

End ConfigManagerFacts.

(* --------------------------------------------------------------------- *)
(** ** The downloader behind [AlphaVantageAPI] *)
(* --------------------------------------------------------------------- *)

Module ApiDownloaderFacts.
Import StockDataDownloader.

(** X21. [download_symbol_data] never gets to handle a rate-limit note
    when its API object is an [AlphaVantageAPI]: whatever
    [get_daily_time_series] or [get_daily_adjusted] returns, the attempt
    that receives it does not sleep-and-retry on a note; it either raises
    into the [except] branch (as it does on the [None] the API returns
    for an error) or completes with data that hold no note. *)
Theorem downloader_never_retries_on_note `{Builtins}
  (E : env) (attempt : nat) (e : World.env) (function : string)
  (http_frames stack : nat)
  (api api' : AlphaVantageAPI.t) (w w' : world) (r : result pyval)
  (Hcall : AlphaVantageAPI.get_daily function http_frames stack e api w =
             (r, api', w'))
  (Hanswer : api_answer E attempt = r) :
  try_body E attempt <> Retries /\
  (r = Ok VNone -> exists ex, try_body E attempt = Raises ex) /\
  (forall data, try_body E attempt = Succeeds data ->
     r = Ok data /\ data <> VNone /\ rate_limit_note data = Ok false).
Proof.
  unfold try_body. rewrite Hanswer.
  destruct r as [data|ex]; [|repeat split; try discriminate].
  destruct (NoteRetryFacts.get_daily_never_a_note e function http_frames stack
              _ _ _ _ _ Hcall)
    as [->|[Herr Hnote]].
  - cbn. split; [discriminate|]. split; [intros _; eexists; reflexivity|].
    discriminate.
  - destruct (negb (truthy data)) eqn:Et.
    + split; [discriminate|]. split; [intros _; eexists; reflexivity|].
      discriminate.
    + rewrite Herr, Hnote. cbn [andb].
      assert (Hdata : data <> VNone) by (intros ->; discriminate Et).
      destruct (save_to_json E attempt); (split; [discriminate|]); split;
        try (intros [= ->]; congruence); try discriminate.
      intros data' [= <-]. repeat split; assumption.
Qed.

Lemma downloader_never_retries_on_note_witness :
  try_body MoreSamples.second_attempt_succeeds 2 <> Retries /\
  (forall data, try_body MoreSamples.second_attempt_succeeds 2 = Succeeds data ->
     Ok Samples.daily_payload = Ok data /\ data <> VNone /\
     rate_limit_note data = Ok false).
Proof.
  destruct (downloader_never_retries_on_note
              MoreSamples.second_attempt_succeeds 2 Samples.steady_env
              "TIME_SERIES_DAILY_ADJUSTED" 20 1000 Samples.fresh_api _
              Samples.fresh_world _ (Ok Samples.daily_payload) eq_refl eq_refl)
    as (Hretry & _ & Hdata).
  split; assumption.
Defined.

End ApiDownloaderFacts.

(* --------------------------------------------------------------------- *)
(** ** The two scripts that store symbol after symbol *)
(* --------------------------------------------------------------------- *)

Module ScriptLoopFacts.
Import Sql ScriptLoops.

Section Downloader.
Context {B : Builtins}.
Variable E : env.

Lemma Downloader_inserts_run (i : nat) (symbol_id : pyval) (rows : list historico) :
  forall (j : nat) (pending : list statement),
    snd (Downloader_inserts E i symbol_id rows j pending) =
      pending ++ executed E i j (List.map (Downloader_execute symbol_id) rows) /\
    (is_ok (fst (Downloader_inserts E i symbol_id rows j pending)) =
       all_accepted E i j (List.length rows)).
Proof.
  induction rows as [|row rows IH]; intros j pending.
  - cbn. now rewrite app_nil_r.
  - cbn [Downloader_inserts List.map executed List.length all_accepted].
    destruct (execute_accepted E i j); cbn [andb].
    + destruct (IH (S j) (pending ++ [Downloader_execute symbol_id row]))
        as [Hsnd Hfst].
      rewrite Hsnd, Hfst, <- app_assoc. split; reflexivity.
    + cbn. now rewrite app_nil_r.
Qed.

Lemma Downloader_symbol_run (i : nat) (symbol_data : pyval * string) (st : state) :
  let st' := Downloader_symbol E i symbol_data st in
  committed st' ++ pending st' =
    committed st ++ pending st ++
    executed E i 0 (Downloader_statements E symbol_data) /\
  sleeps st' =
    sleeps st ++ (if Downloader_stored E i symbol_data then [12] else []) /\
  (Downloader_stored E i symbol_data = true -> pending st' = []).
Proof.
  destruct symbol_data as [symbol_id symbol].
  unfold Downloader_symbol, Downloader_statements, Downloader_stored. cbn [fst snd].
  destruct (obtener_historico_accion E symbol) as [df|ex].
  - destruct (Downloader_inserts_run i symbol_id df 0 (pending st)) as [Hsnd Hfst].
    destruct (Downloader_inserts E i symbol_id df 0 (pending st)) as [[u|ex] p1].
    + cbn [fst snd is_ok] in *. rewrite <- Hfst. cbn [andb].
      destruct (commit_accepted E i); cbn [committed pending sleeps].
      * rewrite app_nil_r, Hsnd. repeat split.
      * rewrite Hsnd, app_nil_r. repeat split. discriminate.
    + cbn [fst snd is_ok] in *. rewrite <- Hfst. cbn [andb committed pending sleeps].
      rewrite Hsnd, app_nil_r. repeat split. discriminate.
  - cbn. rewrite !app_nil_r. repeat split. discriminate.
Qed.

Lemma Downloader_loop_run (symbols_lista : list (pyval * string)) :
  forall (i : nat) (st : state),
    let final := Downloader_loop E i symbols_lista st in
    committed final ++ pending final =
      committed st ++ pending st ++ Downloader_executed E i symbols_lista /\
    sleeps final =
      sleeps st ++ repeat 12 (Downloader_stored_count E i symbols_lista).
Proof.
  induction symbols_lista as [|symbol_data rest IH]; intros i st.
  - cbn. now rewrite !app_nil_r.
  - cbn [Downloader_loop Downloader_executed Downloader_stored_count].
    destruct (IH (S i) (Downloader_symbol E i symbol_data st)) as [Hdb Hsl].
    destruct (Downloader_symbol_run i symbol_data st) as (Hdb1 & Hsl1 & _).
    cbv zeta in *. split.
    + rewrite Hdb, app_assoc, Hdb1, <- !app_assoc. reflexivity.
    + rewrite Hsl, Hsl1, <- app_assoc. f_equal.
      destruct (Downloader_stored E i symbol_data); reflexivity.
Qed.

Lemma Downloader_loop_last (before : list (pyval * string)) (last : pyval * string) :
  forall (i : nat) (st : state),
    Downloader_loop E i (before ++ [last]) st =
    Downloader_symbol E (i + List.length before) last (Downloader_loop E i before st).
Proof.
  induction before as [|symbol_data before IH]; intros i st.
  - cbn. now rewrite Nat.add_0_r.
  - cbn [app Downloader_loop List.length]. rewrite IH. f_equal. lia.
Qed.

(** X22. The loop of [Downloader.py] never rolls back: every row the
    server executed, for any symbol, stays in the one transaction of the
    run, so the rows inserted for a symbol before one of its inserts
    failed are committed together with the next symbol that goes through.
    When the last symbol of the list goes through, everything executed
    during the run is committed.  The script sleeps its 12 seconds once
    per symbol that went through, and not after a failure. *)
Theorem Downloader_never_rolls_back
  (symbols_lista : list (pyval * string)) (st : state) :
  let final := Downloader_loop E 0 symbols_lista st in
  committed final ++ pending final =
    committed st ++ pending st ++ Downloader_executed E 0 symbols_lista /\
  sleeps final =
    sleeps st ++ repeat 12 (Downloader_stored_count E 0 symbols_lista) /\
  (forall before last,
     symbols_lista = before ++ [last] ->
     Downloader_stored E (List.length before) last = true ->
     committed final =
       committed st ++ pending st ++ Downloader_executed E 0 symbols_lista).
Proof.
  destruct (Downloader_loop_run symbols_lista 0 st) as [Hdb Hsl]. cbv zeta in *.
  split; [exact Hdb|]. split; [exact Hsl|].
  intros before last Hlist Hstored. rewrite <- Hdb.
  assert (Hpending : pending (Downloader_loop E 0 symbols_lista st) = []).
  { rewrite Hlist, Downloader_loop_last. cbn [Nat.add].
    now apply Downloader_symbol_run. }
  now rewrite Hpending, app_nil_r.
Qed.

End Downloader.

Section Main.
Context {B : Builtins}.
Variable E : env.

Lemma main_inserts_run (i : nat) (symbol_id : Z) (rows : list pyval) :
  forall (j : nat) (pending : list statement),
    match params_list symbol_id rows with
    | Ok ps =>
        if all_accepted E i j (List.length ps)
        then main_inserts E i symbol_id rows j pending =
               (Ok tt, pending ++ List.map main_execute ps)
        else is_ok (fst (main_inserts E i symbol_id rows j pending)) = false
    | Raise _ => is_ok (fst (main_inserts E i symbol_id rows j pending)) = false
    end.
Proof.
  induction rows as [|row rows IH]; intros j pending.
  - cbn. now rewrite app_nil_r.
  - cbn [params_list main_inserts].
    destruct (main_params symbol_id row) as [p|ex]; cbn [bind]; [|reflexivity].
    specialize (IH (S j) (pending ++ [main_execute p])).
    destruct (params_list symbol_id rows) as [ps|ex]; cbn [bind].
    + cbn [List.length all_accepted].
      destruct (execute_accepted E i j); cbn [andb]; [|reflexivity].
      destruct (all_accepted E i (S j) (List.length ps)); [|exact IH].
      rewrite IH, <- app_assoc. reflexivity.
    + destruct (execute_accepted E i j); [exact IH | reflexivity].
Qed.

Lemma main_symbol_run (i : nat) (symbol_data : Z * string) (st : state) :
  main_symbol E i symbol_data st =
  {| committed := committed st ++ fst (main_stored E i symbol_data);
     pending := pending st;
     sleeps := sleeps st ++ (if snd (main_stored E i symbol_data) then [12] else []) |}.
Proof.
  assert (Hsame : st = {| committed := committed st ++ []; pending := pending st;
                          sleeps := sleeps st ++ [] |})
    by (destruct st; cbn; now rewrite !app_nil_r).
  destruct symbol_data as [symbol_id symbol].
  unfold main_symbol, main_stored. cbn [fst snd].
  destruct (descargar_datos_yahoo E symbol) as [df|ex]; [|exact Hsame].
  pose proof (main_inserts_run i symbol_id df 0 []) as Hrun.
  destruct (params_list symbol_id df) as [ps|ex].
  - destruct (all_accepted E i 0 (List.length ps)); cbn [andb].
    + rewrite Hrun. cbn [app].
      destruct (commit_accepted E i); [reflexivity | exact Hsame].
    + destruct (main_inserts E i symbol_id df 0 []) as [[u|ex] p1];
        [discriminate Hrun | exact Hsame].
  - destruct (main_inserts E i symbol_id df 0 []) as [[u|ex'] p1];
      [discriminate Hrun | exact Hsame].
Qed.

(** X23. [ejemplo_uso] stores each symbol all or nothing: with a
    connection per symbol, a symbol whose download, whose parameters or
    one of whose inserts fails, or whose commit fails, leaves no row
    behind, and a symbol that goes through leaves all its rows.  After
    the loop the committed statements are those before it followed by the
    statements of the symbols that went through, in order, and the script
    has slept 12 seconds once for each of them. *)
Theorem ejemplo_uso_stores_whole_symbols
  (symbols_lista : list (Z * string)) (st : state) :
  let final := main_loop E 0 symbols_lista st in
  committed final = committed st ++ main_stored_rows E 0 symbols_lista /\
  pending final = pending st /\
  sleeps final = sleeps st ++ repeat 12 (main_stored_count E 0 symbols_lista).
Proof.
  cbv zeta. generalize 0%nat as i. revert st.
  induction symbols_lista as [|symbol_data rest IH]; intros st i.
  - cbn. now rewrite !app_nil_r.
  - cbn [main_loop main_stored_rows main_stored_count].
    destruct (IH (main_symbol E i symbol_data st) (S i)) as (Hc & Hp & Hs).
    rewrite Hc, Hp, Hs, main_symbol_run. cbn [committed pending sleeps].
    rewrite <- !app_assoc. repeat split. f_equal.
    destruct (snd (main_stored E i symbol_data)); reflexivity.
Qed.

End Main.

(** Two symbols, the second insert of the first rejected.  On the one
    connection of [Downloader.py] the first row of the first symbol is
    committed with the rows of the second ... *)
Example Downloader_commits_partial_symbol :
  committed (Downloader_loop ScriptSamples.second_row_rejected 0
               [(VInt 1, "AAPL"); (VInt 2, "MSFT")] ScriptSamples.empty_state) =
    [Downloader_execute (VInt 1) (ScriptSamples.historico_of "2024-01-02");
     Downloader_execute (VInt 2) (ScriptSamples.historico_of "2024-01-02");
     Downloader_execute (VInt 2) (ScriptSamples.historico_of "2024-01-03")] /\
  sleeps (Downloader_loop ScriptSamples.second_row_rejected 0
            [(VInt 1, "AAPL"); (VInt 2, "MSFT")] ScriptSamples.empty_state) = [12].
Proof. split; reflexivity. Qed.

(** ... while [ejemplo_uso], with a connection per symbol, keeps nothing
    of the first symbol. *)
Example ejemplo_uso_drops_partial_symbol :
  committed (main_loop ScriptSamples.second_row_rejected 0
               [(1, "AAPL"); (2, "MSFT")] ScriptSamples.empty_state) =
    [main_execute (ScriptSamples.params_of_day 2 "2024-01-02");
     main_execute (ScriptSamples.params_of_day 2 "2024-01-03")] /\
  sleeps (main_loop ScriptSamples.second_row_rejected 0
            [(1, "AAPL"); (2, "MSFT")] ScriptSamples.empty_state) = [12].
Proof. split; reflexivity. Qed.

End ScriptLoopFacts.

(* --------------------------------------------------------------------- *)
(** ** The parameters of the inserts *)
(* --------------------------------------------------------------------- *)

Module InsertFacts.
Import Sql InsertPaths.

Section Lists.
Variable A : Type.






End Lists.

Section Storage.
Context {B : Builtins}.








End Storage.

Section Scripts.
Context {B : Builtins}.
Variable E : ScriptLoops.env.





End Scripts.

Section Form.
Context {B : Builtins}.
Variable E : WebApp.env.




End Form.

Section Inserts.
Context {B : Builtins}.


End Inserts.

(** The statements of a run that stores two items: one text, and for the
    first tuple the values of the first item. *)
Example two_items_sent :
  let sent := StockDataStorage_sent Samples.empty_db
                (snd (StockDataStorage.store_stock_data Samples.accepting_server
                        "AAPL" Samples.two_items 7 Samples.empty_db)) in
  List.map text sent = [StockDataStorage_query; StockDataStorage_query] /\
  List.hd_error (List.map positional sent) =
    Some [@VInt Decimal.builtins 1; VStr "2024-01-02";
          @VFloat Decimal.builtins (18715 # 100)%Q;
          @VFloat Decimal.builtins (18844 # 100)%Q;
          @VFloat Decimal.builtins (18388 # 100)%Q;
          @VFloat Decimal.builtins (18564 # 100)%Q;
          @VFloat Decimal.builtins (18490 # 100)%Q;
          VInt 82488700; VInt 7].
Proof. cbv zeta. split; reflexivity. Qed.

End InsertFacts.

(* --------------------------------------------------------------------- *)
(** ** Statements put together at run time *)
(* --------------------------------------------------------------------- *)

Module DynamicSqlFacts.
Import Sql DynamicSql.

Lemma count_positional_app (a b : string) :
  count_positional (String.append a b) =
    (count_positional a + count_positional b)%nat.
Proof.
  induction a as [|c a IH]; [reflexivity|].
  change (String.append (String c a) b) with (String c (String.append a b)).
  cbn [count_positional]. rewrite IH. lia.
Qed.

Lemma prefix_append (s b : string) : String.prefix s (String.append s b) = true.
Proof.
  induction s as [|c s IH]; [now destruct b|].
  change (String.append (String c s) b) with (String c (String.append s b)).
  cbn [String.prefix]. destruct (ascii_dec c c); [exact IH | congruence].
Qed.

Lemma is_substring_here (s b : string) : is_substring s (String.append s b) = true.
Proof.
  destruct (String.append s b) eqn:E; cbn [is_substring];
    rewrite <- E, prefix_append; reflexivity.
Qed.

Lemma is_substring_later (n a h : string) :
  is_substring n h = true -> is_substring n (String.append a h) = true.
Proof.
  intros Hh. induction a as [|c a IH]; [exact Hh|].
  change (String.append (String c a) h) with (String c (String.append a h)).
  cbn [is_substring]. rewrite IH. apply orb_true_r.
Qed.

Section Statements.
Context {B : Builtins}.

(** X24. The UPDATE statements of the metadata manager are parameterized
    although their text is put together at run time: the text is one of
    three (two for [update_download_status]) fixed strings, chosen by
    which arguments are given and not by their values, with one [?] for
    each value passed along, the id last; and [update_symbol] sends no
    statement when neither field is given. *)
Theorem updates_are_parameterized :
  (forall (symbol_id : pyval) (company_name is_active : option pyval)
          (st : statement),
     update_symbol symbol_id company_name is_active = Some st ->
     In (text st) update_symbol_texts /\
     parameterized (text st) st /\
     List.last (positional st) VNone = symbol_id) /\
  (forall symbol_id : pyval, update_symbol symbol_id None None = None) /\
  (forall (download_id status : pyval) (end_date : option pyval),
     let st := update_download_status download_id status end_date in
     In (text st) update_download_status_texts /\
     parameterized (text st) st /\
     List.last (positional st) VNone = download_id).
Proof.
  split; [|split].
  - intros symbol_id [name|] [active|] st; cbn; intros [= <-]; cbn.
    + split; [right; right; left; reflexivity|]. repeat split.
    + split; [left; reflexivity|]. repeat split.
    + split; [right; left; reflexivity|]. repeat split.
  - reflexivity.
  - intros download_id status [end_date|]; cbn.
    + split; [right; left; reflexivity|]. repeat split.
    + split; [left; reflexivity|]. repeat split.
Qed.

(** X25. The query of [get_stock_data_from_db] passes the symbol id and
    the two dates as parameters, with one [?] each, but not the limit:
    a limit that counts as true is written into the text of the query as
    the f-string formats it, so the text changes with the limit, and the
    placeholders match the parameters only as long as the formatted limit
    holds no [?]. *)
Theorem stock_data_limit_is_interpolated
  (format : pyval -> string) (symbol_id start_date end_date limit : pyval) :
  let st := get_stock_data_query format symbol_id start_date end_date limit in
  positional st =
    [symbol_id] ++ (if truthy start_date then [start_date] else []) ++
    (if truthy end_date then [end_date] else []) /\
  count_positional (text st) =
    (List.length (positional st) +
     (if truthy limit then count_positional (format limit) else 0))%nat /\
  (truthy limit = true -> is_substring (format limit) (text st) = true).
Proof.
  unfold get_stock_data_query. cbv zeta. cbn [text positional].
  split; [|split].
  - destruct (truthy start_date), (truthy end_date); reflexivity.
  - destruct (truthy limit); rewrite ?count_positional_app;
      destruct (truthy start_date), (truthy end_date);
      rewrite ?count_positional_app; cbn; lia.
  - intros ->. apply is_substring_later, is_substring_later, is_substring_here.
Qed.

End Statements.

(** A limit given as text reaches the server as part of the query. *)
Example limit_text_in_query :
  text (get_stock_data_query (B := Decimal.builtins)
          (fun v => match v with VStr s => s | _ => "" end)
          (VInt 1) VNone VNone (VStr "1 ROWS ONLY; DROP TABLE t --")) =
  String.append stock_data_select
    " ORDER BY p.Date DESC OFFSET 0 ROWS FETCH NEXT 1 ROWS ONLY; DROP TABLE t -- ROWS ONLY".
Proof. reflexivity. Qed.

End DynamicSqlFacts.

(* --------------------------------------------------------------------- *)
(** ** All the files of the data directory *)
(* --------------------------------------------------------------------- *)

Module StorageRunFacts.
Import StockDataFiles StorageRuns.

Section Runs.
Context {B : Builtins}.
Variable R : env.

(** With a rollback that succeeds the file is stored as
    [StockDataFiles.process_and_store_file] stores it. *)
Lemma process_and_store_file_rollback (E : StockDataStorage.env)
  (loaded : result pyval) (json_file : string) (did : Z) (d : StockDataStorage.db) :
  StorageRuns.process_and_store_file E false loaded json_file did d =
  StockDataFiles.process_and_store_file E loaded json_file did d.
Proof. reflexivity. Qed.

(** The loop when it ends normally: it has moved the known files whose
    rename succeeded and recorded every known file. *)
Lemma files_loop_returns (json_files : list string) :
  forall (i : nat) (st st' : state),
    files_loop R i json_files st = (Ok tt, st') ->
    moved st' =
      moved st ++ List.filter (fun f => known R f && rename_ok R f) json_files /\
    (forall f, is_Some (results st' !! f) <->
               is_Some (results st !! f) \/ (In f json_files /\ known R f = true)).
Proof.
  induction json_files as [|json_file rest IH]; intros i st st'.
  - cbn. intros [= <-]. split; [now rewrite app_nil_r|]. intros f. tauto.
  - cbn [files_loop List.filter]. unfold known at 1.
    destruct (symbol_id_of R (split_first json_file)) as [symbol_id|] eqn:Es.
    + destruct (last_download_id R symbol_id) as [download_id|] eqn:El.
      * destruct (StorageRuns.process_and_store_file _ _ _ _ _ _)
          as [[inserted_count|ex] d1]; [|discriminate].
        destruct (makedirs_ok R i); [|discriminate].
        intros Hrun. destruct (IH _ _ _ Hrun) as (Hmoved & Hres).
        cbn [moved results] in Hmoved, Hres. split.
        -- rewrite Hmoved. cbn [andb].
           destruct (rename_ok R json_file); [|reflexivity].
           now rewrite <- app_assoc.
        -- intros f. rewrite Hres. destruct (decide (f = json_file)) as [->|Hne].
           ++ rewrite lookup_insert_eq. split; [intros _|intros _; left; eauto].
              right. split; [now left|]. unfold known. now rewrite Es, El.
           ++ rewrite lookup_insert_ne by congruence. cbn [In]. split.
              ** intros [H|[H1 H2]]; [now left | right; split; [now right | exact H2]].
              ** intros [H|[[H1|H1] H2]];
                   [now left | congruence | right; split; assumption].
      * intros Hrun. destruct (IH _ _ _ Hrun) as (Hmoved & Hres).
        split; [exact Hmoved|].
        intros f. rewrite Hres. cbn [In]. split.
        -- intros [H|[H1 H2]]; [now left | right; split; [now right | exact H2]].
        -- intros [H|[[H1|H1] H2]]; [now left | | right; split; assumption].
           subst f. unfold known in H2. rewrite Es, El in H2. discriminate.
    + intros Hrun. destruct (IH _ _ _ Hrun) as (Hmoved & Hres).
      split; [exact Hmoved|].
      intros f. rewrite Hres. cbn [In]. split.
      * intros [H|[H1 H2]]; [now left | right; split; [now right | exact H2]].
      * intros [H|[[H1|H1] H2]]; [now left | | right; split; assumption].
        subst f. unfold known in H2. rewrite Es in H2. discriminate.
Qed.

(** The loop ends normally when no rollback and no [os.makedirs] fails. *)
Lemma files_loop_succeeds (json_files : list string) :
  (forall i, rollback_fails R i = false /\ makedirs_ok R i = true) ->
  forall (i : nat) (st : state),
    exists st', files_loop R i json_files st = (Ok tt, st').
Proof.
  intros Hfine.
  induction json_files as [|json_file rest IH]; intros i st.
  - eexists. reflexivity.
  - cbn [files_loop].
    destruct (symbol_id_of R (split_first json_file)) as [symbol_id|]; [|apply IH].
    destruct (last_download_id R symbol_id) as [download_id|]; [|apply IH].
    destruct (Hfine i) as [-> ->]. rewrite process_and_store_file_rollback.
    destruct (StorageFileFacts.process_and_store_file_count
                (storage_env R i) (loaded R (path_join (data_dir R) json_file))
                (path_join (data_dir R) json_file) download_id (db st))
      as (n & d1 & ->).
    apply IH.
Qed.

Lemma filter_taken (P : string -> bool) (files : list string) :
  List.filter (fun f => taken R f && P f) files =
  List.filter (fun f => known R f && P f)
    (List.filter (fun f => endswith f ".json") files).
Proof.
  induction files as [|f files IH]; [reflexivity|].
  cbn [List.filter]. unfold taken at 1.
  destruct (endswith f ".json"); cbn [andb List.filter]; [|exact IH].
  destruct (known R f && P f); now rewrite IH.
Qed.

(** X26. Whether [process_all_json_files] moves a file to [processed/]
    does not depend on whether its rows were stored: when the method
    returns, it has moved exactly the JSON files named after a known
    symbol that has a download record (where the rename succeeded), in the
    order of the listing, and it reports exactly those files in its
    result, whatever the files hold and whatever the server answered to
    the inserts; the other files stay where they are.  It returns when
    listing the directory, every [os.makedirs] and every rollback go
    through; an error of [os.listdir] leaves the method before any file
    is touched. *)
Theorem process_all_json_files_moves_taken_files (d : StockDataStorage.db) :
  let run := process_all_json_files R d in
  (forall results,
     fst (fst run) = Ok results ->
     snd (fst run) =
       (if data_dir_exists R
        then List.filter (fun f => taken R f && rename_ok R f) (listed R)
        else []) /\
     (forall f, is_Some (results !! f) <->
                data_dir_exists R = true /\ In f (listed R) /\ taken R f = true)) /\
  ((data_dir_exists R = true -> exists files, listdir R = Ok files) ->
   (forall i, rollback_fails R i = false /\ makedirs_ok R i = true) ->
   exists results, fst (fst run) = Ok results) /\
  (forall ex,
     data_dir_exists R = true -> listdir R = Raise ex -> run = (Raise ex, [], d)).
Proof.
  cbv zeta. unfold process_all_json_files, listed.
  destruct (data_dir_exists R); cbn [negb].
  - destruct (listdir R) as [files|ex0] eqn:Elist.
    + assert (Htaken : forall f,
                In f files /\ taken R f = true <->
                In f (List.filter (fun f => endswith f ".json") files) /\
                known R f = true).
      { intros f. rewrite filter_In. unfold taken.
        rewrite andb_true_iff. tauto. }
      rewrite (filter_taken (rename_ok R)).
      destruct (List.filter (fun f => endswith f ".json") files)
        as [|json_file rest] eqn:Efiles.
      * split; [|split].
        -- intros results [= <-]. split; [reflexivity|].
           intros f. rewrite lookup_empty. split.
           ++ intros [x Hx]. discriminate.
           ++ intros (_ & Hin & Ht).
              destruct (proj1 (Htaken f) (conj Hin Ht)) as [[] _].
        -- intros _ _. eexists. reflexivity.
        -- discriminate.
      * split; [|split].
        -- intros results.
           destruct (files_loop R 0 (json_file :: rest)
                       {| db := d; results := ∅; moved := [] |})
             as [[[]|ex] st'] eqn:Eloop; [|discriminate].
           cbn [fst snd]. intros [= <-].
           destruct (files_loop_returns _ _ _ _ Eloop) as (Hmoved & Hres).
           split; [exact Hmoved|].
           intros f. rewrite Hres. cbn [results]. rewrite lookup_empty. split.
           ++ intros [[x Hx]|H]; [discriminate|].
              split; [reflexivity|]. now apply Htaken.
           ++ intros (_ & Hin & Ht). right. apply Htaken. now split.
        -- intros _ Hfine.
           destruct (files_loop_succeeds (json_file :: rest) Hfine 0
                       {| db := d; results := ∅; moved := [] |}) as (st' & ->).
           eexists. reflexivity.
        -- discriminate.
    + split; [|split].
      * discriminate.
      * intros Hlist. destruct (Hlist eq_refl) as [files Hfiles]. discriminate.
      * intros ex _ [= <-]. reflexivity.
  - split; [|split].
    + intros results [= <-]. split; [reflexivity|].
      intros f. rewrite lookup_empty. split.
      * intros [x Hx]. discriminate.
      * intros (Hd & _). discriminate.
    + intros _ _. eexists. reflexivity.
    + discriminate.
Qed.

End Runs.

(** A file whose rows the server rejected is moved all the same. *)
Example unstored_file_is_moved :
  let run := process_all_json_files RunSamples.rejecting_run Samples.empty_db in
  snd (fst run) = ["AAPL_20250331_120000.json"] /\
  StockDataStorage.committed (snd run) = [] /\
  (exists results,
     fst (fst run) = Ok results /\
     results !! "AAPL_20250331_120000.json" = Some ("AAPL", 7, 0%nat)).
Proof.
  cbv zeta. split; [reflexivity|]. split; [reflexivity|].
  eexists. split; [reflexivity|]. reflexivity.
Qed.

(** With the connection lost the rollback raises, the method ends with
    the error, and the file stays in the data directory. *)
Example failed_rollback_ends_the_run :
  let run := process_all_json_files RunSamples.lost_connection_run
               Samples.empty_db in
  fst (fst run) = Raise DatabaseError /\ snd (fst run) = [].
Proof. cbv zeta. split; reflexivity. Qed.

End StorageRunFacts.

(* --------------------------------------------------------------------- *)
(** ** Errors of the API as [AlphaVantageAPI] reports them *)
(* --------------------------------------------------------------------- *)

Module ApiErrorFacts.
Local Open Scope Q_scope.

(** X27. [AlphaVantageAPI.get_daily_time_series] and
    [get_daily_adjusted] report a failure as [None] without raising and
    without trying again: when the request fails, its body is no JSON, or
    the answer is a JSON object with the member ['Error Message'], a call
    with room on the stack for its request returns [None] after this one
    request, having slept only what its rate limiter asked for.  A JSON
    list or string in which ['Error Message'] is found is not reported
    that way: the method raises TypeError when it looks the message
    up. *)
Theorem get_daily_reports_errors_as_none `{Builtins}
  (e : env) (function : string) (http_frames room : nat)
  (self : AlphaVantageAPI.t) (w : world)
  (Hroom : (http_frames <= S room)%nat)
  (Herror : response_of e (List.length (requests w)) = HttpError \/
            response_of e (List.length (requests w)) = BadJson \/
            exists members,
              response_of e (List.length (requests w)) = Json (VDict members) /\
              has_key "Error Message" members = true) :
  (exists self' w',
     AlphaVantageAPI.get_daily function http_frames (S (S room)) e self w =
       (Ok VNone, self', w') /\
     List.length (requests w') = S (List.length (requests w)) /\
     slept w' = slept w ++ limiter_sleep self w) /\
  (forall (e' : env) (self0 : AlphaVantageAPI.t) (w0 : world) (data : pyval),
     response_of e' (List.length (requests w0)) = Json data ->
     contains "Error Message" data = Ok true ->
     (forall members, data <> VDict members) ->
     fst (fst (AlphaVantageAPI.get_daily function http_frames (S (S room))
                 e' self0 w0)) = Raise TypeError).
Proof.
  apply Nat.ltb_ge in Hroom. split.
  - rewrite NoteRetryFacts.get_daily_unfold. cbv zeta.
    rewrite Hroom, NoteRetryFacts.get_response.
    assert (Hreq : List.length
              (requests (snd (requests_get e function
                 (snd (AlphaVantageAPI._respect_rate_limit e self w))))) =
            S (List.length (requests w))).
    { unfold requests_get. cbn [snd requests].
      rewrite List.length_app, NoteRetryFacts.respect_requests. cbn. lia. }
    assert (Hsl : slept (snd (requests_get e function
                    (snd (AlphaVantageAPI._respect_rate_limit e self w)))) =
                  slept w ++ limiter_sleep self w).
    { unfold requests_get. cbn [snd slept]. apply NoteRetryFacts.respect_slept. }
    destruct Herror as [-> | [-> | (members & -> & Hkey)]];
      [eexists _, _; (split; [reflexivity|]); split; assumption ..|].
    cbn [contains subscript]. rewrite Hkey. unfold has_key in Hkey.
    destruct (lookup "Error Message" members); [|discriminate].
    eexists _, _. split; [reflexivity|]. split; assumption.
  - intros e' self0 w0 data Hresponse Hfound Hshape.
    rewrite NoteRetryFacts.get_daily_unfold. cbv zeta.
    rewrite Hroom, NoteRetryFacts.get_response, Hresponse, Hfound.
    destruct data as [| | | | | |members]; try discriminate Hfound;
      try reflexivity.
    now destruct (Hshape members).
Qed.

Lemma get_daily_reports_errors_as_none_witness :
  exists self' w',
    AlphaVantageAPI.get_daily "TIME_SERIES_DAILY" 20 1000 MoreSamples.failing_env
      Samples.fresh_api Samples.fresh_world =
      (Ok (@VNone Decimal.builtins), self', w') /\
    List.length (requests w') = 1%nat /\
    slept w' = slept Samples.fresh_world ++
               @limiter_sleep Decimal.builtins Samples.fresh_api Samples.fresh_world.
Proof.
  exact (proj1 (get_daily_reports_errors_as_none MoreSamples.failing_env
                  "TIME_SERIES_DAILY" 20 998 Samples.fresh_api Samples.fresh_world
                  ltac:(lia) (or_introl eq_refl))).
Defined.

(** A body that is the bare text of the error. *)
Example error_text_raises :
  fst (fst (AlphaVantageAPI.get_daily "TIME_SERIES_DAILY" 20 1000
              {| response_of := fun _ => Json (@VStr Decimal.builtins
                                               "Error Message: Invalid API call.");
                 latency_of := fun _ => (1 # 2)%Q;
                 overshoot_of := fun _ => 0%Q |}
              Samples.fresh_api Samples.fresh_world)) =
  Raise TypeError.
Proof. vm_compute. reflexivity. Qed.

End ApiErrorFacts.
